(** * amlearn: short-range-order featurizers and input checks

    A shallow embedding of
      - [amlearn/utils/check.py]  ([check_within]) and
      - [amlearn/featurize/featurizers/short_range_order.py]
        ([PackingOfSite], [VolumeAreaInterstice], [CharacterMotif], [BOOP])
    together with the properties of these functions that the
    specification of the repository states.

    Conventions of the embedding.
      - Python numbers are exact rationals ([Q]).  Python compares an
        [int] with a finite [float] exactly, and every finite float is a
        rational, so comparisons are exact; arithmetic is idealised (no
        rounding), and equalities between computed numbers are stated
        with [==].  NaN and the infinities are outside the model.
      - A Python exception is the [Raise] alternative of [result]; code
        runs in the error monad, statements in source order.
      - Attributes that an object may lack ([hasattr] tests, attributes
        created by an earlier method call) are [option] fields.
      - Dictionaries are [gmap]s or, where iteration order is visible,
        association lists. *)

From Stdlib Require Import QArith Qabs ZArith List String Ascii Bool Lia.
From Stdlib Require Import DecimalString DecimalZ FinFun.
From stdpp Require Import gmap strings list fin_maps.

Local Open Scope Z_scope.
Local Open Scope string_scope.

(** ** Exceptions and the error monad *)

Inductive PyErr : Type :=
| TypeError
| KeyError
| IndexError
| AttributeError
| ValueError
| RuntimeError
| ZeroDivisionError
| QhullError.

Inductive result (A : Type) : Type :=
| Ok (a : A)
| Raise (e : PyErr).

Arguments Ok {A} a.
Arguments Raise {A} e.

Definition rbind {A B} (c : result A) (k : A -> result B) : result B :=
  match c with
  | Ok a => k a
  | Raise e => Raise e
  end.

Notation "'let*' x ':=' c 'in' k" := (rbind c (fun x => k))
  (at level 10, x pattern, c at level 100, k at level 200).

Definition is_ok {A} (c : result A) : bool :=
  match c with Ok _ => true | Raise _ => false end.

(** [d[k]] on a dictionary: [KeyError] when the key is absent. *)
Definition getitem {K V} `{Countable K} (d : gmap K V) (k : K) : result V :=
  match d !! k with
  | Some v => Ok v
  | None => Raise KeyError
  end.

(** [l[i]] on a list, non-negative index: [IndexError] out of range. *)
Definition list_getitem {A} (l : list A) (i : nat) : result A :=
  match nth_error l i with
  | Some v => Ok v
  | None => Raise IndexError
  end.

(** An attribute that exists only once some method has created it. *)
Definition getattr {A} (a : option A) : result A :=
  match a with
  | Some v => Ok v
  | None => Raise AttributeError
  end.

(** [a / b] on Python numbers. *)
Definition pydiv (a b : Q) : result Q :=
  if Qeq_bool b 0 then Raise ZeroDivisionError else Ok (a / b)%Q.

(** Monadic map and left fold, the shape of a [for] loop that appends
    to a list, respectively updates an accumulator. *)
Fixpoint mapM {A B} (f : A -> result B) (l : list A) : result (list B) :=
  match l with
  | [] => Ok []
  | x :: xs =>
      let* y := f x in
      let* ys := mapM f xs in
      Ok (y :: ys)
  end.

Fixpoint foldM {A B} (f : A -> B -> result A) (acc : A) (l : list B)
  : result A :=
  match l with
  | [] => Ok acc
  | x :: xs => let* acc' := f acc x in foldM f acc' xs
  end.

(** ** [amlearn/utils/check.py] *)

(** [sys.float_info.max], the largest finite double:
    (2^53 - 1) * 2^971. *)
Definition float_info_max : Q := inject_Z ((2 ^ 53 - 1) * 2 ^ 971).

(** The values [criterion] holds: numbers, or [None]. *)
Definition criterion := list (option Q).

(** [criterion[i] if criterion[i] is not None else default]; an index
    out of range raises inside the [try] block. *)
Definition bound_or (c : criterion) (i : nat) (default : Q) : result Q :=
  match nth_error c i with
  | Some (Some v) => Ok v
  | Some None => Ok default
  | None => Raise IndexError
  end.

(** [x in criterion]. *)
Definition contains (c : criterion) (x : Q) : bool :=
  existsb (fun e => match e with
                    | Some v => Qeq_bool x v
                    | None => false
                    end) c.

(** A Python string object: its characters, and whether it is the
    interned object for these characters.  CPython interns the string
    constants of compiled code that are spelled like identifiers, so the
    literals "range" and "value" of [check_within], the default value of
    its parameter and the same literal in a calling module are one object
    each; a string put together at run time (joined, formatted, read
    from a file) is an object of its own unless it went through
    [sys.intern]. *)
Record PyStr : Type := mkPyStr { chars : string; interned : bool }.

(** A string literal of some source file. *)
Definition literal (s : string) : PyStr := mkPyStr s true.

(** A string built at run time. *)
Definition built (s : string) : PyStr := mkPyStr s false.

(** [a is "lit"]: identity with the object of a literal.  Equal
    characters alone do not make the test succeed. *)
Definition is_literal (a : PyStr) (lit : string) : bool :=
  interned a && String.eqb (chars a) lit.

(** The tests [criterion_type is "range"] and [criterion_type is "value"]
    are tests of identity with the literals.  Only the two lookups in
    [criterion] stand inside the [try] block, whose handler turns any
    exception into a [ValueError]. *)
Definition check_within (x : Q) (c : criterion) (criterion_type : PyStr)
  : result bool :=
  if is_literal criterion_type "range" then
    match
      (let* range_lw := bound_or c 0 (- float_info_max)%Q in
       let* range_hi := bound_or c 1 float_info_max in
       Ok (range_lw, range_hi))
    with
    | Raise _ => Raise ValueError
    | Ok (range_lw, range_hi) =>
        Ok (andb (negb (Qle_bool x range_lw)) (negb (Qle_bool range_hi x)))
    end
  else if is_literal criterion_type "value" then
    Ok (contains c x)
  else Raise RuntimeError.

(** ** Strings as Python formats them *)

(** [str(n)] for an integer. *)
Definition pystr (n : Z) : string := NilZero.string_of_int (Z.to_int n).

(** [s.replace(old, new)] for a non-empty [old]: occurrences are replaced
    left to right without overlap.  [skip] counts the characters of a
    matched occurrence that are still to be dropped. *)
Fixpoint replace_from (old new : string) (skip : nat) (s : string) : string :=
  match s with
  | EmptyString => EmptyString
  | String c rest =>
      match skip with
      | S k => replace_from old new k rest
      | O =>
          if String.prefix old s
          then new ++ replace_from old new (String.length old - 1) rest
          else String c (replace_from old new 0 rest)
      end
  end.

Definition replace (s old new : string) : string := replace_from old new 0 s.

(** [s.startswith(p)]. *)
Definition startswith (s p : string) : bool := String.prefix p s.

(** ** Sites, radii and hulls *)

Definition Coord : Type := Q * Q * Q.

#[local] Unset Elimination Schemes.

(** Modelled from the spec: [amlearn.data.site.Site] is not part of the
    sources at hand.  A site has an identity, Cartesian coordinates, a
    type identifier and an ordered list of neighbor references.  Python
    holds the neighbors by reference; [PackingOfSite] reads only their
    type and position, so a neighbor is recorded by value. *)
Inductive Site : Type :=
  mkSite { site_idx : Z; coords : Coord; type : Z; neighbors : list Site }.
#[local] Set Elimination Schemes.

(** Modelled from the spec: the coordination number [Site.cn] is the
    count of the neighbors of the site. *)
Definition cn (s : Site) : Z := Z.of_nat (length (neighbors s)).

(** One more occurrence of type [t] in a type-count dictionary that keeps
    insertion order. *)
Fixpoint count_type (t : Z) (d : list (Z * Z)) : list (Z * Z) :=
  match d with
  | [] => [(t, 1)]
  | (k, n) :: d' =>
      if Z.eqb k t then (k, n + 1) :: d' else (k, n) :: count_type t d'
  end.

(** Modelled from the spec: [Site.nn_type_dict()] maps each distinct
    neighbor type to the number of neighbors of that type. *)
Definition nn_type_dict (s : Site) : list (Z * Z) :=
  fold_left (fun d nb => count_type (type nb) d) (neighbors s) [].

(** The radius table: stringified atomic number, then radius convention. *)
Abbreviation Radii := (gmap string (gmap string Q)).

(** [radii[str(t)][radius_type]]. *)
Definition radius_of (radii : Radii) (radius_type : string) (t : Z)
  : result Q :=
  let* entry := getitem radii (pystr t) in
  getitem entry radius_type.

(** A facet of a hull in 3-D: a row of [ConvexHull.simplices], three
    indices into the point list. *)
Definition Simplex : Type := nat * nat * nat.

Definition items (s : Simplex) : list nat :=
  let '(a, b, c) := s in [a; b; c].

(** What the methods below read of [scipy.spatial.ConvexHull]. *)
Record Hull : Type := mkHull {
  simplices : list Simplex;
  volume : Q
}.

(** [math.pi], the double nearest to pi: 884279719003555 / 2^48. *)
Definition pi : Q := 884279719003555 # 281474976710656.

(** The collaborators of [PackingOfSite] that live outside the sources at
    hand: [Site.nn_coords()] (neighbor positions, periodic images
    resolved), scipy's [ConvexHull], the helpers of
    [amlearn.utils.packing] and the radius table stored in [PTE.json]. *)
Class Externals : Type := {
  nn_coords : Site -> list Coord;
  ConvexHull : list Coord -> result Hull;
  solid_angle : Coord -> Coord -> Coord -> Coord -> Q;
  triangular_angle : Coord -> Coord -> Coord -> Q;
  triangle_area : Coord -> Coord -> Coord -> Q;
  tetra_volume : Coord -> Coord -> Coord -> Coord -> Q;
  PTE_dict : Radii
}.

(** Exact test for the point sets on which a 3-D hull is not defined:
    there are points, and every four of them are coplanar (this covers
    colinear sets and sets of fewer than four distinct points).  The
    empty list is no point set: it does not reach the hull algorithm. *)
Definition vsub (p q : Coord) : Coord :=
  let '(px, py, pz) := p in
  let '(qx, qy, qz) := q in
  (px - qx, py - qy, pz - qz)%Q.

Definition det3 (u v w : Coord) : Q :=
  let '(ux, uy, uz) := u in
  let '(vx, vy, vz) := v in
  let '(wx, wy, wz) := w in
  (ux * (vy * wz - vz * wy) - uy * (vx * wz - vz * wx)
   + uz * (vx * wy - vy * wx))%Q.

Definition coplanar4 (p q r s : Coord) : bool :=
  Qeq_bool (det3 (vsub q p) (vsub r p) (vsub s p)) 0.

Definition degenerate (pts : list Coord) : bool :=
  negb (Nat.eqb (length pts) 0)
  && forallb (fun p => forallb (fun q => forallb (fun r =>
       forallb (fun s => coplanar4 p q r s) pts) pts) pts) pts.

(** ** [PackingOfSite] *)

Record PackingOfSite : Type := mkPackingOfSite {
  site : Site;
  radii : Radii;
  radius_type : string;
  convex_hull_ : option Hull;
  triangular_angle_lists_ : option (list (list Q));
  solid_angle_lists_ : option (list (list Q));
  area_list_ : option (list Q);
  area_interstice_list_ : option (list Q);
  neighbors_solid_angle_ : option (list Q)
}.

Definition set_convex_hull_ (self : PackingOfSite) (h : Hull) :=
  mkPackingOfSite (site self) (radii self) (radius_type self) (Some h)
    (triangular_angle_lists_ self) (solid_angle_lists_ self)
    (area_list_ self) (area_interstice_list_ self)
    (neighbors_solid_angle_ self).

Definition set_triangular_angle_lists_ (self : PackingOfSite) l :=
  mkPackingOfSite (site self) (radii self) (radius_type self)
    (convex_hull_ self) (Some l) (solid_angle_lists_ self)
    (area_list_ self) (area_interstice_list_ self)
    (neighbors_solid_angle_ self).

Definition set_solid_angle_lists_ (self : PackingOfSite) l :=
  mkPackingOfSite (site self) (radii self) (radius_type self)
    (convex_hull_ self) (triangular_angle_lists_ self) (Some l)
    (area_list_ self) (area_interstice_list_ self)
    (neighbors_solid_angle_ self).

Definition set_area_lists_ (self : PackingOfSite) (al il : list Q) :=
  mkPackingOfSite (site self) (radii self) (radius_type self)
    (convex_hull_ self) (triangular_angle_lists_ self)
    (solid_angle_lists_ self) (Some al) (Some il)
    (neighbors_solid_angle_ self).

Definition set_neighbors_solid_angle_ (self : PackingOfSite) l :=
  mkPackingOfSite (site self) (radii self) (radius_type self)
    (convex_hull_ self) (triangular_angle_lists_ self)
    (solid_angle_lists_ self) (area_list_ self)
    (area_interstice_list_ self) (Some l).

(** *** The constructor and its call *)

(** The values passed by keyword at the call sites of the constructor. *)
Inductive PyArg : Type :=
| ArgRadii (r : option Radii)
| ArgStr (s : string)
| ArgBool (b : bool).

(** The parameters of [PackingOfSite.__init__] after [self]:
    [site, radii=None, radius_type="miracle_radius"]. *)
Definition PackingOfSite_parameters : list string :=
  ["site"; "radii"; "radius_type"].

(** Python binds keyword arguments by name; a keyword that names no
    parameter of a function without [**kwargs] is a [TypeError]. *)
Definition unexpected_keyword (params : list string)
    (kwargs : list (string * PyArg)) : bool :=
  existsb (fun kv => negb (existsb (String.eqb (fst kv)) params)) kwargs.

Definition keyword (name : string) (kwargs : list (string * PyArg))
  : option PyArg :=
  match List.filter (fun kv => String.eqb (fst kv) name) kwargs with
  | kv :: _ => Some (snd kv)
  | [] => None
  end.

(** The body of [__init__]. *)
Definition PackingOfSite_init `{Externals} (s : Site) (r : option Radii)
    (rt : string) : PackingOfSite :=
  mkPackingOfSite s (match r with None => PTE_dict | Some d => d end) rt
    None None None None None None.

(** The call [PackingOfSite(site, **kwargs)]. *)
Definition PackingOfSite_call `{Externals} (s : Site)
    (kwargs : list (string * PyArg)) : result PackingOfSite :=
  if unexpected_keyword PackingOfSite_parameters kwargs then Raise TypeError
  else
    let r := match keyword "radii" kwargs with
             | Some (ArgRadii r) => r
             | _ => None
             end in
    let rt := match keyword "radius_type" kwargs with
              | Some (ArgStr s) => s
              | _ => "miracle_radius"
              end in
    Ok (PackingOfSite_init s r rt).

(** *** Hull and angles *)

Definition convex_hull `{Externals} (self : PackingOfSite)
  : result (Hull * PackingOfSite) :=
  match convex_hull_ self with
  | Some h => Ok (h, self)
  | None =>
      let* h := ConvexHull (nn_coords (site self)) in
      Ok (h, set_convex_hull_ self h)
  end.

Definition leaf_indices_list : list (nat * nat) :=
  [(1, 2); (0, 2); (0, 1)]%nat.

(** The inner loop of the two angle calculations: [f] receives the
    position of the vertex and of the two other vertices of the facet. *)
Definition facet_vertex_loop (f : Coord -> Coord -> Coord -> Q)
    (nn : list Coord) (s : Simplex) : result (list Q) :=
  mapM (fun '(idx, leaf_indices) =>
          let* p := list_getitem nn idx in
          let* i1 := list_getitem (items s) (fst leaf_indices) in
          let* q := list_getitem nn i1 in
          let* i2 := list_getitem (items s) (snd leaf_indices) in
          let* r := list_getitem nn i2 in
          Ok (f p q r))
       (combine (items s) leaf_indices_list).

Definition calculate_hull_facet_angles `{Externals} (self : PackingOfSite)
  : result (list (list Q) * PackingOfSite) :=
  let* (h, self) := convex_hull self in
  let nn := nn_coords (site self) in
  let* lists := mapM (facet_vertex_loop triangular_angle nn) (simplices h) in
  Ok (lists, set_triangular_angle_lists_ self lists).

Definition calculate_hull_tetra_angles `{Externals} (self : PackingOfSite)
  : result (list (list Q) * PackingOfSite) :=
  let* (h, self) := convex_hull self in
  let nn := nn_coords (site self) in
  let* lists :=
    mapM (facet_vertex_loop
            (fun p q r => solid_angle p (coords (site self)) q r) nn)
         (simplices h) in
  Ok (lists, set_solid_angle_lists_ self lists).

(** *** Facet interstices *)

(** [analyze_hull_facet_interstice] builds its coordinate array with
    [np.array(self.site.nn_coords)]: the attribute itself, where the
    angle calculations call [self.site.nn_coords()].  For an argument
    that is not a sequence numpy makes a 0-dimensional object array, and
    indexing that array with a row of indices is an [IndexError]. *)
Inductive PyObject : Type :=
| BoundMethod
| CoordList (l : list Coord).

Inductive ndarray : Type :=
| Array0d
| Array2d (rows : list Coord).

Definition np_array (o : PyObject) : ndarray :=
  match o with
  | BoundMethod => Array0d
  | CoordList l => Array2d l
  end.

(** [a[indices]] for a row of indices. *)
Definition take (a : ndarray) (indices : list nat) : result (list Coord) :=
  match a with
  | Array0d => Raise IndexError
  | Array2d rows => mapM (list_getitem rows) indices
  end.

(** A call that unpacks the rows of an array into the three positional
    arguments of [f]. *)
Definition unpack3 (f : Coord -> Coord -> Coord -> Q) (l : list Coord)
  : result Q :=
  match l with
  | [p; q; r] => Ok (f p q r)
  | _ => Raise TypeError
  end.

(** The inner loop over the vertices of one facet:
    [packed_area += tri_angle / 2 * pow(r, 2)]. *)
Definition packed_facet_area (self : PackingOfSite) (s : Simplex)
    (triangular_angle_list : list Q) : result Q :=
  foldM (fun packed_area '(idx, tri_angle) =>
           let* nb := list_getitem (neighbors (site self)) idx in
           let* r := radius_of (radii self) (radius_type self) (type nb) in
           Ok (packed_area + tri_angle / 2 * r ^ 2)%Q)
        0%Q (combine (items s) triangular_angle_list).

(** One turn of the loop over the facets, for the coordinate array
    [nn]: the facet area and the interstice entry. *)
Definition facet_interstice `{Externals} (self : PackingOfSite) (nn : ndarray)
    (s : Simplex) (triangular_angle_list : list Q) : result (Q * Q) :=
  let* surface_coords := take nn (items s) in
  let* packed_area := packed_facet_area self s triangular_angle_list in
  let* area := unpack3 triangle_area surface_coords in
  let* ratio := pydiv packed_area area in
  Ok (area, (1 - ratio)%Q).

Definition analyze_hull_facet_interstice `{Externals} (self : PackingOfSite)
  : result PackingOfSite :=
  let nn := np_array BoundMethod in
  let* (h, self) := convex_hull self in
  let* tal := getattr (triangular_angle_lists_ self) in
  let* rows := mapM (fun '(s, l) => facet_interstice self nn s l)
                    (combine (simplices h) tal) in
  Ok (set_area_lists_ self (map fst rows) (map snd rows)).

(** *** Packed volume and the two efficiencies *)

(** [l[idx] += a]. *)
Definition add_at (l : list Q) (idx : nat) (a : Q) : result (list Q) :=
  match l !! idx with
  | Some v => Ok (<[idx := (v + a)%Q]> l)
  | None => Raise IndexError
  end.

Definition combine_neighbor_solid_angles `{Externals} (self : PackingOfSite)
  : result (list Q * PackingOfSite) :=
  match neighbors_solid_angle_ self with
  | Some l => Ok (l, self)
  | None =>
      let neighbors_solid_angle :=
        repeat 0%Q (length (neighbors (site self))) in
      let* (h, self) := convex_hull self in
      let* sal := getattr (solid_angle_lists_ self) in
      let* acc :=
        foldM (fun acc '(s, solid_angle_list) =>
                 foldM (fun acc '(idx, a) => add_at acc idx a) acc
                       (combine (items s) solid_angle_list))
              neighbors_solid_angle (combine (simplices h) sal) in
      Ok (acc, set_neighbors_solid_angle_ self acc)
  end.

(** [4/3] is the true division of Python 3; the radius of the center is
    looked up before the attribute [neighbors_solid_angle_] is read. *)
Definition cluster_packed_volume (self : PackingOfSite) : result Q :=
  let* rc := radius_of (radii self) (radius_type self) (type (site self)) in
  let packed_volume := (4 / 3 * pi * rc ^ 3)%Q in
  let* nsa := getattr (neighbors_solid_angle_ self) in
  foldM (fun packed_volume '(neighbor_site, sa) =>
           if Qeq_bool sa 0 then Ok packed_volume
           else
             let* r := radius_of (radii self) (radius_type self)
                                 (type neighbor_site) in
             Ok (packed_volume + sa * 1 / 3 * r ^ 3)%Q)
        packed_volume (combine (neighbors (site self)) nsa).

Definition atomic_packing_efficiency `{Externals} (self : PackingOfSite)
  : result (Q * PackingOfSite) :=
  let* pv := cluster_packed_volume self in
  let* (h, self) := convex_hull self in
  let* e := pydiv pv (volume h) in
  Ok (e, self).

Definition ideal_ratio_ : gmap Z Q :=
  list_to_map (M := gmap Z Q)
    [(3, 0.154701%Q); (4, 0.224745%Q); (5, 0.361654%Q);
     (6, 0.414214%Q); (7, 0.518145%Q); (8, 0.616517%Q);
     (9, 0.709914%Q); (10, 0.798907%Q); (11, 0.884003%Q);
     (12, 0.902113%Q); (13, 0.976006%Q); (14, 1.04733%Q);
     (15, 1.11632%Q); (16, 1.18318%Q); (17, 1.2481%Q);
     (18, 1.31123%Q); (19, 1.37271%Q); (20, 1.43267%Q);
     (21, 1.49119%Q); (22, 1.5484%Q); (23, 1.60436%Q);
     (24, 1.65915%Q)].

Definition glass_packing_efficiency (self : PackingOfSite) : result Q :=
  let* r :=
    foldM (fun r '(t, n) =>
             let* rt := radius_of (radii self) (radius_type self) t in
             Ok (r + rt * inject_Z n)%Q)
          0%Q (nn_type_dict (site self)) in
  let* r := pydiv r (inject_Z (cn (site self))) in
  let* rc := radius_of (radii self) (radius_type self) (type (site self)) in
  let* q := pydiv rc r in
  let* ideal := getitem ideal_ratio_ (cn (site self)) in
  Ok (q - ideal)%Q.

(** ** Tables *)

(** A pandas [DataFrame] as far as the featurizers use it: column labels,
    row labels and the rows of values. *)
Record DataFrame (V : Type) : Type := mkDataFrame {
  columns : list string;
  index : list Z;
  values : list (list V)
}.

Arguments mkDataFrame {V} _ _ _.
Arguments columns {V} _.
Arguments index {V} _.
Arguments values {V} _.

(** [pd.DataFrame(data, index=index, columns=columns)]: the shape of the
    data has to agree with the labels. *)
Definition DataFrame_new {V} (data : list (list V)) (idx : list Z)
    (cols : list string) : result (DataFrame V) :=
  if Nat.eqb (length data) (length idx)
     && forallb (fun row => Nat.eqb (length row) (length cols)) data
  then Ok (mkDataFrame cols idx data)
  else Raise ValueError.

(** Position of the first column labelled [name]. *)
Fixpoint position (name : string) (cols : list string) : option nat :=
  match cols with
  | [] => None
  | c :: cols' =>
      if String.eqb c name then Some O
      else option_map S (position name cols')
  end.

(** [row[name]] for a row of a table with column labels [cols]. *)
Definition row_getitem {V} (cols : list string) (row : list V)
    (name : string) : result V :=
  match position name cols with
  | Some i => match nth_error row i with
              | Some v => Ok v
              | None => Raise KeyError
              end
  | None => Raise KeyError
  end.

(** [X[names].values]. *)
Definition select {V} (X : DataFrame V) (names : list string)
  : result (list (list V)) :=
  mapM (fun row => mapM (row_getitem (columns X) row) names) (values X).

(** [X.iterrows()]. *)
Definition iterrows {V} (X : DataFrame V) : list (Z * list V) :=
  combine (index X) (values X).

(** The entry of row number [i] under the column labelled [name]. *)
Definition cell {V} (df : DataFrame V) (i : nat) (name : string) : option V :=
  match nth_error (values df) i, position name (columns df) with
  | Some row, Some j => nth_error row j
  | _, _ => None
  end.

(** [np.append(a, b, axis=1)]. *)
Definition append_axis1 {V} (a b : list (list V)) : result (list (list V)) :=
  if Nat.eqb (length a) (length b)
  then Ok (map (fun ab => (fst ab ++ snd ab)%list) (combine a b))
  else Raise ValueError.

(** [int(x)]: truncation towards zero. *)
Definition pyint (x : Q) : Z := Z.quot (Qnum x) (Z.pos (Qden x)).

(** ** [VolumeAreaInterstice] *)

Module VolumeAreaInterstice.

(** The attributes of the featurizer that [transform] and
    [get_feature_names] read.  [lmp_df] lists, for every atom of the
    snapshot, its row label, coordinates and type. *)
Record t : Type := mk {
  lmp_df : list (Z * Coord * Z);
  n_neighbor_limit : nat;
  dependency_name : string;
  radii : option Radii;
  radius_type : string;
  calc_packing_efficiency : bool;
  calc_volume_area : string
}.

Definition stats : list string := ["sum"; "mean"; "std"; "min"; "max"].

Definition volume_requested (self : t) : bool :=
  String.eqb (calc_volume_area self) "volume"
  || String.eqb (calc_volume_area self) "all".

Definition area_requested (self : t) : bool :=
  String.eqb (calc_volume_area self) "area"
  || String.eqb (calc_volume_area self) "all".

Definition get_feature_names (self : t) : list string :=
  let feature_names :=
    if calc_packing_efficiency self then
      [(replace (radius_type self) "_radius" EmptyString
          ++ "_atomic_packing_efficiency " ++ dependency_name self)%string;
       (replace (radius_type self) "_radius" EmptyString
          ++ "_glass_packing_efficiency " ++ dependency_name self)%string]
    else [] in
  let feature_prefixs : list string :=
    ((if volume_requested self then
       ["fractional_volume_interstice_tetrahedra";
        "volume_interstice";
        "fractional_volume_interstice_tetrahedra_avg";
        "fractional_volume_interstice_center_v"]
     else [])
    ++ (if area_requested self then
          ["fractional_area_interstice_triangle";
           "area_interstice";
           "fractional_area_interstice_triangle_avg";
           "fractional_area_interstice_center_slice_a"]
        else []))%list in
  (feature_names
  ++ flat_map (fun feature_prefix =>
                 map (fun stat => (feature_prefix ++ " " ++ stat ++ " "
                                   ++ dependency_name self)%string) stats)
              feature_prefixs)%list.

(** ['neighbor_id_{}_{}'.format(idx, dependency_name)] for [idx] in
    [range(n_neighbor_limit)]. *)
Definition neighbor_id_cols (self : t) : list string :=
  map (fun idx => "neighbor_id_" ++ pystr (Z.of_nat idx) ++ "_"
                  ++ dependency_name self)
      (seq 0 (n_neighbor_limit self)).

(** Stage 1: one [Site] for every row of [lmp_df]. *)
Definition make_site_dict (self : t) : gmap Z Site :=
  fold_left (fun d '(idx, c, ty) => <[idx := mkSite idx c ty []]> d)
            (lmp_df self) (∅ : gmap Z Site).

Definition set_neighbors (s : Site) (nbs : list Site) : Site :=
  mkSite (site_idx s) (coords s) (type s) nbs.

(** The keyword arguments with which [transform] calls the constructor
    of [PackingOfSite]. *)
Definition constructor_kwargs (self : t) : list (string * PyArg) :=
  [("radii", ArgRadii (radii self));
   ("radius_type", ArgStr (radius_type self));
   ("calc_volume_area", ArgStr (calc_volume_area self));
   ("calc_packing_efficiency", ArgBool (calc_packing_efficiency self))].

(** The [else] branch of the loop body, for a site of four or more
    neighbors.  [PackingOfSite] has no method [calc_area_volume_list] and
    no attribute [area_interstice_list] (the attribute that
    [analyze_hull_facet_interstice] creates is [area_interstice_list_]):
    the first statement of the volume block and the first statement of
    the area block are attribute errors. *)
Definition feature_list_of `{Externals} (self : t) (pos_ : PackingOfSite)
  : result (list Q) :=
  let* feature_list :=
    if calc_packing_efficiency self then
      let* (a, pos_) := atomic_packing_efficiency pos_ in
      let* g := glass_packing_efficiency pos_ in
      Ok [a; g]
    else Ok [] in
  let* _ := if volume_requested self
            then Raise AttributeError else Ok tt in
  let* _ := if area_requested self
            then Raise AttributeError else Ok tt in
  Ok feature_list.

(** The statements of the loop body that follow the construction of
    [pos_]. *)
Definition row_features `{Externals} (self : t) (pos_ : PackingOfSite)
  : result (list Q) :=
  if (length (neighbors (site pos_)) <? 4)%nat
  then Ok (repeat 0%Q (length (get_feature_names self)))
  else feature_list_of self pos_.

(** One turn of the loop over the rows of [X]. *)
Definition transform_row `{Externals} (self : t) (cols : list string)
    (site_dict : gmap Z Site) (idx : Z) (row : list Q)
  : result (list Q * gmap Z Site) :=
  let* s := getitem site_dict idx in
  let* site_neighbors := mapM (row_getitem cols row) (neighbor_id_cols self) in
  let* nbs := mapM (fun x => getitem site_dict (pyint x))
                   (List.filter (fun x => negb (Qle_bool x 0)) site_neighbors) in
  let s := set_neighbors s nbs in
  let site_dict := <[idx := s]> site_dict in
  let* pos_ := PackingOfSite_call s (constructor_kwargs self) in
  let* features := row_features self pos_ in
  Ok (features, site_dict).

(** [transform], up to the table [packing_efficiency_df] that it builds
    from the rows collected by the loop. *)
Definition transform `{Externals} (self : t) (X : DataFrame Q)
  : result (DataFrame Q) :=
  let* (feature_lists, _) :=
    foldM (fun '(feature_lists, site_dict) '(idx, row) =>
             let* (features, site_dict) :=
               transform_row self (columns X) site_dict idx row in
             Ok ((feature_lists ++ [features])%list, site_dict))
          ([], make_site_dict self) (iterrows X) in
  DataFrame_new feature_lists (index X) (get_feature_names self).

End VolumeAreaInterstice.

(** ** [VoroIndex] *)

(** [range(a, b)] over integers. *)
Definition range (a b : Z) : list Z :=
  map (fun i => a + Z.of_nat i) (seq 0 (Z.to_nat (b - a))).

Module VoroIndex.

Record t : Type := mk {
  n_neighbor_limit : nat;
  include_beyond_edge_max : bool;
  edge_min : Z;
  edge_max : Z
}.

Definition get_feature_names (self : t) : list string :=
  map (fun edge => ("Voronoi idx" ++ pystr edge ++ " voro")%string)
      (range (edge_min self) (edge_max self + 1)).

End VoroIndex.

(** A matrix of numbers, row by row. *)
Definition Matrix : Type := list (list Q).

Definition zeros {V} (zero : V) (rows cols : nat) : list (list V) :=
  repeat (repeat zero cols) rows.

(** The engines that the featurizers below call and that are not part of
    the sources at hand: [fit_transform] of a [VoroIndex] featurizer
    (inherited from [BaseSRO], running the compiled Voronoi-index
    kernel), [check_dependency] of [BaseSRO] with the neighbor provider
    it may return, the compiled kernel [boop.calculate_boop], and numpy's
    conversion of an extended-precision number to a string. *)
Class Engines : Type := {
  VoroIndex_fit_transform : VoroIndex.t -> DataFrame Q -> result (DataFrame Q);
  Dependency : Type;
  check_dependency : list string -> DataFrame Q -> option Dependency;
  Dependency_fit_transform :
    Dependency -> option (DataFrame Q) -> result (DataFrame Q);
  calculate_boop :
    list Coord (* atom_coords *) -> list Z (* pbc *) -> Matrix (* Bds *) ->
    Matrix (* X[neighbor_col].values *) -> Matrix (* X[id_cols].values *) ->
    Z -> Z -> Z -> Z (* the four order switches *) ->
    Matrix -> Matrix -> Matrix -> Matrix (* Ql, Wlbar, coarse_Ql, coarse_Wlbar *) ->
    nat (* n_atoms *) -> nat (* n_neighbor_limit *) ->
    Matrix * Matrix * Matrix * Matrix;
  str_float128 : Q -> string
}.

(** ** [CharacterMotif] *)

Module CharacterMotif.

Record t : Type := mk {
  n_neighbor_limit : nat;
  include_beyond_edge_max : bool;
  edge_min : Z;
  target_voro_idx : option Matrix;
  frank_kasper : nat;
  voro_depend_cols : list string;
  atoms_df : option (DataFrame Q)
}.

Definition default_target_voro_idx : Matrix :=
  [[0; 0; 12; 0; 0]; [0; 0; 12; 4; 0]]%Q.

(** [__init__]: the attribute [target_voro_idx] is assigned only when the
    argument is [None]. *)
Definition init (n_neighbor_limit : nat) (include_beyond_edge_max : bool)
    (atoms_df : option (DataFrame Q)) (edge_min : Z)
    (target_voro_idx : option Matrix) (frank_kasper : nat) : t :=
  mk n_neighbor_limit include_beyond_edge_max edge_min
     (match target_voro_idx with
      | None => Some default_target_voro_idx
      | Some _ => None
      end)
     frank_kasper
     ["n_neighbors_voro"; "neighbor_edge_5_voro"]
     atoms_df.

Definition set_voro_depend_cols (self : t) (cols : list string) : t :=
  mk (n_neighbor_limit self) (include_beyond_edge_max self) (edge_min self)
     (target_voro_idx self) (frank_kasper self) cols (atoms_df self).

Definition set_atoms_df (self : t) (df : DataFrame Q) : t :=
  mk (n_neighbor_limit self) (include_beyond_edge_max self) (edge_min self)
     (target_voro_idx self) (frank_kasper self) (voro_depend_cols self)
     (Some df).

(** Exact match of two index vectors. *)
Fixpoint vec_eqb (u v : list Q) : bool :=
  match u, v with
  | [], [] => true
  | x :: u', y :: v' => Qeq_bool x y && vec_eqb u' v'
  | _, _ => false
  end.

Definition indicator (b : bool) : Z := if b then 1 else 0.

(** Modelled from the spec: the compiled routine
    [voronoi_stats.character_motif] is not part of the sources at hand.
    It compares the full index vector of every atom with each canonical
    target; an exact match yields the indicator of that target.  The
    [frank_kasper] column holds the derived composite indicator
    ("polytetrahedral"), the logical OR of the matches with the two
    default canonical targets.  The routine fills the array
    [motif_one_hot] that it is given, one row per atom, and returns it as
    an array of integers (the operator [|] that [transform] applies to
    its columns is defined on integers only). *)
Definition character_motif (motif_one_hot : list (list Z))
    (voronoi_index_list : Matrix) (edge_min : Z) (target_voro_idx : Matrix)
    (frank_kasper : nat) : list (list Z) :=
  map (fun '(_, v) =>
         (map (fun target => indicator (vec_eqb v target)) target_voro_idx
          ++ repeat
               (indicator
                  (existsb (vec_eqb v) default_target_voro_idx))
               frank_kasper)%list)
      (combine motif_one_hot voronoi_index_list).

(** ["_".join(names)]. *)
Fixpoint join (sep : string) (names : list string) : string :=
  match names with
  | [] => EmptyString
  | [s] => s
  | s :: rest => (s ++ sep ++ join sep rest)%string
  end.

Definition get_feature_names `{Engines} (self : t) : result (list string) :=
  let* targets := getattr (target_voro_idx self) in
  Ok (["is <0,0,12,0,0> voro"; "is <0,0,12,4,0> voro"]
      ++ map (fun v => (join "_" (map str_float128 v) ++ " voro")%string)
             (skipn 2 targets)
      ++ ["is polytetrahedral voro"; "is <0,0,12,0/4,0> voro"])%list.

(** What [transform] asks of its collaborators, in the order of the
    calls. *)
Inductive Event : Type :=
| dependency_called
| VoroIndex_called (X : DataFrame Q)
| character_motif_called (voronoi_index_list : Matrix).

(** The last two statements of [fit], for the dependency [d]. *)
Definition run_dependency `{Engines} (self : t) (d : Dependency)
  : list Event * result t :=
  ([dependency_called],
   let* df := Dependency_fit_transform d (atoms_df self) in
   Ok (set_atoms_df self df)).

Definition fit `{Engines} (self : t) (X : DataFrame Q)
  : list Event * result t :=
  match check_dependency (voro_depend_cols self) X with
  | Some d => run_dependency self d
  | None =>
      let self := set_voro_depend_cols self ["Voronoi idx5 voro"] in
      match check_dependency (voro_depend_cols self) X with
      | None => ([], Ok self)
      | Some d => run_dependency self d
      end
  end.

(** The [VoroIndex] featurizer that [transform] builds: the edge range is
    left at the defaults of [VoroIndex.__init__]. *)
Definition voro_index (self : t) : VoroIndex.t :=
  VoroIndex.mk (n_neighbor_limit self) (include_beyond_edge_max self) 3 7.

(** The classification proper: from the statement after the dependency
    test to the table [character_motif_df]. *)
Definition classify `{Engines} (self : t) (n_atoms : nat) (X : DataFrame Q)
  : list Event * result (DataFrame Z) :=
  let voro_index_cols :=
    List.filter (fun col => startswith col "Voronoi idx") (columns X) in
  match
    (let* targets := getattr (target_voro_idx self) in
     let* vals := select X voro_index_cols in
     Ok (targets, vals))
  with
  | Raise e => ([], Raise e)
  | Ok (targets, vals) =>
      let motif_one_hot :=
        character_motif
          (zeros 0 n_atoms (length targets + frank_kasper self))
          vals (edge_min self) targets (frank_kasper self) in
      ([character_motif_called vals],
       let* is_120_124 :=
         mapM (fun row => let* a := list_getitem row 0 in
                          let* b := list_getitem row 1 in
                          Ok (Z.lor a b))
              motif_one_hot in
       let* motif_one_hot_array :=
         append_axis1 motif_one_hot (map (fun x => [x]) is_120_124) in
       let* names := get_feature_names self in
       DataFrame_new motif_one_hot_array (index X) names)
  end.

(** [transform], up to the table [character_motif_df], with the calls it
    makes on the way. *)
Definition transform `{Engines} (self : t) (X : DataFrame Q)
  : list Event * result (DataFrame Z) :=
  let n_atoms := length (values X) in
  if negb (existsb (String.eqb "Voronoi idx5 voro") (columns X)) then
    match VoroIndex_fit_transform (voro_index self) X with
    | Raise e => ([VoroIndex_called X], Raise e)
    | Ok X' =>
        let '(events, r) := classify self n_atoms X' in
        (VoroIndex_called X :: events, r)
    end
  else classify self n_atoms X.

(** Number of calls of the Voronoi-index engine in a run. *)
Definition VoroIndex_calls (events : list Event) : nat :=
  length (List.filter (fun e => match e with
                           | VoroIndex_called _ => true
                           | _ => false
                           end) events).

End CharacterMotif.

(** ** [BOOP] *)

Module BOOP.

Record t : Type := mk {
  atom_coords : list Coord;
  Bds : Matrix;
  pbc : list Z;
  low_order : Z;
  higher_order : Z;
  coarse_lower_order : Z;
  coarse_higher_order : Z;
  n_neighbor_limit : nat;
  dependency_name : string
}.

(** The attribute [bq_tags] that [__init__] sets. *)
Definition bq_tags : list string := ["4"; "6"; "8"; "10"].

Definition get_feature_names (self : t) : list string :=
  (map (fun num => ("q_" ++ num ++ " " ++ dependency_name self)%string) bq_tags
   ++ map (fun num => ("w_" ++ num ++ " " ++ dependency_name self)%string)
          bq_tags
   ++ map (fun num => ("Coarse-grained q_" ++ num ++ " "
                       ++ dependency_name self)%string) bq_tags
   ++ map (fun num => ("Coarse-grained w_" ++ num ++ " "
                       ++ dependency_name self)%string) bq_tags)%list.

Definition neighbor_col (self : t) : list string :=
  [("n_neighbors_" ++ dependency_name self)%string].

Definition id_cols (self : t) : list string :=
  map (fun idx => ("neighbor_id_" ++ pystr (Z.of_nat idx) ++ "_"
                   ++ dependency_name self)%string)
      (seq 0 (n_neighbor_limit self)).

(** The four arrays that the kernel returns for the table [X]. *)
Definition boop_arrays `{Engines} (self : t) (X : DataFrame Q)
  : result (Matrix * Matrix * Matrix * Matrix) :=
  let n_atoms := length (values X) in
  let Ql := zeros 0%Q n_atoms 4 in
  let Wlbar := zeros 0%Q n_atoms 4 in
  let coarse_Ql := zeros 0%Q n_atoms 4 in
  let coarse_Wlbar := zeros 0%Q n_atoms 4 in
  let* n_neighbors := select X (neighbor_col self) in
  let* ids := select X (id_cols self) in
  Ok (calculate_boop (atom_coords self) (pbc self) (Bds self)
        n_neighbors ids
        (low_order self) (higher_order self)
        (coarse_lower_order self) (coarse_higher_order self)
        Ql Wlbar coarse_Ql coarse_Wlbar n_atoms (n_neighbor_limit self)).

(** [transform], up to the table [boop_df]. *)
Definition transform `{Engines} (self : t) (X : DataFrame Q)
  : result (DataFrame Q) :=
  let* (Ql, Wlbar, coarse_Ql, coarse_Wlbar) := boop_arrays self X in
  let* concat_array := append_axis1 Ql Wlbar in
  let* concat_array := append_axis1 concat_array coarse_Ql in
  let* concat_array := append_axis1 concat_array coarse_Wlbar in
  DataFrame_new concat_array (index X) (get_feature_names self).

End BOOP.

(** ** The statements of the specification, as definitions *)

(** An endpoint of a range criterion, [None] replaced by [default]. *)
Definition endpoint (e : option Q) (default : Q) : Q :=
  match e with Some v => v | None => default end.

Definition Qsum (l : list Q) : Q := fold_right Qplus 0%Q l.

(** The radius configured for type [t], where the table has one. *)
Definition radius (self : PackingOfSite) (t : Z) : Q :=
  match radius_of (radii self) (radius_type self) t with
  | Ok r => r
  | Raise _ => 0%Q
  end.

Definition has_radius (self : PackingOfSite) (t : Z) : Prop :=
  is_ok (radius_of (radii self) (radius_type self) t) = true.

(** The types of the neighbors, each once, and the number of neighbors of
    a type. *)
Definition distinct_types (s : Site) : list Z :=
  remove_dups (map type (neighbors s)).

Definition count_of_type (s : Site) (t : Z) : Z :=
  Z.of_nat (length (List.filter (fun nb => Z.eqb (type nb) t) (neighbors s))).

(** Sum over the distinct neighbor types of
    r_type * count_of_type / coordination_number. *)
Definition weighted_neighbor_radius (self : PackingOfSite) : Q :=
  Qsum (map (fun t => (radius self t * inject_Z (count_of_type (site self) t)
                       / inject_Z (cn (site self)))%Q)
            (distinct_types (site self))).

(** The solid angles at the three vertices of a facet, each seen against
    the center and the two other vertices. *)
Definition point (nn : list Coord) (i : nat) : Coord := nth i nn (0, 0, 0)%Q.

Definition facet_solid_angles `{Externals} (s : Site) (f : Simplex) : list Q :=
  let nn := nn_coords s in
  let '(a, b, c) := f in
  [solid_angle (point nn a) (coords s) (point nn b) (point nn c);
   solid_angle (point nn b) (coords s) (point nn a) (point nn c);
   solid_angle (point nn c) (coords s) (point nn a) (point nn b)].

Definition facet_triangular_angles `{Externals} (s : Site) (f : Simplex)
  : list Q :=
  let nn := nn_coords s in
  let '(a, b, c) := f in
  [triangular_angle (point nn a) (point nn b) (point nn c);
   triangular_angle (point nn b) (point nn a) (point nn c);
   triangular_angle (point nn c) (point nn a) (point nn b)].

(** The part of a list of (vertex, angle) pairs that belongs to vertex
    [i], summed. *)
Definition angle_at (i : nat) (l : list (nat * Q)) : Q :=
  Qsum (map snd (List.filter (fun p => Nat.eqb (fst p) i) l)).

(** The solid angle that neighbor number [i] accumulates over all the
    facets of the hull that adjoin it. *)
Definition accumulated_solid_angle `{Externals} (s : Site) (h : Hull)
    (i : nat) : Q :=
  Qsum (map (fun f => angle_at i (combine (items f) (facet_solid_angles s f)))
            (simplices h)).

(** The term that one neighbor adds to the packed volume: nothing for an
    accumulated solid angle of zero, else the angle divided by 3 times
    the cube of the radius of the neighbor. *)
Definition cone (self : PackingOfSite) (nb : Site) (omega : Q) : Q :=
  if Qeq_bool omega 0 then 0%Q
  else (omega / 3 * radius self (type nb) ^ 3)%Q.

(** (4/3) pi r_center^3 plus the terms of the neighbors. *)
Definition cluster_packed_volume_spec `{Externals} (self : PackingOfSite)
    (h : Hull) : Q :=
  (4 / 3 * pi * radius self (type (site self)) ^ 3
   + Qsum (map (fun '(i, nb) =>
                  cone self nb (accumulated_solid_angle (site self) h i))
               (combine (seq 0 (length (neighbors (site self))))
                        (neighbors (site self)))))%Q.

(** The facets of [h] refer to points number 0 .. n-1. *)
Definition in_range (n : nat) (h : Hull) : Prop :=
  forall f i, In f (simplices h) -> In i (items f) -> (i < n)%nat.

(** The packed area of a facet: the sum over its three vertices of
    (triangular angle / 2) * radius^2. *)
Definition packed_facet_area_spec (self : PackingOfSite) (f : Simplex)
    (angles : list Q) : Q :=
  Qsum (map (fun '(i, a) =>
               (a / 2 * radius self
                          (type (nth i (neighbors (site self))
                                     (mkSite 0 (0, 0, 0)%Q 0 []))) ^ 2)%Q)
            (combine (items f) angles)).

(** The lookups that one turn of the loop of
    [VolumeAreaInterstice.transform] makes before it constructs
    [PackingOfSite]: the site of the row, the neighbor-id columns, the
    sites of the neighbors. *)
Definition resolves (self : VolumeAreaInterstice.t) (cols : list string)
    (site_dict : gmap Z Site) (idx : Z) (row : list Q) : bool :=
  is_ok
    (let* s := getitem site_dict idx in
     let* site_neighbors :=
       mapM (row_getitem cols row)
            (VolumeAreaInterstice.neighbor_id_cols self) in
     mapM (fun x => getitem site_dict (pyint x))
          (List.filter (fun x => negb (Qle_bool x 0)) site_neighbors)).

(** A table whose rows are as wide as its column labels, with one row
    label per row. *)
Definition well_formed {V} (X : DataFrame V) : bool :=
  Nat.eqb (length (index X)) (length (values X))
  && forallb (fun row => Nat.eqb (length row) (length (columns X))) (values X).

(** The two default canonical targets. *)
Definition icosahedral : list Q := [0; 0; 12; 0; 0]%Q.
Definition defect_motif : list Q := [0; 0; 12; 4; 0]%Q.

(** The row of indicators of an atom with index vector [v]: the two
    matches, then twice their OR. *)
Definition motif_row (v : list Q) : list Z :=
  [CharacterMotif.indicator (CharacterMotif.vec_eqb v icosahedral);
   CharacterMotif.indicator (CharacterMotif.vec_eqb v defect_motif);
   CharacterMotif.indicator (CharacterMotif.vec_eqb v icosahedral
                             || CharacterMotif.vec_eqb v defect_motif);
   CharacterMotif.indicator (CharacterMotif.vec_eqb v icosahedral
                             || CharacterMotif.vec_eqb v defect_motif)].

(** An array of [n] rows of four numbers: the shape of each of the four
    arrays that [BOOP.transform] hands to the kernel and gets back. *)
Definition four_wide (n : nat) (m : Matrix) : bool :=
  Nat.eqb (length m) n && forallb (fun row => Nat.eqb (length row) 4) m.

(** ** Sample data *)

(** Rational stand-ins for the collaborators, to run the definitions on
    data.  The hull is found by exhaustive search (exact for points in
    general position): a triple of points is a facet when all points lie
    on one side of its plane; the volume is the sum of the tetrahedra
    from the first point to the facets.  The angle and area functions
    are arbitrary rational functions of the positions. *)
Definition side (p q r s : Coord) : Q := det3 (vsub q p) (vsub r p) (vsub s p).

Definition is_facet (pts : list Coord) (f : Simplex) : bool :=
  let '(a, b, c) := f in
  let p := point pts a in
  let q := point pts b in
  let r := point pts c in
  forallb (fun s => Qle_bool 0 (side p q r s)) pts
  || forallb (fun s => Qle_bool (side p q r s) 0) pts.

Definition triples (n : nat) : list Simplex :=
  flat_map (fun a =>
    flat_map (fun b =>
      flat_map (fun c =>
        if ((a <? b) && (b <? c))%nat then [(a, b, c)] else [])
      (seq 0 n)) (seq 0 n)) (seq 0 n).

Definition sample_hull (pts : list Coord) : Hull :=
  let facets := List.filter (is_facet pts) (triples (length pts)) in
  mkHull facets
    (Qsum (map (fun '(a, b, c) =>
                  (Qabs (side (point pts 0) (point pts a) (point pts b)
                              (point pts c)) / 6)%Q) facets)).

Definition sample_radii : Radii :=
  {[ "29" := {[ "miracle_radius" := 1.26%Q ]};
     "40" := {[ "miracle_radius" := 1.58%Q ]} ]}.

(** A radius table whose entries are zero. *)
Definition zero_radii : Radii :=
  {[ "29" := {[ "miracle_radius" := 0%Q ]};
     "40" := {[ "miracle_radius" := 0%Q ]} ]}.

Definition sample_externals : Externals := {|
  nn_coords := fun s => map coords (neighbors s);
  ConvexHull := fun pts =>
    match pts with
    | [] => Raise IndexError
    | _ => if degenerate pts then Raise QhullError else Ok (sample_hull pts)
    end;
  solid_angle := fun p c q r => (Qabs (side c p q r) / 16)%Q;
  triangular_angle := fun p q r => 1%Q;
  triangle_area := fun p q r =>
    let '(x, y, z) := vsub q p in
    let '(u, v, w) := vsub r p in
    ((Qabs (y * w - z * v) + Qabs (z * u - x * w) + Qabs (x * v - y * u)) / 2)%Q;
  tetra_volume := fun p q r s => (Qabs (side p q r s) / 6)%Q;
  PTE_dict := sample_radii
|}.

Definition atom (i : Z) (c : Coord) (t : Z) : Site := mkSite i c t [].

(** A zirconium atom at the origin with four copper neighbors at the
    corners of a regular tetrahedron. *)
Definition tetrahedron_site : Site :=
  mkSite 1 (0, 0, 0)%Q 40
    [atom 2 (1, 1, 1)%Q 29; atom 3 (1, -1, -1)%Q 29;
     atom 4 (-1, 1, -1)%Q 29; atom 5 (-1, -1, 1)%Q 40].


(** A featurizer for a snapshot of five atoms, and neighbor tables with
    one row for atom 1: three neighbors, four neighbors, a neighbor
    that the snapshot does not have. *)
Definition sample_lmp_df (s : Site) : list (Z * Coord * Z) :=
  map (fun a => (site_idx a, coords a, type a)) (s :: neighbors s).

Definition sample_featurizer (s : Site) : VolumeAreaInterstice.t :=
  VolumeAreaInterstice.mk (sample_lmp_df s) 5 "voro"
    (Some sample_radii) "miracle_radius" true "all".

Definition neighbor_table (ids : list Q) : DataFrame Q :=
  mkDataFrame
    ["n_neighbors_voro"; "neighbor_id_0_voro"; "neighbor_id_1_voro";
     "neighbor_id_2_voro"; "neighbor_id_3_voro"; "neighbor_id_4_voro"]
    [1] [ids].

Definition three_neighbors : DataFrame Q := neighbor_table [3; 2; 3; 4; 0; 0]%Q.
Definition four_neighbors : DataFrame Q := neighbor_table [4; 2; 3; 4; 5; 0]%Q.
Definition unknown_neighbor : DataFrame Q := neighbor_table [1; 9; 0; 0; 0; 0]%Q.

(** Stand-ins for the engines: the Voronoi-index engine appends the five
    columns of the default edge range, every atom an icosahedron; the
    order-parameter kernel fills every row with fixed numbers. *)
Definition sample_engines : Engines := {|
  VoroIndex_fit_transform := fun v X =>
    Ok (mkDataFrame (columns X ++ VoroIndex.get_feature_names v)%list
          (index X)
          (map (fun row => (row ++ [0; 0; 12; 0; 0]%Q)%list) (values X)));
  Dependency := unit;
  check_dependency := fun cols X =>
    if forallb (fun c => existsb (String.eqb c) (columns X)) cols
    then None else Some tt;
  Dependency_fit_transform := fun _ df =>
    match df with Some d => Ok d | None => Raise ValueError end;
  calculate_boop := fun _ _ _ _ _ _ _ _ _ Ql Wlbar coarse_Ql coarse_Wlbar _ _ =>
    (map (fun _ => [0.4; 0.6; 0.8; 0.1]%Q) Ql,
     map (fun _ => [1.4; 1.6; 1.8; 1.1]%Q) Wlbar,
     map (fun _ => [2.4; 2.6; 2.8; 2.1]%Q) coarse_Ql,
     map (fun _ => [3.4; 3.6; 3.8; 3.1]%Q) coarse_Wlbar);
  str_float128 := fun q => pystr (pyint q)
|}.

Definition sample_motif : CharacterMotif.t :=
  CharacterMotif.init 80 true None 3 None 1.

(** A table that already holds the Voronoi index of two atoms, and the
    same table without the index columns. *)
Definition indexed_table : DataFrame Q :=
  mkDataFrame
    ["n_neighbors_voro"; "Voronoi idx3 voro"; "Voronoi idx4 voro";
     "Voronoi idx5 voro"; "Voronoi idx6 voro"; "Voronoi idx7 voro"]
    [1; 2]
    [[12; 0; 0; 12; 0; 0]; [14; 0; 1; 10; 3; 0]]%Q.

Definition bare_table : DataFrame Q :=
  mkDataFrame ["n_neighbors_voro"] [1; 2] [[12]; [14]]%Q.

Definition sample_boop : BOOP.t :=
  BOOP.mk [(0, 0, 0); (1, 1, 1)]%Q [[0; 10]; [0; 10]; [0; 10]]%Q [1; 1; 1]
    1 1 1 1 2 "voro".

Definition boop_table : DataFrame Q :=
  mkDataFrame ["n_neighbors_voro"; "neighbor_id_0_voro"; "neighbor_id_1_voro"]
    [1; 2] [[1; 2; 0]; [1; 1; 0]]%Q.

(** ** More of [amlearn/utils/check.py] *)

(** The argument of [check_file_name]: a string, or a value of another
    type (which the function returns as it is). *)
Inductive FileName : Type :=
| NameStr (s : string)
| NameOther (n : Z).

Definition check_file_name (file_name : FileName) : FileName :=
  match file_name with
  | NameStr s => NameStr (replace s "." "p")
  | NameOther n => NameOther n
  end.

(** Does the character [c] occur in [s]? *)
Fixpoint occurs (c : ascii) (s : string) : bool :=
  match s with
  | EmptyString => false
  | String c' rest => Ascii.eqb c' c || occurs c rest
  end.

(** [sorted(l)] on a list of integers (on integers every sorting
    algorithm returns the same list). *)
Fixpoint insert_sorted (x : Z) (l : list Z) : list Z :=
  match l with
  | [] => [x]
  | y :: l' => if Z.leb x y then x :: y :: l' else y :: insert_sorted x l'
  end.

Definition sorted (l : list Z) : list Z := fold_right insert_sorted [] l.

(** The range of numpy's 64-bit integer type. *)
Definition int64 (z : Z) : bool :=
  ((- 2 ^ 63 <=? z) && (z <? 2 ^ 63))%Z.

(** Comparison of two arrays of the same integer type: same shape, same
    elements. *)
Fixpoint elementwise_equal (a b : list Z) : bool :=
  match a, b with
  | [], [] => true
  | x :: a', y :: b' => Z.eqb x y && elementwise_equal a' b'
  | _, _ => false
  end.

Section ListEqual.

(** [np.array_equal] on lists of which one holds an integer beyond the
    64-bit range.  numpy then converts to an unsigned, a floating-point
    or an object array, depending on the values and on its version, and
    floating-point arrays compare rounded values (so 2^63 and 2^63 + 1
    can compare equal).  What it answers there is left open. *)
Variable wide_array_equal : list Z -> list Z -> bool.

(** [np.array_equal(a, b)] on two lists of integers: both are converted
    to arrays; lists of 64-bit integers become arrays of that type,
    which are compared exactly. *)
Definition array_equal (a b : list Z) : bool :=
  if forallb int64 a && forallb int64 b then elementwise_equal a b
  else wide_array_equal a b.

Definition check_list_equal (list_1 list_2 : list Z) : bool :=
  if negb (Nat.eqb (length list_1) (length list_2)) then false
  else if array_equal (sorted list_1) (sorted list_2) then true
  else false.

End ListEqual.

(** [set(list_1) >= set(list_2)]. *)
Definition check_list_contain (list_1 list_2 : list Z) : bool :=
  bool_decide ((list_to_set list_2 : gset Z) ⊆ list_to_set list_1).

(** [set(list(d.keys())) >= set(key_list)]. *)
Definition check_dict_key_contain {V} (d : gmap string V)
    (key_list : list string) : bool :=
  bool_decide ((list_to_set key_list : gset string)
               ⊆ list_to_set (map fst (map_to_list d))).

(** [df[name]]: the column labelled [name], [KeyError] when the table has
    no such column. *)
Definition column {V} (df : DataFrame V) (name : string) : result (list V) :=
  match position name (columns df) with
  | None => Raise KeyError
  | Some _ => mapM (fun row => row_getitem (columns df) row name) (values df)
  end.

(** [df[mask]] for a boolean mask: the rows whose mask entry is true,
    with their labels. *)
Definition select_rows {V} (df : DataFrame V) (mask : list bool)
  : DataFrame V :=
  let kept := List.filter (fun p => snd p)
                (combine (combine (index df) (values df)) mask) in
  mkDataFrame (columns df) (map (fun p => fst (fst p)) kept)
              (map (fun p => snd (fst p)) kept).

(** [series.isin(items)]. *)
Definition isin (items : list Q) (series : list Q) : list bool :=
  map (fun v => existsb (Qeq_bool v) items) series.

(** [atom_mapping].  [hasattr(df, name)] holds for the label of a column
    and for the name of an attribute of the class [DataFrame] itself;
    [is_attribute] tells the latter. *)
Definition atom_mapping (is_attribute : string -> bool) (df : DataFrame Q)
    (number_column : string) (includes excludes : option (list Q))
  : result (DataFrame Q) :=
  if negb (existsb (String.eqb number_column) (columns df)
           || is_attribute number_column)
  then Raise ValueError
  else
    let* df :=
      match includes with
      | Some l => let* numbers := column df number_column in
                  Ok (select_rows df (isin l numbers))
      | None => Ok df
      end in
    match excludes with
    | Some l => let* numbers := column df number_column in
                Ok (select_rows df (map negb (isin l numbers)))
    | None => Ok df
    end.

(** The number of the atom of a row, for the statements about
    [atom_mapping]. *)
Definition number_of (cols : list string) (number_column : string)
    (row : list Q) : Q :=
  match row_getitem cols row number_column with
  | Ok v => v
  | Raise _ => 0%Q
  end.

Definition keeps (includes excludes : option (list Q)) (v : Q) : bool :=
  match includes with Some l => existsb (Qeq_bool v) l | None => true end
  && match excludes with Some l => negb (existsb (Qeq_bool v) l) | None => true end.

(** ** More of [PackingOfSite] *)

(** One turn of the loop of [analyze_hull_tetra_interstice] over the
    facets, for the coordinate array [nn]: the volume of the tetrahedron
    and the interstice entry. *)
Definition tetra_interstice `{Externals} (self : PackingOfSite) (nn : ndarray)
    (s : Simplex) (solid_angle_list : list Q) : result (Q * Q) :=
  let* surface_coords := take nn (items s) in
  let* packed_volume :=
    foldM (fun packed_volume '(idx, sol_angle) =>
             if Qeq_bool sol_angle 0 then Ok packed_volume
             else
               let* nb := list_getitem (neighbors (site self)) idx in
               let* r := radius_of (radii self) (radius_type self) (type nb) in
               Ok (packed_volume + sol_angle / 3 * r ^ 3)%Q)
          0%Q (combine (items s) solid_angle_list) in
  let* center_solid_angle :=
    unpack3 (solid_angle (coords (site self))) surface_coords in
  let* center_r :=
    radius_of (radii self) (radius_type self) (type (site self)) in
  let packed_volume :=
    (packed_volume + center_solid_angle / 3 * center_r ^ 3)%Q in
  let* volume := unpack3 (tetra_volume (coords (site self))) surface_coords in
  let* ratio := pydiv packed_volume volume in
  Ok (volume, (1 - ratio)%Q).

(** [analyze_hull_tetra_interstice]; the result holds the two lists that
    the method stores in [volume_list_] and [volume_interstice_list_],
    and the object with its hull. *)
Definition analyze_hull_tetra_interstice `{Externals} (self : PackingOfSite)
  : result (list Q * list Q * PackingOfSite) :=
  let nn := np_array BoundMethod in
  let* (h, self) := convex_hull self in
  let* sal := getattr (solid_angle_lists_ self) in
  let* rows := mapM (fun '(s, l) => tetra_interstice self nn s l)
                    (combine (simplices h) sal) in
  Ok (map fst rows, map snd rows, self).

(** ** Sample data for the helpers *)

Definition atoms_table : DataFrame Q :=
  mkDataFrame ["number"; "x"] [10; 11; 12; 13]
    [[29; 0.5]; [40; 1.5]; [29; 2.5]; [13; 3.5]]%Q.

(** * Properties *)

(** ** The error monad *)

Lemma rbind_ok {A B} (c : result A) (k : A -> result B) (a : A) :
  c = Ok a -> rbind c k = k a.
Proof. intros ->. reflexivity. Qed.

Lemma rbind_raise {A B} (c : result A) (k : A -> result B) (e : PyErr) :
  c = Raise e -> rbind c k = Raise e.
Proof. intros ->. reflexivity. Qed.

Lemma is_ok_false_raise {A} (c : result A) :
  is_ok c = false -> exists e, c = Raise e.
Proof. destruct c; [discriminate | eauto]. Qed.

Lemma is_ok_rbind_false {A B} (c : result A) (k : A -> result B) :
  (forall a, is_ok (k a) = false) -> is_ok (rbind c k) = false.
Proof. intros Hk. destruct c; simpl; auto. Qed.

Lemma mapM_ok_map {A B} (f : A -> result B) (g : A -> B) (l : list A) :
  (forall x, In x l -> f x = Ok (g x)) -> mapM f l = Ok (map g l).
Proof.
  induction l as [|x l IH]; intros Hf; [reflexivity|].
  simpl. rewrite (Hf x) by (left; reflexivity). simpl.
  rewrite IH by (intros y Hy; apply Hf; right; exact Hy).
  reflexivity.
Qed.

Lemma mapM_length {A B} (f : A -> result B) (l : list A) (r : list B) :
  mapM f l = Ok r -> length r = length l.
Proof.
  revert r. induction l as [|x l IH]; intros r; simpl.
  - intros [= <-]. reflexivity.
  - destruct (f x); [|discriminate]. simpl.
    destruct (mapM f l); [|discriminate]. simpl.
    intros [= <-]. simpl. f_equal. apply IH. reflexivity.
Qed.

(** ** [check_within] *)

Lemma negb_Qle_bool_lt (a b : Q) : negb (Qle_bool a b) = true <-> (b < a)%Q.
Proof.
  rewrite negb_true_iff. split.
  - intros Hf. apply Qnot_le_lt. intros Hle.
    apply Qle_bool_iff in Hle. congruence.
  - intros Hlt. destruct (Qle_bool a b) eqn:E; [|reflexivity].
    apply Qle_bool_iff in E. exfalso. exact (Qlt_not_le _ _ Hlt E).
Qed.

Lemma check_within_range_eq (x : Q) (lo hi : option Q) :
  check_within x [lo; hi] (literal "range")
  = Ok (negb (Qle_bool x (endpoint lo (- float_info_max)%Q))
        && negb (Qle_bool (endpoint hi float_info_max) x)).
Proof. destruct lo, hi; reflexivity. Qed.

(** An object that is neither of the two literals reaches the last
    branch. *)
Lemma check_within_other (x : Q) (c : criterion) (ty : PyStr) :
  is_literal ty "range" = false -> is_literal ty "value" = false ->
  check_within x c ty = Raise RuntimeError.
Proof. intros Hr Hv. unfold check_within. rewrite Hr, Hv. reflexivity. Qed.

Lemma is_literal_built (s lit : string) : is_literal (built s) lit = false.
Proof. reflexivity. Qed.

(** C10.  With the literal "range" as criterion type (the default of the
    parameter) and a two-element criterion [lo, hi], [check_within]
    returns a boolean that is true exactly when lo < x and x < hi, both
    strict: a value equal to an endpoint is not within the range.  A
    [None] endpoint stands for minus, respectively plus,
    [sys.float_info.max]; for a value inside the range of the finite
    floats that side does not constrain the result.  The criterion type
    is compared by identity: for a string built at run time, also one
    that spells range, [check_within] returns no boolean and raises
    [RuntimeError]. *)
Theorem check_within_range_strict (x : Q) (lo hi : option Q) :
  (exists b, check_within x [lo; hi] (literal "range") = Ok b
     /\ (b = true <->
         (endpoint lo (- float_info_max) < x
          /\ x < endpoint hi float_info_max)%Q))
  /\ (forall v, lo = Some v -> (x == v)%Q ->
        check_within x [lo; hi] (literal "range") = Ok false)
  /\ (forall v, hi = Some v -> (x == v)%Q ->
        check_within x [lo; hi] (literal "range") = Ok false)
  /\ (lo = None -> (- float_info_max < x)%Q ->
        check_within x [lo; hi] (literal "range")
        = Ok (negb (Qle_bool (endpoint hi float_info_max) x)))
  /\ (hi = None -> (x < float_info_max)%Q ->
        check_within x [lo; hi] (literal "range")
        = Ok (negb (Qle_bool x (endpoint lo (- float_info_max)%Q))))
  /\ (forall s, check_within x [lo; hi] (built s) = Raise RuntimeError).
Proof.
  rewrite check_within_range_eq.
  split; [|split; [|split; [|split; [|split]]]].
  - eexists; split; [reflexivity|].
    rewrite andb_true_iff, !negb_Qle_bool_lt. tauto.
  - intros v -> Hx. simpl. f_equal.
    assert (Qle_bool x v = true) as ->; [|reflexivity].
    apply Qle_bool_iff. rewrite Hx. apply Qle_refl.
  - intros v -> Hx. simpl. f_equal.
    assert (Qle_bool v x = true) as ->; [|apply andb_false_r].
    apply Qle_bool_iff. rewrite Hx. apply Qle_refl.
  - intros -> Hx. simpl. f_equal.
    apply negb_Qle_bool_lt in Hx. rewrite Hx. reflexivity.
  - intros -> Hx. simpl. f_equal.
    apply negb_Qle_bool_lt in Hx. rewrite Hx. apply andb_true_r.
  - intros s. apply check_within_other; apply is_literal_built.
Qed.

Lemma check_within_range_strict_witness :
  check_within 3 [Some 3%Q; Some 5%Q] (literal "range") = Ok false
  /\ check_within 5 [Some 3%Q; Some 5%Q] (literal "range") = Ok false
  /\ check_within 4 [None; Some 5%Q] (literal "range") = Ok true
  /\ check_within 4 [Some 3%Q; None] (literal "range") = Ok true
  /\ check_within 4 [Some 3%Q; Some 5%Q] (built "range") = Raise RuntimeError.
Proof.
  split; [|split; [|split; [|split]]].
  - apply (proj1 (proj2 (check_within_range_strict 3 (Some 3%Q) (Some 5%Q)))
             3%Q); reflexivity.
  - apply (proj1 (proj2 (proj2
             (check_within_range_strict 5 (Some 3%Q) (Some 5%Q)))) 5%Q);
      reflexivity.
  - apply (proj1 (proj2 (proj2 (proj2
             (check_within_range_strict 4 None (Some 5%Q))))));
      reflexivity.
  - apply (proj1 (proj2 (proj2 (proj2 (proj2
             (check_within_range_strict 4 (Some 3%Q) None))))));
      reflexivity.
  - apply (proj2 (proj2 (proj2 (proj2 (proj2
             (check_within_range_strict 4 (Some 3%Q) (Some 5%Q))))))).
Defined.

(** ** Failed lookups *)

Lemma row_getitem_cases {V} (cols : list string) (row : list V)
    (name : string) :
  is_ok (row_getitem cols row name) = true
  \/ row_getitem cols row name = Raise KeyError.
Proof.
  unfold row_getitem. destruct (position name cols); [|right; reflexivity].
  destruct (nth_error row n); [left | right]; reflexivity.
Qed.

Lemma mapM_cases {A B} (f : A -> result B) (l : list A) (e : PyErr) :
  (forall x, is_ok (f x) = true \/ f x = Raise e) ->
  is_ok (mapM f l) = true \/ mapM f l = Raise e.
Proof.
  intros Hf. induction l as [|x l IH]; [left; reflexivity|]. simpl.
  destruct (Hf x) as [Hok|Hr]; [|rewrite Hr; right; reflexivity].
  destruct (f x); [|discriminate]. cbn [rbind].
  destruct IH as [Hok'|Hr']; [|rewrite Hr'; right; reflexivity].
  destruct (mapM f l); [left; reflexivity | discriminate].
Qed.

(** ** The constructor call in [VolumeAreaInterstice.transform] *)

Section Construction.
Context `{Externals}.

(** The keywords [calc_volume_area] and [calc_packing_efficiency] name no
    parameter of [PackingOfSite.__init__]. *)
Lemma constructor_call_raises (self : VolumeAreaInterstice.t) (s : Site) :
  PackingOfSite_call s (VolumeAreaInterstice.constructor_kwargs self)
  = Raise TypeError.
Proof. reflexivity. Qed.

Lemma transform_row_not_ok (self : VolumeAreaInterstice.t) cols d idx row :
  is_ok (VolumeAreaInterstice.transform_row self cols d idx row) = false.
Proof.
  unfold VolumeAreaInterstice.transform_row.
  do 3 (apply is_ok_rbind_false; intros ?).
  rewrite constructor_call_raises. reflexivity.
Qed.

Lemma transform_row_TypeError (self : VolumeAreaInterstice.t) cols d idx row :
  resolves self cols d idx row = true ->
  VolumeAreaInterstice.transform_row self cols d idx row = Raise TypeError.
Proof.
  unfold resolves, VolumeAreaInterstice.transform_row.
  destruct (getitem d idx) as [s|]; simpl; [|discriminate].
  destruct (mapM _ (VolumeAreaInterstice.neighbor_id_cols self)) as [ids|];
    simpl; [|discriminate].
  destruct (mapM _ (List.filter _ ids)) as [nbs|]; simpl; [|discriminate].
  reflexivity.
Qed.

(** The [else] branch is one more failure for a freshly constructed
    object of four or more neighbors, and the branch for fewer neighbors
    is the row of zeros of the declared width. *)
Lemma row_features_few_neighbors (self : VolumeAreaInterstice.t)
    (pos_ : PackingOfSite) :
  (length (neighbors (site pos_)) < 4)%nat ->
  VolumeAreaInterstice.row_features self pos_
  = Ok (repeat 0%Q (length (VolumeAreaInterstice.get_feature_names self))).
Proof.
  intros Hlt. unfold VolumeAreaInterstice.row_features.
  apply Nat.ltb_lt in Hlt. rewrite Hlt. reflexivity.
Qed.

(** The lookups that precede the constructor call fail with [KeyError]
    only. *)
Lemma transform_row_KeyError (self : VolumeAreaInterstice.t) cols d idx row :
  resolves self cols d idx row = false ->
  VolumeAreaInterstice.transform_row self cols d idx row = Raise KeyError.
Proof.
  unfold resolves, VolumeAreaInterstice.transform_row, getitem.
  destruct (d !! idx) as [s|]; cbn [rbind]; [|reflexivity].
  destruct (mapM_cases (row_getitem cols row)
              (VolumeAreaInterstice.neighbor_id_cols self) KeyError
              (row_getitem_cases cols row)) as [Hok|Hr];
    [|rewrite Hr; reflexivity].
  destruct (mapM (row_getitem cols row) _) as [ids|]; [|discriminate].
  cbn [rbind].
  destruct (mapM_cases (fun x => match d !! pyint x with
                                 | Some v => Ok v
                                 | None => Raise KeyError
                                 end)
              (List.filter (fun x => negb (Qle_bool x 0)) ids) KeyError)
    as [Hok'|Hr'].
  - intros x. destruct (d !! pyint x); [left | right]; reflexivity.
  - destruct (mapM _ (List.filter _ ids)); [discriminate | discriminate].
  - rewrite Hr'. reflexivity.
Qed.

(** C9, as the code has it.  On a table with at least one row
    [transform] does not return: the first turn of the loop raises, so
    no feature row is emitted.  When the row refers to atoms of the
    snapshot (its own site, the neighbor-id columns and the sites of its
    positive neighbor ids are found), the exception is the [TypeError]
    of the constructor call, which passes the keywords [calc_volume_area]
    and [calc_packing_efficiency] to a constructor whose parameters are
    [site], [radii] and [radius_type]; the test on the number of
    neighbors, and with it the row of zeros, is not reached.  When one
    of these lookups fails, the exception is its [KeyError], raised
    before the constructor is called. *)
Theorem transform_raises_on_first_row (self : VolumeAreaInterstice.t)
    (X : DataFrame Q) (idx : Z) (row : list Q) (rest : list (Z * list Q)) :
  iterrows X = (idx, row) :: rest ->
  (forall s, PackingOfSite_call s (VolumeAreaInterstice.constructor_kwargs self)
             = Raise TypeError)
  /\ is_ok (VolumeAreaInterstice.transform self X) = false
  /\ (resolves self (columns X)
        (VolumeAreaInterstice.make_site_dict self) idx row = true ->
      VolumeAreaInterstice.transform self X = Raise TypeError)
  /\ (resolves self (columns X)
        (VolumeAreaInterstice.make_site_dict self) idx row = false ->
      VolumeAreaInterstice.transform self X = Raise KeyError).
Proof.
  intros HX. split; [intros s; apply constructor_call_raises|].
  unfold VolumeAreaInterstice.transform. rewrite HX. simpl.
  split; [|split].
  - pose proof (transform_row_not_ok self (columns X)
                  (VolumeAreaInterstice.make_site_dict self) idx row) as Hno.
    destruct (VolumeAreaInterstice.transform_row self (columns X)
                (VolumeAreaInterstice.make_site_dict self) idx row);
      [discriminate | reflexivity].
  - intros Hres.
    rewrite (transform_row_TypeError _ _ _ _ _ Hres). reflexivity.
  - intros Hres.
    rewrite (transform_row_KeyError _ _ _ _ _ Hres). reflexivity.
Qed.

End Construction.

(** ** Degenerate neighbor sets *)

Section Degenerate.
Context `{Externals}.

(** scipy's [ConvexHull] raises [QhullError] on a set of points without
    volume: fewer than four points, or points that all lie in one plane
    or on one line. *)
Hypothesis ConvexHull_degenerate :
  forall pts, degenerate pts = true -> ConvexHull pts = Raise QhullError.




End Degenerate.


(** ** Sums of rationals *)

Lemma Qsum_app (l1 l2 : list Q) : (Qsum (l1 ++ l2) == Qsum l1 + Qsum l2)%Q.
Proof.
  induction l1 as [|x l1 IH]; simpl.
  - ring.
  - rewrite IH. ring.
Qed.

Lemma Qsum_map_ext {A} (f g : A -> Q) (l : list A) :
  (forall x, In x l -> (f x == g x)%Q) ->
  (Qsum (map f l) == Qsum (map g l))%Q.
Proof.
  induction l as [|x l IH]; intros Hfg; simpl; [reflexivity|].
  rewrite (Hfg x) by (left; reflexivity).
  rewrite IH by (intros y Hy; apply Hfg; right; exact Hy).
  reflexivity.
Qed.

Lemma Qsum_map_plus {A} (f g : A -> Q) (l : list A) :
  (Qsum (map (fun x => f x + g x) l) == Qsum (map f l) + Qsum (map g l))%Q.
Proof.
  induction l as [|x l IH]; simpl; [ring|]. rewrite IH. ring.
Qed.

Lemma Qsum_map_div {A} (f : A -> Q) (c : Q) (l : list A) :
  (Qsum (map (fun x => f x / c) l) == Qsum (map f l) / c)%Q.
Proof.
  induction l as [|x l IH]; simpl.
  - unfold Qdiv. ring.
  - rewrite IH. unfold Qdiv. ring.
Qed.

Lemma Qsum_zero {A} (f : A -> Q) (l : list A) :
  (forall x, In x l -> (f x == 0)%Q) -> (Qsum (map f l) == 0)%Q.
Proof.
  induction l as [|x l IH]; intros Hf; simpl; [reflexivity|].
  rewrite (Hf x) by (left; reflexivity).
  rewrite IH by (intros y Hy; apply Hf; right; exact Hy).
  ring.
Qed.

Lemma Qeq_bool_false_neq (a b : Q) : Qeq_bool a b = false <-> ~ (a == b)%Q.
Proof.
  split.
  - intros Hf Heq. apply Qeq_bool_iff in Heq. congruence.
  - intros Hne. destruct (Qeq_bool a b) eqn:E; [|reflexivity].
    apply Qeq_bool_iff in E. contradiction.
Qed.

Lemma pydiv_ok (a b : Q) : ~ (b == 0)%Q -> pydiv a b = Ok (a / b)%Q.
Proof.
  intros Hb. unfold pydiv.
  apply Qeq_bool_false_neq in Hb. rewrite Hb. reflexivity.
Qed.

Lemma pydiv_zero (a b : Q) : (b == 0)%Q -> pydiv a b = Raise ZeroDivisionError.
Proof.
  intros Hb. unfold pydiv. apply Qeq_bool_iff in Hb. rewrite Hb. reflexivity.
Qed.

(** ** [glass_packing_efficiency] *)

Lemma has_radius_radius (self : PackingOfSite) (t : Z) :
  has_radius self t ->
  radius_of (radii self) (radius_type self) t = Ok (radius self t).
Proof.
  unfold has_radius, radius.
  destruct (radius_of (radii self) (radius_type self) t);
    [reflexivity | discriminate].
Qed.

(** The indicator sum over a duplicate-free list of keys picks the one
    key. *)
Lemma Qsum_indicator (g : Z -> Q) (k : Z) (ks : list Z) :
  NoDup ks -> In k ks ->
  (Qsum (map (fun t => g t * (if Z.eqb k t then 1 else 0)) ks) == g k)%Q.
Proof.
  induction 1 as [|t ks Hnin Hnd IH]; intros Hin; [destruct Hin|].
  simpl. destruct (Z.eqb_spec k t) as [->|Hne].
  - rewrite Qsum_zero; [ring|].
    intros x Hx. destruct (Z.eqb_spec t x) as [->|_]; [|ring].
    exfalso. apply Hnin. apply list_elem_of_In. exact Hx.
  - destruct Hin as [->|Hin]; [congruence|].
    rewrite (IH Hin). ring.
Qed.

Lemma count_sum (g : Z -> Q) (nbs : list Site) (ks : list Z) :
  NoDup ks ->
  (forall nb, In nb nbs -> In (type nb) ks) ->
  (Qsum (map (fun t =>
                g t * inject_Z (Z.of_nat (length
                  (List.filter (fun nb => Z.eqb (type nb) t) nbs)))) ks)
   == Qsum (map (fun nb => g (type nb)) nbs))%Q.
Proof.
  intros Hnd. induction nbs as [|nb nbs IH]; intros Hin; simpl.
  - apply Qsum_zero. intros x _. ring.
  - rewrite <- IH by (intros y Hy; apply Hin; right; exact Hy).
    rewrite <- (Qsum_indicator g (type nb) ks Hnd)
      by (apply Hin; left; reflexivity).
    rewrite <- Qsum_map_plus. apply Qsum_map_ext. intros t _.
    destruct (Z.eqb (type nb) t); simpl length.
    + rewrite Nat2Z.inj_succ, <- Z.add_1_r, inject_Z_plus. simpl. ring.
    + ring.
Qed.

Lemma count_type_sum (g : Z -> Q) (t : Z) (d : list (Z * Z)) :
  (Qsum (map (fun '(k, n) => g k * inject_Z n) (count_type t d))
   == Qsum (map (fun '(k, n) => g k * inject_Z n) d) + g t)%Q.
Proof.
  induction d as [|[k n] d IH]; simpl.
  - ring.
  - destruct (Z.eqb_spec k t) as [->|Hne]; simpl.
    + rewrite inject_Z_plus. simpl. ring.
    + rewrite IH. ring.
Qed.

Lemma type_dict_sum (g : Z -> Q) (nbs : list Site) (d : list (Z * Z)) :
  (Qsum (map (fun '(k, n) => g k * inject_Z n)
             (fold_left (fun d nb => count_type (type nb) d) nbs d))
   == Qsum (map (fun '(k, n) => g k * inject_Z n) d)
      + Qsum (map (fun nb => g (type nb)) nbs))%Q.
Proof.
  revert d. induction nbs as [|nb nbs IH]; intros d; simpl.
  - ring.
  - rewrite IH, count_type_sum. ring.
Qed.

Lemma count_type_keys (t : Z) (d : list (Z * Z)) (k n : Z) :
  In (k, n) (count_type t d) -> k = t \/ In k (map fst d).
Proof.
  induction d as [|[k' n'] d IH]; simpl.
  - intros [[= <- _]|[]]. left; reflexivity.
  - destruct (Z.eqb_spec k' t) as [->|Hne]; simpl.
    + intros [[= <- _]|Hin]; [left; reflexivity|].
      right; right. apply (in_map fst) in Hin. exact Hin.
    + intros [[= <- _]|Hin]; [right; left; reflexivity|].
      destruct (IH Hin) as [->|Hk]; [left; reflexivity | right; right; exact Hk].
Qed.

Lemma type_dict_keys (nbs : list Site) (d : list (Z * Z)) (k : Z) :
  In k (map fst (fold_left (fun d nb => count_type (type nb) d) nbs d)) ->
  In k (map fst d) \/ In k (map type nbs).
Proof.
  revert d. induction nbs as [|nb nbs IH]; intros d; simpl; [auto|].
  intros Hin. destruct (IH _ Hin) as [Hk|Hk]; [|auto].
  apply in_map_iff in Hk as [[k' n] [Hfst Hk]]. simpl in Hfst. subst k'.
  destruct (count_type_keys _ _ _ _ Hk) as [->|Hd]; auto.
Qed.

(** The loop over the type dictionary adds up radius times count. *)
Lemma radius_loop (self : PackingOfSite) (d : list (Z * Z)) (acc : Q) :
  (forall k, In k (map fst d) -> has_radius self k) ->
  exists r,
    foldM (fun r '(t, n) =>
             let* rt := radius_of (radii self) (radius_type self) t in
             Ok (r + rt * inject_Z n)%Q) acc d = Ok r
    /\ (r == acc + Qsum (map (fun '(k, n) => radius self k * inject_Z n) d))%Q.
Proof.
  revert acc. induction d as [|[t n] d IH]; intros acc Hr; simpl.
  - exists acc. split; [reflexivity | ring].
  - rewrite (has_radius_radius self t) by (apply Hr; left; reflexivity).
    simpl.
    destruct (IH (acc + radius self t * inject_Z n)%Q) as (r & Hfold & Heq).
    { intros k Hk. apply Hr. right. exact Hk. }
    exists r. split; [exact Hfold|]. rewrite Heq. ring.
Qed.

Lemma ideal_ratio_dom (z : Z) :
  is_Some (ideal_ratio_ !! z) <-> 3 <= z <= 24.
Proof.
  split.
  - intros [v Hv]. unfold ideal_ratio_ in Hv.
    apply elem_of_list_to_map_2 in Hv.
    repeat (apply elem_of_cons in Hv as [[= -> _]|Hv]; [lia|]).
    apply elem_of_nil in Hv. destruct Hv.
  - intros Hz.
    assert (exists k : nat, z = 3 + Z.of_nat k /\ (k < 22)%nat) as (k & -> & Hk).
    { exists (Z.to_nat (z - 3)). lia. }
    do 22 (destruct k as [|k]; [vm_compute; eauto|]). lia.
Qed.

Lemma weighted_neighbor_radius_eq (self : PackingOfSite) :
  (weighted_neighbor_radius self
   == Qsum (map (fun nb => radius self (type nb)) (neighbors (site self)))
      / inject_Z (cn (site self)))%Q.
Proof.
  unfold weighted_neighbor_radius, distinct_types, count_of_type.
  rewrite (Qsum_map_div
             (fun t => (radius self t * inject_Z (Z.of_nat (length
                (List.filter (fun nb => Z.eqb (type nb) t)
                             (neighbors (site self))))))%Q)).
  rewrite count_sum; [reflexivity | |].
  - apply NoDup_remove_dups.
  - intros nb Hnb. apply list_elem_of_In, elem_of_remove_dups, list_elem_of_In.
    apply in_map. exact Hnb.
Qed.

(** C3, as the code has it.  For a coordination number from 3 to 24, a
    radius entry for the type of the atom and of each neighbor, and a
    weighted neighbor radius that is not zero,
    [glass_packing_efficiency] returns
    r_center / (sum over the distinct neighbor types of
    r_type * count_of_type / coordination_number)
    - ideal_ratio[coordination_number].
    When the weighted neighbor radius is zero the quotient does not
    exist and the method raises [ZeroDivisionError].
    For a coordination number outside 3..24 it raises. *)
Theorem glass_packing_efficiency_formula (self : PackingOfSite) :
  (3 <= cn (site self) <= 24 ->
   (forall t, In t (type (site self) :: map type (neighbors (site self))) ->
              has_radius self t) ->
   ~ (weighted_neighbor_radius self == 0)%Q ->
   exists v ideal,
     glass_packing_efficiency self = Ok v
     /\ ideal_ratio_ !! cn (site self) = Some ideal
     /\ (v == radius self (type (site self)) / weighted_neighbor_radius self
              - ideal)%Q)
  /\ (3 <= cn (site self) <= 24 ->
      (forall t, In t (type (site self) :: map type (neighbors (site self))) ->
                 has_radius self t) ->
      (weighted_neighbor_radius self == 0)%Q ->
      glass_packing_efficiency self = Raise ZeroDivisionError)
  /\ (~ (3 <= cn (site self) <= 24) ->
      exists e, glass_packing_efficiency self = Raise e).
Proof.
  assert (Hloop : 3 <= cn (site self) <= 24 ->
            (forall t, In t (type (site self)
                             :: map type (neighbors (site self))) ->
                       has_radius self t) ->
            exists r,
              foldM (fun r '(t, n) =>
                       let* rt := radius_of (radii self) (radius_type self) t in
                       Ok (r + rt * inject_Z n)%Q)
                    0%Q (nn_type_dict (site self)) = Ok r
              /\ pydiv r (inject_Z (cn (site self)))
                 = Ok (r / inject_Z (cn (site self)))%Q
              /\ (r / inject_Z (cn (site self))
                  == weighted_neighbor_radius self)%Q).
  { intros Hcn Hrad.
    destruct (radius_loop self (nn_type_dict (site self)) 0%Q) as (r & Hr & Heq).
    { intros k Hk. apply Hrad. right.
      destruct (type_dict_keys _ _ _ Hk) as [[]|Hin]. exact Hin. }
    exists r. split; [exact Hr|]. split.
    - apply pydiv_ok. intros H0. unfold Qeq in H0. simpl in H0. lia.
    - rewrite weighted_neighbor_radius_eq, Heq.
      unfold nn_type_dict. rewrite type_dict_sum. simpl.
      unfold Qdiv. ring. }
  split; [|split].
  - intros Hcn Hrad Hw.
    destruct (proj2 (ideal_ratio_dom _) Hcn) as [ideal Hideal].
    destruct (Hloop Hcn Hrad) as (r & Hr & Hdiv & Hrw).
    exists (radius self (type (site self)) / (r / inject_Z (cn (site self)))
            - ideal)%Q, ideal.
    split; [|split; [exact Hideal|]].
    + unfold glass_packing_efficiency. rewrite Hr. cbn [rbind].
      rewrite Hdiv. cbn [rbind].
      rewrite (has_radius_radius self (type (site self)))
        by (apply Hrad; left; reflexivity).
      cbn [rbind]. rewrite pydiv_ok by (rewrite Hrw; exact Hw).
      cbn [rbind]. unfold getitem. rewrite Hideal. reflexivity.
    + rewrite Hrw. reflexivity.
  - intros Hcn Hrad Hw.
    destruct (Hloop Hcn Hrad) as (r & Hr & Hdiv & Hrw).
    unfold glass_packing_efficiency. rewrite Hr. cbn [rbind].
    rewrite Hdiv. cbn [rbind].
    rewrite (has_radius_radius self (type (site self)))
      by (apply Hrad; left; reflexivity).
    cbn [rbind]. rewrite pydiv_zero; [reflexivity|].
    rewrite Hrw. exact Hw.
  - intros Hcn. unfold glass_packing_efficiency.
    destruct (foldM _ 0%Q (nn_type_dict (site self))) as [r|e];
      cbn [rbind]; [|eauto].
    destruct (pydiv r _) as [r'|e]; cbn [rbind]; [|eauto].
    destruct (radius_of _ _ _) as [rc|e]; cbn [rbind]; [|eauto].
    destruct (pydiv rc r') as [q|e]; cbn [rbind]; [|eauto].
    unfold getitem.
    destruct (ideal_ratio_ !! cn (site self)) as [v|] eqn:E; cbn [rbind]; [|eauto].
    exfalso. apply Hcn. apply ideal_ratio_dom. eauto.
Qed.

(** ** Solid angles and the packed volume of a cluster *)

Lemma list_getitem_point (nn : list Coord) (i : nat) :
  (i < length nn)%nat -> list_getitem nn i = Ok (point nn i).
Proof.
  intros Hi. unfold list_getitem, point.
  rewrite (nth_error_nth' nn (0, 0, 0)%Q Hi). reflexivity.
Qed.

(** The inner loop of the angle calculations visits the three vertices
    in order, each with the two others. *)
Lemma facet_vertex_loop_ok (f : Coord -> Coord -> Coord -> Q)
    (nn : list Coord) (a b c : nat) :
  (a < length nn)%nat -> (b < length nn)%nat -> (c < length nn)%nat ->
  facet_vertex_loop f nn (a, b, c)
  = Ok [f (point nn a) (point nn b) (point nn c);
        f (point nn b) (point nn a) (point nn c);
        f (point nn c) (point nn a) (point nn b)].
Proof.
  intros Ha Hb Hc. unfold facet_vertex_loop. simpl.
  rewrite !(list_getitem_point nn a Ha), !(list_getitem_point nn b Hb),
    !(list_getitem_point nn c Hc).
  reflexivity.
Qed.

Section Packing.
Context `{Externals}.

Lemma tetra_angles_ok (self : PackingOfSite) (h : Hull) :
  convex_hull_ self = None ->
  ConvexHull (nn_coords (site self)) = Ok h ->
  in_range (length (nn_coords (site self))) h ->
  calculate_hull_tetra_angles self
  = Ok (map (facet_solid_angles (site self)) (simplices h),
        set_solid_angle_lists_ (set_convex_hull_ self h)
          (map (facet_solid_angles (site self)) (simplices h))).
Proof.
  intros Hnone Hh Hin. unfold calculate_hull_tetra_angles, convex_hull.
  rewrite Hnone, Hh. cbn [rbind]. simpl site.
  rewrite (mapM_ok_map _ (facet_solid_angles (site self))); [reflexivity|].
  intros [[a b] c] Hf. unfold facet_solid_angles.
  apply facet_vertex_loop_ok; apply (Hin (a, b, c)); simpl; auto.
Qed.

Lemma facet_angles_ok (self : PackingOfSite) (h : Hull) :
  convex_hull_ self = None ->
  ConvexHull (nn_coords (site self)) = Ok h ->
  in_range (length (nn_coords (site self))) h ->
  calculate_hull_facet_angles self
  = Ok (map (facet_triangular_angles (site self)) (simplices h),
        set_triangular_angle_lists_ (set_convex_hull_ self h)
          (map (facet_triangular_angles (site self)) (simplices h))).
Proof.
  intros Hnone Hh Hin. unfold calculate_hull_facet_angles, convex_hull.
  rewrite Hnone, Hh. cbn [rbind]. simpl site.
  rewrite (mapM_ok_map _ (facet_triangular_angles (site self)));
    [reflexivity|].
  intros [[a b] c] Hf. unfold facet_triangular_angles.
  apply facet_vertex_loop_ok; apply (Hin (a, b, c)); simpl; auto.
Qed.

End Packing.

Lemma angle_at_cons (j idx : nat) (a : Q) (l : list (nat * Q)) :
  (angle_at j ((idx, a) :: l)
   == (if Nat.eqb idx j then a else 0) + angle_at j l)%Q.
Proof.
  unfold angle_at. simpl. destruct (Nat.eqb idx j); simpl; ring.
Qed.

(** [l[idx] += a], over the vertices of one facet. *)
Lemma add_at_loop (pairs : list (nat * Q)) (acc : list Q) :
  (forall p, In p pairs -> (fst p < length acc)%nat) ->
  exists acc',
    foldM (fun acc '(idx, a) => add_at acc idx a) acc pairs = Ok acc'
    /\ length acc' = length acc
    /\ forall j, (nth j acc' 0 == nth j acc 0 + angle_at j pairs)%Q.
Proof.
  revert acc. induction pairs as [|[idx a] pairs IH]; intros acc Hin.
  - exists acc. split; [reflexivity|]. split; [reflexivity|].
    intros j. unfold angle_at. simpl. ring.
  - assert (Hidx : (idx < length acc)%nat) by (apply (Hin (idx, a)); left; reflexivity).
    destruct (lookup_lt_is_Some_2 acc idx Hidx) as [v Hv].
    destruct (IH (<[idx := (v + a)%Q]> acc)) as (acc' & Hfold & Hlen & Hnth).
    { intros p Hp. rewrite length_insert. apply Hin. right. exact Hp. }
    exists acc'. split; [|split].
    + simpl. unfold add_at at 1. rewrite Hv. cbn [rbind]. exact Hfold.
    + rewrite Hlen. apply length_insert.
    + intros j. rewrite Hnth, angle_at_cons, !nth_lookup.
      destruct (Nat.eqb_spec idx j) as [->|Hne].
      * rewrite list_lookup_insert_eq by exact Hidx. rewrite Hv. simpl. ring.
      * rewrite list_lookup_insert_ne by exact Hne. ring.
Qed.

(** The same over all the facets of a hull. *)
Lemma accumulate_loop (facets : list (Simplex * list Q)) (acc : list Q) :
  (forall f l i, In (f, l) facets -> In i (items f) -> (i < length acc)%nat) ->
  exists acc',
    foldM (fun acc '(s, solid_angle_list) =>
             foldM (fun acc '(idx, a) => add_at acc idx a) acc
                   (combine (items s) solid_angle_list))
          acc facets = Ok acc'
    /\ length acc' = length acc
    /\ forall j,
         (nth j acc' 0
          == nth j acc 0
             + Qsum (map (fun '(f, l) => angle_at j (combine (items f) l))
                         facets))%Q.
Proof.
  revert acc. induction facets as [|[f l] facets IH]; intros acc Hin.
  - exists acc. split; [reflexivity|]. split; [reflexivity|].
    intros j. simpl. ring.
  - destruct (add_at_loop (combine (items f) l) acc) as (acc1 & H1 & Hl1 & Hn1).
    { intros [i a] Hp. apply in_combine_l in Hp.
      apply (Hin f l i); [left; reflexivity | exact Hp]. }
    destruct (IH acc1) as (acc' & Hfold & Hlen & Hnth).
    { intros f' l' i Hf Hi. rewrite Hl1. apply (Hin f' l' i); [right|]; assumption. }
    exists acc'. split; [|split].
    + simpl. rewrite H1. cbn [rbind]. exact Hfold.
    + rewrite Hlen. exact Hl1.
    + intros j. rewrite Hnth, Hn1. simpl. ring.
Qed.

Lemma nth_repeat_zero (n j : nat) : nth j (repeat 0%Q n) 0%Q = 0%Q.
Proof.
  revert j. induction n as [|n IH]; intros [|j]; simpl; auto.
Qed.

Lemma cone_compat (self : PackingOfSite) (nb : Site) (a b : Q) :
  (a == b)%Q -> (cone self nb a == cone self nb b)%Q.
Proof.
  intros Hab. unfold cone.
  destruct (Qeq_bool a 0) eqn:Ea, (Qeq_bool b 0) eqn:Eb.
  - reflexivity.
  - apply Qeq_bool_iff in Ea. apply Qeq_bool_false_neq in Eb.
    exfalso. apply Eb. rewrite <- Hab. exact Ea.
  - apply Qeq_bool_iff in Eb. apply Qeq_bool_false_neq in Ea.
    exfalso. apply Ea. rewrite Hab. exact Eb.
  - rewrite Hab. reflexivity.
Qed.

(** The loop of [cluster_packed_volume] over neighbors and angles. *)
Lemma cone_loop (self : PackingOfSite) (pairs : list (Site * Q)) (start : Q) :
  (forall p, In p pairs -> has_radius self (type (fst p))) ->
  exists v,
    foldM (fun packed_volume '(neighbor_site, sa) =>
             if Qeq_bool sa 0 then Ok packed_volume
             else
               let* r := radius_of (radii self) (radius_type self)
                                   (type neighbor_site) in
               Ok (packed_volume + sa * 1 / 3 * r ^ 3)%Q)
          start pairs = Ok v
    /\ (v == start + Qsum (map (fun '(nb, sa) => cone self nb sa) pairs))%Q.
Proof.
  revert start. induction pairs as [|[nb sa] pairs IH]; intros start Hr.
  - exists start. split; [reflexivity | simpl; ring].
  - simpl. unfold cone at 1. destruct (Qeq_bool sa 0) eqn:E.
    + destruct (IH start) as (v & Hv & Heq).
      { intros p Hp. apply Hr. right. exact Hp. }
      exists v. split; [exact Hv|]. rewrite Heq. ring.
    + rewrite (has_radius_radius self (type nb))
        by (apply (Hr (nb, sa)); left; reflexivity).
      cbn [rbind].
      destruct (IH (start + sa * 1 / 3 * radius self (type nb) ^ 3)%Q)
        as (v & Hv & Heq).
      { intros p Hp. apply Hr. right. exact Hp. }
      exists v. split; [exact Hv|]. rewrite Heq. unfold Qdiv. ring.
Qed.

(** Pairing the neighbors with a list of angles, or with their numbers
    and the angle of each number, gives the same sum. *)
Lemma cone_sum_indexed (self : PackingOfSite) (omega : nat -> Q)
    (nbs : list Site) (nsa : list Q) (off : nat) :
  length nsa = length nbs ->
  (forall j, (j < length nbs)%nat -> (nth j nsa 0 == omega (off + j)%nat)%Q) ->
  (Qsum (map (fun '(nb, sa) => cone self nb sa) (combine nbs nsa))
   == Qsum (map (fun '(i, nb) => cone self nb (omega i))
                (combine (seq off (length nbs)) nbs)))%Q.
Proof.
  revert nsa off. induction nbs as [|nb nbs IH]; intros nsa off Hlen Hnth.
  - reflexivity.
  - destruct nsa as [|sa nsa]; [discriminate|]. simpl.
    rewrite (IH nsa (S off)).
    + rewrite (cone_compat self nb sa (omega off)); [reflexivity|].
      specialize (Hnth O). simpl in Hnth. rewrite Nat.add_0_r in Hnth.
      apply Hnth. lia.
    + simpl in Hlen. lia.
    + intros j Hj. specialize (Hnth (S j)). simpl in Hnth.
      rewrite Nat.add_succ_r in Hnth. apply Hnth. simpl. lia.
Qed.

Section PackedVolume.
Context `{Externals}.

(** C4.  For an atom with a hull (the hull construction succeeds, its
    facets refer to neighbors of the atom, its volume is not zero) and
    radius entries for the types involved: after the solid angles have
    been calculated and combined, every neighbor holds the solid angle
    accumulated over the facets that adjoin it, [cluster_packed_volume]
    is (4/3) pi r_center^3 plus, for every neighbor with a non-zero
    accumulated solid angle, that angle / 3 * r_neighbor^3, and
    [atomic_packing_efficiency] is this volume divided by the volume of
    the hull. *)
Theorem atomic_packing_efficiency_formula (self : PackingOfSite) (h : Hull) :
  convex_hull_ self = None ->
  neighbors_solid_angle_ self = None ->
  ConvexHull (nn_coords (site self)) = Ok h ->
  in_range (length (nn_coords (site self))) h ->
  in_range (length (neighbors (site self))) h ->
  (forall t, In t (type (site self) :: map type (neighbors (site self))) ->
             has_radius self t) ->
  ~ (volume h == 0)%Q ->
  exists sal p1 acc p2 v e p3,
    calculate_hull_tetra_angles self = Ok (sal, p1)
    /\ combine_neighbor_solid_angles p1 = Ok (acc, p2)
    /\ length acc = length (neighbors (site self))
    /\ (forall j, (j < length (neighbors (site self)))%nat ->
          (nth j acc 0 == accumulated_solid_angle (site self) h j)%Q)
    /\ cluster_packed_volume p2 = Ok v
    /\ (v == cluster_packed_volume_spec self h)%Q
    /\ atomic_packing_efficiency p2 = Ok (e, p3)
    /\ (e == cluster_packed_volume_spec self h / volume h)%Q.
Proof.
  intros Hnone Hnsa Hh Hnn Hnb Hrad Hvol.
  set (sal := map (facet_solid_angles (site self)) (simplices h)).
  set (p1 := set_solid_angle_lists_ (set_convex_hull_ self h) sal).
  destruct (accumulate_loop (combine (simplices h) sal)
              (repeat 0%Q (length (neighbors (site self)))))
    as (acc & Hacc & Hlen & Hnth).
  { intros f l i Hf Hi. rewrite repeat_length.
    apply in_combine_l in Hf. exact (Hnb f i Hf Hi). }
  rewrite repeat_length in Hlen.
  set (p2 := set_neighbors_solid_angle_ p1 acc).
  assert (Homega : forall j,
             (nth j acc 0 == accumulated_solid_angle (site self) h j)%Q).
  { intros j. rewrite Hnth, nth_repeat_zero.
    unfold accumulated_solid_angle, sal.
    rewrite Qplus_0_l. clear.
    induction (simplices h) as [|f fs IH]; simpl; [reflexivity|].
    rewrite IH. reflexivity. }
  destruct (cone_loop p2 (combine (neighbors (site self)) acc)
              (4 / 3 * pi * radius self (type (site self)) ^ 3)%Q)
    as (v & Hv & Hveq).
  { intros [nb sa] Hp. apply in_combine_l in Hp. apply Hrad. right.
    apply in_map. exact Hp. }
  assert (Hspec : (v == cluster_packed_volume_spec self h)%Q).
  { rewrite Hveq. unfold cluster_packed_volume_spec.
    rewrite (cone_sum_indexed p2
               (accumulated_solid_angle (site self) h)
               (neighbors (site self)) acc 0 Hlen)
      by (intros j _; apply Homega).
    reflexivity. }
  assert (Hcpv : cluster_packed_volume p2 = Ok v).
  { unfold cluster_packed_volume.
    rewrite (has_radius_radius p2 (type (site p2)))
      by (apply Hrad; left; reflexivity).
    cbn [rbind]. exact Hv. }
  exists sal, p1, acc, p2, v, (v / volume h)%Q, p2.
  split; [apply (tetra_angles_ok self h Hnone Hh Hnn)|].
  split.
  { unfold combine_neighbor_solid_angles.
    change (neighbors_solid_angle_ p1) with (neighbors_solid_angle_ self).
    rewrite Hnsa. unfold convex_hull. simpl convex_hull_. cbn [rbind].
    simpl solid_angle_lists_. unfold getattr. cbn [rbind].
    change (site p1) with (site self). rewrite Hacc. reflexivity. }
  split; [exact Hlen|].
  split; [intros j _; apply Homega|].
  split; [exact Hcpv|].
  split; [exact Hspec|].
  split.
  - unfold atomic_packing_efficiency. rewrite Hcpv. cbn [rbind].
    unfold convex_hull. simpl convex_hull_. cbn [rbind].
    rewrite (pydiv_ok v (volume h) Hvol). reflexivity.
  - rewrite Hspec. reflexivity.
Qed.

End PackedVolume.


(** ** Facet interstices *)

Lemma packed_area_loop (self : PackingOfSite) (pairs : list (nat * Q))
    (start : Q) :
  (forall p, In p pairs ->
     exists nb, nth_error (neighbors (site self)) (fst p) = Some nb
                /\ has_radius self (type nb)) ->
  exists v,
    foldM (fun packed_area '(idx, tri_angle) =>
             let* nb := list_getitem (neighbors (site self)) idx in
             let* r := radius_of (radii self) (radius_type self) (type nb) in
             Ok (packed_area + tri_angle / 2 * r ^ 2)%Q)
          start pairs = Ok v
    /\ (v == start
             + Qsum (map (fun '(i, a) =>
                            (a / 2 * radius self
                               (type (nth i (neighbors (site self))
                                          (mkSite 0 (0, 0, 0)%Q 0 []))) ^ 2)%Q)
                         pairs))%Q.
Proof.
  revert start. induction pairs as [|[idx a] pairs IH]; intros start Hp.
  - exists start. split; [reflexivity | simpl; ring].
  - destruct (Hp (idx, a)) as (nb & Hnb & Hr); [left; reflexivity|].
    simpl in Hnb.
    destruct (IH (start + a / 2 * radius self (type nb) ^ 2)%Q)
      as (v & Hv & Heq).
    { intros p Hin. apply Hp. right. exact Hin. }
    exists v. split.
    + simpl. unfold list_getitem. rewrite Hnb. cbn [rbind].
      rewrite (has_radius_radius self (type nb) Hr). cbn [rbind]. exact Hv.
    + rewrite Heq. simpl.
      rewrite (nth_error_nth _ _ (mkSite 0 (0, 0, 0)%Q 0 []) Hnb). ring.
Qed.

Section Interstice.
Context `{Externals}.

(** The body of the loop over the facets, run on the array of the
    neighbor positions, computes what the specification states: the
    facet area and 1 - packed_area / facet_area, with the packed area the
    sum over the three vertices of (triangular angle / 2) * radius^2. *)
Lemma facet_interstice_on_positions (self : PackingOfSite) (nn : list Coord)
    (a b c : nat) (angles : list Q) :
  (a < length nn)%nat -> (b < length nn)%nat -> (c < length nn)%nat ->
  (forall i, In i [a; b; c] ->
     exists nb, nth_error (neighbors (site self)) i = Some nb
                /\ has_radius self (type nb)) ->
  ~ (triangle_area (point nn a) (point nn b) (point nn c) == 0)%Q ->
  exists packed,
    facet_interstice self (np_array (CoordList nn)) (a, b, c) angles
    = Ok (triangle_area (point nn a) (point nn b) (point nn c),
          (1 - packed / triangle_area (point nn a) (point nn b) (point nn c))%Q)
    /\ (packed == packed_facet_area_spec self (a, b, c) angles)%Q.
Proof.
  intros Ha Hb Hc Hnb Harea.
  destruct (packed_area_loop self (combine [a; b; c] angles) 0%Q)
    as (packed & Hp & Heq).
  { intros [i x] Hin. apply in_combine_l in Hin. apply Hnb. exact Hin. }
  exists packed. split.
  - unfold facet_interstice. simpl take.
    rewrite (list_getitem_point nn a Ha), (list_getitem_point nn b Hb),
      (list_getitem_point nn c Hc).
    cbn [rbind]. unfold packed_facet_area. simpl items. rewrite Hp.
    cbn [rbind unpack3]. rewrite (pydiv_ok _ _ Harea). reflexivity.
  - rewrite Heq. unfold packed_facet_area_spec. simpl items. ring.
Qed.

(** C5.  For an atom with a hull of at least one facet, whose triangular
    angles have been calculated, [analyze_hull_facet_interstice] raises
    [IndexError] on the first facet and reports no packed area and no
    interstice fraction: it takes its coordinate array from the
    attribute [self.site.nn_coords] without calling it, and the
    0-dimensional array that results cannot be indexed by the facet. *)
Theorem facet_interstice_raises (self : PackingOfSite) (h : Hull) :
  convex_hull_ self = None ->
  ConvexHull (nn_coords (site self)) = Ok h ->
  in_range (length (nn_coords (site self))) h ->
  simplices h <> [] ->
  exists tal p1,
    calculate_hull_facet_angles self = Ok (tal, p1)
    /\ analyze_hull_facet_interstice p1 = Raise IndexError.
Proof.
  intros Hnone Hh Hin Hne.
  eexists _, _. split; [apply (facet_angles_ok self h Hnone Hh Hin)|].
  unfold analyze_hull_facet_interstice, convex_hull.
  simpl convex_hull_. cbn [rbind]. simpl triangular_angle_lists_.
  unfold getattr. cbn [rbind].
  destruct (simplices h) as [|f fs]; [contradiction|].
  reflexivity.
Qed.

End Interstice.


(** ** The dependency of [CharacterMotif] on the Voronoi index *)

Lemma existsb_eqb_In (name : string) (cols : list string) :
  existsb (String.eqb name) cols = true <-> In name cols.
Proof.
  rewrite existsb_exists. split.
  - intros (c & Hc & Heq). apply String.eqb_eq in Heq. subst. exact Hc.
  - intros Hin. exists name. split; [exact Hin | apply String.eqb_refl].
Qed.

Section Dependency.
Context `{Engines}.

Lemma transform_present (self : CharacterMotif.t) (X : DataFrame Q) :
  In "Voronoi idx5 voro" (columns X) ->
  CharacterMotif.transform self X
  = CharacterMotif.classify self (length (values X)) X.
Proof.
  intros Hin. apply existsb_eqb_In in Hin.
  unfold CharacterMotif.transform. rewrite Hin. reflexivity.
Qed.

Lemma classify_calls (self : CharacterMotif.t) (n : nat) (X : DataFrame Q) :
  CharacterMotif.VoroIndex_calls (fst (CharacterMotif.classify self n X)) = O.
Proof.
  unfold CharacterMotif.classify.
  destruct (getattr (CharacterMotif.target_voro_idx self)); [|reflexivity].
  cbn [rbind]. destruct (select X _); reflexivity.
Qed.

(** C7.  When the table has the column "Voronoi idx5 voro", [transform]
    classifies the table as it is and calls no Voronoi-index engine.
    When it has not, [transform] calls the engine once, first, on the
    table, and classifies the table that the engine returns.  [fit]
    calls no Voronoi-index engine. *)
Theorem voro_index_computed_once_if_absent (self : CharacterMotif.t)
    (X : DataFrame Q) :
  (In "Voronoi idx5 voro" (columns X) ->
     CharacterMotif.transform self X
     = CharacterMotif.classify self (length (values X)) X
     /\ CharacterMotif.VoroIndex_calls (fst (CharacterMotif.transform self X))
        = O)
  /\ (~ In "Voronoi idx5 voro" (columns X) ->
        CharacterMotif.VoroIndex_calls
          (fst (CharacterMotif.transform self X)) = 1%nat
        /\ match VoroIndex_fit_transform (CharacterMotif.voro_index self) X with
           | Raise e =>
               CharacterMotif.transform self X
               = ([CharacterMotif.VoroIndex_called X], Raise e)
           | Ok X' =>
               CharacterMotif.transform self X
               = (CharacterMotif.VoroIndex_called X
                    :: fst (CharacterMotif.classify self (length (values X)) X'),
                  snd (CharacterMotif.classify self (length (values X)) X'))
           end)
  /\ CharacterMotif.VoroIndex_calls (fst (CharacterMotif.fit self X)) = O.
Proof.
  split; [|split].
  - intros Hin. rewrite (transform_present self X Hin).
    split; [reflexivity | apply classify_calls].
  - intros Hnin.
    assert (Hf : existsb (String.eqb "Voronoi idx5 voro") (columns X) = false).
    { destruct (existsb _ _) eqn:E; [|reflexivity].
      apply existsb_eqb_In in E. contradiction. }
    unfold CharacterMotif.transform. rewrite Hf. simpl negb. cbv iota.
    destruct (VoroIndex_fit_transform _ X) as [X'|e]; [|split; reflexivity].
    pose proof (classify_calls self (length (values X)) X') as Hc.
    destruct (CharacterMotif.classify self (length (values X)) X')
      as [events r].
    simpl in Hc |- *. unfold CharacterMotif.VoroIndex_calls in Hc |- *.
    simpl. rewrite Hc. split; reflexivity.
  - unfold CharacterMotif.fit, CharacterMotif.run_dependency.
    destruct (check_dependency _ X); [reflexivity|].
    destruct (check_dependency _ X); reflexivity.
Qed.

End Dependency.

(** ** Tables *)

Lemma position_In (name : string) (cols : list string) :
  In name cols ->
  exists i, position name cols = Some i /\ (i < length cols)%nat.
Proof.
  induction cols as [|c cols IH]; intros Hin; [destruct Hin|].
  simpl. destruct (String.eqb_spec c name) as [->|Hne].
  - exists O. split; [reflexivity | lia].
  - destruct Hin as [->|Hin]; [congruence|].
    destruct (IH Hin) as (i & Hi & Hlt). exists (S i).
    rewrite Hi. split; [reflexivity | lia].
Qed.

Lemma mapM_ok_exists {A B} (f : A -> result B) (l : list A) :
  (forall x, In x l -> exists y, f x = Ok y) -> exists r, mapM f l = Ok r.
Proof.
  induction l as [|x l IH]; intros Hf; [exists []; reflexivity|].
  destruct (Hf x) as [y Hy]; [left; reflexivity|].
  destruct IH as [r Hr]; [intros z Hz; apply Hf; right; exact Hz|].
  exists (y :: r). simpl. rewrite Hy. cbn [rbind]. rewrite Hr. reflexivity.
Qed.

Lemma mapM_map {A B C} (f : A -> B) (g : B -> result C) (l : list A) :
  mapM g (map f l) = mapM (fun x => g (f x)) l.
Proof.
  induction l as [|x l IH]; [reflexivity|]. simpl. rewrite IH. reflexivity.
Qed.

(** Selecting columns that the table has, from a well-formed table,
    gives one row of values for every row of the table. *)
Lemma select_ok {V} (X : DataFrame V) (names : list string) :
  well_formed X = true ->
  (forall name, In name names -> In name (columns X)) ->
  exists vals, select X names = Ok vals /\ length vals = length (values X).
Proof.
  intros Hwf Hnames. apply andb_true_iff in Hwf as [_ Hrows].
  rewrite forallb_forall in Hrows.
  destruct (mapM_ok_exists
              (fun row => mapM (row_getitem (columns X) row) names) (values X))
    as [vals Hvals].
  { intros row Hrow. apply mapM_ok_exists. intros name Hname.
    destruct (position_In name (columns X) (Hnames name Hname))
      as (i & Hi & Hlt).
    unfold row_getitem. rewrite Hi.
    specialize (Hrows row Hrow). apply Nat.eqb_eq in Hrows.
    destruct (nth_error row i) eqn:E; [eauto|].
    apply nth_error_None in E. lia. }
  exists vals. split; [exact Hvals|].
  apply (mapM_length _ _ _ Hvals).
Qed.

Lemma map_combine_snd {A B C} (g : B -> C) (a : list A) (b : list B) :
  length a = length b ->
  map (fun '(_, v) => g v) (combine a b) = map g b.
Proof.
  revert b. induction a as [|x a IH]; intros [|y b] Hlen;
    try discriminate; [reflexivity|].
  simpl. rewrite IH by (simpl in Hlen; lia). reflexivity.
Qed.

Lemma append_axis1_map {A V} (f g : A -> list V) (l : list A) :
  append_axis1 (map f l) (map g l) = Ok (map (fun x => (f x ++ g x)%list) l).
Proof.
  unfold append_axis1. rewrite !length_map, Nat.eqb_refl. f_equal.
  induction l as [|x l IH]; [reflexivity|]. simpl. rewrite IH. reflexivity.
Qed.

Lemma DataFrame_new_ok {V} (data : list (list V)) (idx : list Z)
    (cols : list string) :
  length data = length idx ->
  (forall row, In row data -> length row = length cols) ->
  DataFrame_new data idx cols = Ok (mkDataFrame cols idx data).
Proof.
  intros Hlen Hrows. unfold DataFrame_new.
  rewrite Hlen, Nat.eqb_refl. simpl.
  assert (forallb (fun row => Nat.eqb (length row) (length cols)) data = true)
    as ->; [|reflexivity].
  apply forallb_forall. intros row Hrow. apply Nat.eqb_eq, Hrows, Hrow.
Qed.

(** ** Motif indicators *)

Lemma vec_eqb_spec (u v : list Q) :
  CharacterMotif.vec_eqb u v = true <-> Forall2 Qeq u v.
Proof.
  revert v. induction u as [|x u IH]; intros [|y v]; simpl.
  - split; [constructor | reflexivity].
  - split; [discriminate | inversion 1].
  - split; [discriminate | inversion 1].
  - rewrite andb_true_iff, IH, Qeq_bool_iff. split.
    + intros [Hx Hu]. constructor; assumption.
    + inversion 1; subst. split; assumption.
Qed.

Section Motif.
Context `{Engines}.

Lemma classify_default (self : CharacterMotif.t) (X : DataFrame Q) :
  CharacterMotif.target_voro_idx self
  = Some CharacterMotif.default_target_voro_idx ->
  CharacterMotif.frank_kasper self = 1%nat ->
  well_formed X = true ->
  exists vals,
    select X (List.filter (fun col => startswith col "Voronoi idx")
                          (columns X)) = Ok vals
    /\ length vals = length (values X)
    /\ CharacterMotif.classify self (length (values X)) X
       = ([CharacterMotif.character_motif_called vals],
          Ok (mkDataFrame
                ["is <0,0,12,0,0> voro"; "is <0,0,12,4,0> voro";
                 "is polytetrahedral voro"; "is <0,0,12,0/4,0> voro"]
                (index X) (map motif_row vals))).
Proof.
  intros Htargets Hfk Hwf.
  destruct (select_ok X (List.filter (fun col => startswith col "Voronoi idx")
                                     (columns X)) Hwf)
    as (vals & Hvals & Hlen).
  { intros name Hname. apply filter_In in Hname. tauto. }
  exists vals. split; [exact Hvals|]. split; [exact Hlen|].
  unfold CharacterMotif.classify. rewrite Htargets, Hvals, Hfk.
  cbn [getattr rbind]. f_equal.
  unfold CharacterMotif.character_motif.
  rewrite (map_combine_snd
             (fun v =>
                (map (fun target =>
                        CharacterMotif.indicator
                          (CharacterMotif.vec_eqb v target))
                     CharacterMotif.default_target_voro_idx
                 ++ repeat
                      (CharacterMotif.indicator
                         (existsb (CharacterMotif.vec_eqb v)
                                  CharacterMotif.default_target_voro_idx))
                      1)%list))
    by (unfold zeros; rewrite repeat_length; symmetry; exact Hlen).
  rewrite mapM_map.
  rewrite (mapM_ok_map _
             (fun v => CharacterMotif.indicator
                         (CharacterMotif.vec_eqb v icosahedral
                          || CharacterMotif.vec_eqb v defect_motif))).
  2:{ intros v _. simpl.
      destruct (CharacterMotif.vec_eqb v _), (CharacterMotif.vec_eqb v _);
        reflexivity. }
  cbn [rbind]. rewrite map_map.
  rewrite (append_axis1_map _ (fun v => [_])).
  cbn [rbind]. unfold CharacterMotif.get_feature_names.
  rewrite Htargets. cbn [getattr rbind].
  rewrite DataFrame_new_ok.
  - f_equal. f_equal. apply map_ext. intros v. unfold motif_row. simpl.
    rewrite orb_false_r. reflexivity.
  - rewrite length_map. apply andb_true_iff in Hwf as [Hidx _].
    apply Nat.eqb_eq in Hidx. lia.
  - intros row Hrow. apply in_map_iff in Hrow as (v & <- & _). reflexivity.
Qed.

(** C6.  For the default targets and a well-formed table that holds the
    Voronoi index, [transform] returns a table in which, for every atom
    with index vector [v]: the entry under "is <0,0,12,0,0> voro" is 1
    exactly when [v] matches <0,0,12,0,0>, the entry under
    "is <0,0,12,4,0> voro" is 1 exactly when [v] matches <0,0,12,4,0>,
    the entry under "is polytetrahedral voro" is the OR of the two, as is
    the entry that [transform] itself appends under
    "is <0,0,12,0/4,0> voro"; a vector that matches no target has all its
    entries 0. *)
Theorem motif_indicators (self : CharacterMotif.t) (X : DataFrame Q) :
  CharacterMotif.target_voro_idx self
  = Some CharacterMotif.default_target_voro_idx ->
  CharacterMotif.frank_kasper self = 1%nat ->
  well_formed X = true ->
  In "Voronoi idx5 voro" (columns X) ->
  exists vals df events,
    select X (List.filter (fun col => startswith col "Voronoi idx")
                          (columns X)) = Ok vals
    /\ length vals = length (values X)
    /\ CharacterMotif.transform self X = (events, Ok df)
    /\ forall i v,
         nth_error vals i = Some v ->
         let ico := CharacterMotif.vec_eqb v icosahedral in
         let def := CharacterMotif.vec_eqb v defect_motif in
         (ico = true <-> Forall2 Qeq v icosahedral)
         /\ (def = true <-> Forall2 Qeq v defect_motif)
         /\ cell df i "is <0,0,12,0,0> voro"
            = Some (CharacterMotif.indicator ico)
         /\ cell df i "is <0,0,12,4,0> voro"
            = Some (CharacterMotif.indicator def)
         /\ cell df i "is polytetrahedral voro"
            = Some (CharacterMotif.indicator (ico || def))
         /\ cell df i "is <0,0,12,0/4,0> voro"
            = Some (Z.lor (CharacterMotif.indicator ico)
                          (CharacterMotif.indicator def))
         /\ (ico = false -> def = false ->
             nth_error (values df) i = Some [0; 0; 0; 0]).
Proof.
  intros Htargets Hfk Hwf Hin.
  destruct (classify_default self X Htargets Hfk Hwf)
    as (vals & Hvals & Hlen & Hclass).
  eexists vals, _, _. split; [exact Hvals|]. split; [exact Hlen|]. split.
  - rewrite (transform_present self X Hin). exact Hclass.
  - intros i v Hv ico def.
    assert (Hrow : nth_error (map motif_row vals) i = Some (motif_row v))
      by (rewrite nth_error_map, Hv; reflexivity).
    split; [apply vec_eqb_spec|]. split; [apply vec_eqb_spec|].
    unfold cell. cbn [values columns]. rewrite Hrow.
    repeat split.
    + subst ico def. simpl.
      destruct (CharacterMotif.vec_eqb v icosahedral),
               (CharacterMotif.vec_eqb v defect_motif); reflexivity.
    + intros Hi Hd. subst ico def. unfold motif_row. rewrite Hi, Hd.
      reflexivity.
Qed.

End Motif.

(** ** The columns of [BOOP] *)

Lemma four_wide_row (n : nat) (m : Matrix) (i : nat) (row : list Q) :
  four_wide n m = true -> nth_error m i = Some row ->
  exists a b c d, row = [a; b; c; d].
Proof.
  intros Hm Hrow. apply andb_true_iff in Hm as [_ Hw].
  rewrite forallb_forall in Hw.
  specialize (Hw row (nth_error_In _ _ Hrow)). apply Nat.eqb_eq in Hw.
  destruct row as [|a [|b [|c [|d [|? ?]]]]]; try discriminate.
  eauto.
Qed.

Lemma append_axis1_ok {V} (a b : list (list V)) :
  length a = length b ->
  append_axis1 a b = Ok (map (fun ab => (fst ab ++ snd ab)%list) (combine a b)).
Proof.
  intros Hlen. unfold append_axis1. rewrite Hlen, Nat.eqb_refl. reflexivity.
Qed.

Lemma nth_error_append_rows {V} (a b : list (list V)) (i : nat)
    (ra rb : list V) :
  nth_error a i = Some ra -> nth_error b i = Some rb ->
  nth_error (map (fun ab => (fst ab ++ snd ab)%list) (combine a b)) i
  = Some (ra ++ rb)%list.
Proof.
  revert b i. induction a as [|x a IH]; intros [|y b] [|i]; simpl;
    try discriminate.
  - intros [= ->] [= ->]. reflexivity.
  - apply IH.
Qed.

Lemma append_rows_length {V} (a b : list (list V)) :
  length a = length b ->
  length (map (fun ab => (fst ab ++ snd ab)%list) (combine a b)) = length a.
Proof.
  intros Hlen. rewrite length_map, length_combine. lia.
Qed.

Lemma append_rows_width {V} (a b : list (list V)) (wa wb : nat) :
  (forall r, In r a -> length r = wa) ->
  (forall r, In r b -> length r = wb) ->
  forall r, In r (map (fun ab => (fst ab ++ snd ab)%list) (combine a b)) ->
            length r = (wa + wb)%nat.
Proof.
  intros Ha Hb r Hr. apply in_map_iff in Hr as ([ra rb] & <- & Hin).
  simpl. rewrite length_app.
  rewrite (Ha ra (in_combine_l _ _ _ _ Hin)),
    (Hb rb (in_combine_r _ _ _ _ Hin)).
  reflexivity.
Qed.

Lemma four_wide_rows (n : nat) (m : Matrix) :
  four_wide n m = true ->
  length m = n /\ forall r, In r m -> length r = 4%nat.
Proof.
  intros Hm. apply andb_true_iff in Hm as [Hn Hw].
  apply Nat.eqb_eq in Hn. rewrite forallb_forall in Hw.
  split; [exact Hn|]. intros r Hr. apply Nat.eqb_eq, Hw, Hr.
Qed.

Lemma append_length (s d : string) :
  String.length (s ++ d) = (String.length s + String.length d)%nat.
Proof.
  induction s as [|c s IH]; simpl; [reflexivity | rewrite IH; reflexivity].
Qed.

Lemma append_inv_tail (s s' d : string) :
  (s ++ d)%string = (s' ++ d)%string -> s = s'.
Proof.
  revert s'. induction s as [|c s IH]; intros [|c' s'] Heq.
  - reflexivity.
  - apply (f_equal String.length) in Heq.
    rewrite !append_length in Heq. simpl in Heq. lia.
  - apply (f_equal String.length) in Heq.
    rewrite !append_length in Heq. simpl in Heq. lia.
  - simpl in Heq. injection Heq as -> Heq.
    f_equal. apply IH. exact Heq.
Qed.

Lemma append_eqb_tail (s s' d : string) :
  String.eqb (s ++ d) (s' ++ d) = String.eqb s s'.
Proof.
  destruct (String.eqb_spec s s') as [->|Hne].
  - apply String.eqb_refl.
  - apply String.eqb_neq. intros Heq. apply Hne.
    apply (append_inv_tail _ _ _ Heq).
Qed.

(** Labels that end in the same text are told apart by what comes before
    it. *)
Lemma position_tail (p d : string) (ps : list string) :
  position (p ++ d) (map (fun q => (q ++ d)%string) ps) = position p ps.
Proof.
  induction ps as [|q ps IH]; [reflexivity|].
  simpl. rewrite append_eqb_tail, IH. reflexivity.
Qed.

Section Boop.
Context `{Engines}.

(** C8.  When the kernel returns its four arrays in the shape in which it
    received them (one row of four numbers per atom), the row of an atom
    in the table of [transform] is its row of Ql, then of Wlbar, then of
    the coarse-grained Ql, then of the coarse-grained Wlbar; the column
    labels are q, w, Coarse-grained q and Coarse-grained w, each for the
    orders 4, 6, 8, 10, and under the label of an array and of the
    k-th order stands the k-th number of the row of that array. *)
Theorem boop_columns_in_fixed_order (self : BOOP.t) (X : DataFrame Q)
    (Ql Wlbar coarse_Ql coarse_Wlbar : Matrix) :
  let n := length (values X) in
  let d := BOOP.dependency_name self in
  BOOP.boop_arrays self X = Ok (Ql, Wlbar, coarse_Ql, coarse_Wlbar) ->
  length (index X) = n ->
  four_wide n Ql = true -> four_wide n Wlbar = true ->
  four_wide n coarse_Ql = true -> four_wide n coarse_Wlbar = true ->
  exists df,
    BOOP.transform self X = Ok df
    /\ index df = index X
    /\ columns df
       = [("q_4 " ++ d)%string; ("q_6 " ++ d)%string; ("q_8 " ++ d)%string;
          ("q_10 " ++ d)%string;
          ("w_4 " ++ d)%string; ("w_6 " ++ d)%string; ("w_8 " ++ d)%string;
          ("w_10 " ++ d)%string;
          ("Coarse-grained q_4 " ++ d)%string;
          ("Coarse-grained q_6 " ++ d)%string;
          ("Coarse-grained q_8 " ++ d)%string;
          ("Coarse-grained q_10 " ++ d)%string;
          ("Coarse-grained w_4 " ++ d)%string;
          ("Coarse-grained w_6 " ++ d)%string;
          ("Coarse-grained w_8 " ++ d)%string;
          ("Coarse-grained w_10 " ++ d)%string]
    /\ forall i q w cq cw,
         nth_error Ql i = Some q -> nth_error Wlbar i = Some w ->
         nth_error coarse_Ql i = Some cq ->
         nth_error coarse_Wlbar i = Some cw ->
         nth_error (values df) i = Some (q ++ w ++ cq ++ cw)%list
         /\ forall k tag,
              nth_error BOOP.bq_tags k = Some tag ->
              cell df i ("q_" ++ tag ++ " " ++ d) = nth_error q k
              /\ cell df i ("w_" ++ tag ++ " " ++ d) = nth_error w k
              /\ cell df i ("Coarse-grained q_" ++ tag ++ " " ++ d)
                 = nth_error cq k
              /\ cell df i ("Coarse-grained w_" ++ tag ++ " " ++ d)
                 = nth_error cw k.
Proof.
  intros n d Harr Hidx HQ HW HcQ HcW.
  destruct (four_wide_rows _ _ HQ) as [LQ WQ].
  destruct (four_wide_rows _ _ HW) as [LW WW].
  destruct (four_wide_rows _ _ HcQ) as [LcQ WcQ].
  destruct (four_wide_rows _ _ HcW) as [LcW WcW].
  pose (c1 := map (fun ab : list Q * list Q => (fst ab ++ snd ab)%list)
                  (combine Ql Wlbar)).
  pose (c2 := map (fun ab : list Q * list Q => (fst ab ++ snd ab)%list)
                  (combine c1 coarse_Ql)).
  pose (c3 := map (fun ab : list Q * list Q => (fst ab ++ snd ab)%list)
                  (combine c2 coarse_Wlbar)).
  assert (L1 : length c1 = n)
    by (unfold c1; rewrite append_rows_length; lia).
  assert (L2 : length c2 = n)
    by (unfold c2; rewrite append_rows_length; lia).
  assert (L3 : length c3 = n)
    by (unfold c3; rewrite append_rows_length; lia).
  assert (W1 : forall r, In r c1 -> length r = 8%nat)
    by (apply (append_rows_width Ql Wlbar 4 4); assumption).
  assert (W2 : forall r, In r c2 -> length r = 12%nat)
    by (apply (append_rows_width c1 coarse_Ql 8 4); assumption).
  assert (W3 : forall r, In r c3 -> length r = 16%nat)
    by (apply (append_rows_width c2 coarse_Wlbar 12 4); assumption).
  exists (mkDataFrame (BOOP.get_feature_names self) (index X) c3).
  split; [|split; [reflexivity | split; [reflexivity|]]].
  - unfold BOOP.transform. rewrite Harr. cbn [rbind].
    rewrite (append_axis1_ok Ql Wlbar) by lia. cbn [rbind].
    change (map _ (combine Ql Wlbar)) with c1.
    rewrite (append_axis1_ok c1 coarse_Ql) by lia. cbn [rbind].
    change (map _ (combine c1 coarse_Ql)) with c2.
    rewrite (append_axis1_ok c2 coarse_Wlbar) by lia. cbn [rbind].
    change (map _ (combine c2 coarse_Wlbar)) with c3.
    apply DataFrame_new_ok; [lia | exact W3].
  - intros i q w cq cw Hq Hw Hcq Hcw.
    assert (Hrow : nth_error c3 i = Some (q ++ w ++ cq ++ cw)%list).
    { unfold c3, c2, c1.
      rewrite (nth_error_append_rows _ _ i ((q ++ w) ++ cq)%list cw);
        [rewrite <- !app_assoc; reflexivity | | exact Hcw].
      rewrite (nth_error_append_rows _ _ i (q ++ w)%list cq);
        [reflexivity | | exact Hcq].
      apply nth_error_append_rows; assumption. }
    split; [exact Hrow|].
    destruct (four_wide_row _ _ _ _ HQ Hq) as (q0 & q1 & q2 & q3 & ->).
    destruct (four_wide_row _ _ _ _ HW Hw) as (w0 & w1 & w2 & w3 & ->).
    destruct (four_wide_row _ _ _ _ HcQ Hcq) as (a0 & a1 & a2 & a3 & ->).
    destruct (four_wide_row _ _ _ _ HcW Hcw) as (b0 & b1 & b2 & b3 & ->).
    intros k tag Htag. unfold cell. cbn [values columns]. rewrite Hrow.
    change (BOOP.get_feature_names self)
      with (map (fun q => (q ++ d)%string)
              ["q_4 "; "q_6 "; "q_8 "; "q_10 ";
               "w_4 "; "w_6 "; "w_8 "; "w_10 ";
               "Coarse-grained q_4 "; "Coarse-grained q_6 ";
               "Coarse-grained q_8 "; "Coarse-grained q_10 ";
               "Coarse-grained w_4 "; "Coarse-grained w_6 ";
               "Coarse-grained w_8 "; "Coarse-grained w_10 "]).
    destruct k as [|[|[|[|k]]]]; [| | | |destruct k; discriminate];
      injection Htag as <-;
      repeat match goal with
             | |- context [position (?a ++ ?b ++ " " ++ d)%string _] =>
                 let s := eval vm_compute in (a ++ b ++ " ")%string in
                 change (a ++ b ++ " " ++ d)%string with (s ++ d)%string;
                 rewrite (position_tail s d)
             end;
      repeat split; reflexivity.
Qed.

End Boop.

(** * Further properties of the code *)

(** ** [check_within]: the failures *)

(** With the literal "range" as criterion type, a criterion of fewer
    than two elements is a [ValueError] whatever the value; a criterion
    of two or more elements never raises and is read through its first
    two elements only.  A criterion type that is neither the object of
    the literal "range" nor that of the literal "value" is a
    [RuntimeError], whatever its characters and whatever the
    criterion. *)
Theorem check_within_failures (x : Q) (c : criterion) (ty : PyStr) :
  ((length c < 2)%nat ->
   check_within x c (literal "range") = Raise ValueError)
  /\ ((2 <= length c)%nat ->
      (exists b, check_within x c (literal "range") = Ok b)
      /\ check_within x c (literal "range")
         = check_within x (firstn 2 c) (literal "range"))
  /\ ((interned ty = false \/ (chars ty <> "range" /\ chars ty <> "value")) ->
      check_within x c ty = Raise RuntimeError).
Proof.
  split; [|split].
  - intros Hlen. destruct c as [|a [|b c]]; simpl in Hlen; try lia.
    + reflexivity.
    + unfold check_within. simpl. destruct a; reflexivity.
  - intros Hlen. destruct c as [|a [|b c]]; simpl in Hlen; try lia.
    split.
    + unfold check_within. simpl. destruct a, b; simpl; eauto.
    + reflexivity.
  - intros Hty. apply check_within_other; unfold is_literal.
    + destruct Hty as [->|[Hr _]]; [reflexivity|].
      apply String.eqb_neq in Hr. rewrite Hr. apply andb_false_r.
    + destruct Hty as [->|[_ Hv]]; [reflexivity|].
      apply String.eqb_neq in Hv. rewrite Hv. apply andb_false_r.
Qed.

Lemma check_within_failures_witness :
  check_within 1 [Some 0%Q] (literal "range") = Raise ValueError
  /\ check_within 1 [Some 0%Q; Some 2%Q; Some 1%Q] (literal "range") = Ok true
  /\ check_within 1 [Some 0%Q; Some 2%Q] (literal "between")
     = Raise RuntimeError
  /\ check_within 1 [Some 0%Q; Some 2%Q] (built "range")
     = Raise RuntimeError.
Proof.
  split; [|split; [|split]].
  - apply (proj1 (check_within_failures 1 [Some 0%Q] (literal "range"))).
    simpl. lia.
  - rewrite (proj2 (proj1 (proj2 (check_within_failures 1
               [Some 0%Q; Some 2%Q; Some 1%Q] (literal "range")))
               ltac:(simpl; lia))).
    reflexivity.
  - apply (proj2 (proj2 (check_within_failures 1 [Some 0%Q; Some 2%Q]
                           (literal "between")))).
    right. split; discriminate.
  - apply (proj2 (proj2 (check_within_failures 1 [Some 0%Q; Some 2%Q]
                           (built "range")))).
    left. reflexivity.
Defined.

(** ** [check_list_equal] *)

Lemma insert_sorted_perm (x : Z) (l : list Z) :
  Permutation (insert_sorted x l) (x :: l).
Proof.
  induction l as [|y l IH]; simpl; [reflexivity|].
  destruct (Z.leb x y); [reflexivity|].
  rewrite IH. apply perm_swap.
Qed.

Lemma sorted_perm (l : list Z) : Permutation (sorted l) l.
Proof.
  induction l as [|x l IH]; simpl; [reflexivity|].
  rewrite insert_sorted_perm, IH. reflexivity.
Qed.

Lemma insert_sorted_comm (x y : Z) (l : list Z) :
  insert_sorted x (insert_sorted y l) = insert_sorted y (insert_sorted x l).
Proof.
  induction l as [|z l IH]; simpl;
    repeat (match goal with
            | |- context [Z.leb ?a ?b] => destruct (Z.leb_spec a b)
            end; simpl);
    try reflexivity; try lia;
    try (assert (x = y) by lia; subst; reflexivity);
    try (rewrite IH; reflexivity).
Qed.

Lemma sorted_unique (l1 l2 : list Z) :
  Permutation l1 l2 -> sorted l1 = sorted l2.
Proof.
  induction 1 as [|x l1 l2 _ IH|x y l|l1 l2 l3 _ IH1 _ IH2]; simpl.
  - reflexivity.
  - rewrite IH. reflexivity.
  - apply insert_sorted_comm.
  - rewrite IH1. exact IH2.
Qed.

Lemma elementwise_equal_eq (a b : list Z) :
  elementwise_equal a b = true <-> a = b.
Proof.
  revert b. induction a as [|x a IH]; intros [|y b]; simpl;
    try (split; [discriminate | discriminate]); [tauto|].
  rewrite andb_true_iff, Z.eqb_eq, IH. split.
  - intros [-> ->]. reflexivity.
  - intros [= -> ->]. tauto.
Qed.

Lemma forallb_perm {A} (f : A -> bool) (l1 l2 : list A) :
  Permutation l1 l2 -> forallb f l1 = forallb f l2.
Proof.
  induction 1 as [|x l1 l2 _ IH|x y l|l1 l2 l3 _ IH1 _ IH2]; simpl.
  - reflexivity.
  - rewrite IH. reflexivity.
  - destruct (f x), (f y); reflexivity.
  - rewrite IH1. exact IH2.
Qed.

(** Sorting keeps the elements, so lists of 64-bit integers are compared
    exactly after sorting. *)
Lemma array_equal_sorted wide (l1 l2 : list Z) :
  forallb int64 l1 = true -> forallb int64 l2 = true ->
  array_equal wide (sorted l1) (sorted l2)
  = elementwise_equal (sorted l1) (sorted l2).
Proof.
  intros H1 H2. unfold array_equal.
  rewrite (forallb_perm int64 _ _ (sorted_perm l1)), H1.
  rewrite (forallb_perm int64 _ _ (sorted_perm l2)), H2.
  reflexivity.
Qed.

(** On lists of 64-bit integers [check_list_equal] decides whether the
    two lists are equal up to the order of their elements,
    multiplicities included, whatever numpy does with wider integers. *)
Theorem check_list_equal_permutation (wide : list Z -> list Z -> bool)
    (list_1 list_2 : list Z) :
  forallb int64 list_1 = true -> forallb int64 list_2 = true ->
  (check_list_equal wide list_1 list_2 = true <-> Permutation list_1 list_2).
Proof.
  intros H1 H2. unfold check_list_equal.
  rewrite (array_equal_sorted wide _ _ H1 H2). split.
  - destruct (negb _); [discriminate|].
    destruct (elementwise_equal _ _) eqn:E; [|discriminate]. intros _.
    apply elementwise_equal_eq in E.
    rewrite <- (sorted_perm list_1), E. apply sorted_perm.
  - intros Hp. rewrite (Permutation_length Hp), Nat.eqb_refl. simpl.
    rewrite (sorted_unique _ _ Hp).
    assert (elementwise_equal (sorted list_2) (sorted list_2) = true) as ->
      by (apply elementwise_equal_eq; reflexivity).
    reflexivity.
Qed.

(** ** [check_list_contain] and [check_dict_key_contain] *)

(** [check_list_contain] holds exactly when every element of the second
    list occurs in the first, whatever the order and the repetitions. *)
Theorem check_list_contain_spec (list_1 list_2 : list Z) :
  check_list_contain list_1 list_2 = true
  <-> (forall x, In x list_2 -> In x list_1).
Proof.
  unfold check_list_contain. rewrite bool_decide_eq_true. split.
  - intros Hsub x Hx. apply list_elem_of_In.
    apply (elem_of_list_to_set (C := gset Z)). apply Hsub.
    apply elem_of_list_to_set. apply list_elem_of_In. exact Hx.
  - intros Hin x Hx. apply elem_of_list_to_set in Hx.
    apply elem_of_list_to_set. apply list_elem_of_In. apply Hin.
    apply list_elem_of_In. exact Hx.
Qed.

(** [check_dict_key_contain] holds exactly when every listed key can be
    looked up in the dictionary. *)
Theorem check_dict_key_contain_spec {V} (d : gmap string V)
    (key_list : list string) :
  check_dict_key_contain d key_list = true
  <-> (forall k, In k key_list -> is_ok (getitem d k) = true).
Proof.
  unfold check_dict_key_contain. rewrite bool_decide_eq_true.
  assert (Hkeys : forall k,
             k ∈ (list_to_set (map fst (map_to_list d)) : gset string)
             <-> is_ok (getitem d k) = true).
  { intros k. rewrite elem_of_list_to_set, list_elem_of_In, in_map_iff.
    unfold getitem. split.
    - intros ([k' v] & <- & Hin). apply list_elem_of_In in Hin.
      apply elem_of_map_to_list in Hin. simpl. rewrite Hin. reflexivity.
    - destruct (d !! k) as [v|] eqn:E; [|discriminate]. intros _.
      exists (k, v). split; [reflexivity|].
      apply list_elem_of_In, elem_of_map_to_list. exact E. }
  split.
  - intros Hsub k Hk. apply Hkeys, Hsub, elem_of_list_to_set, list_elem_of_In.
    exact Hk.
  - intros Hin k Hk. apply Hkeys, Hin.
    apply elem_of_list_to_set, list_elem_of_In in Hk. exact Hk.
Qed.

(** ** [check_file_name] *)

Lemma replace_dot (s : string) :
  let s' := replace_from "." "p" 0 s in
  occurs "." s' = false
  /\ String.length s' = String.length s
  /\ (occurs "." s = false -> s' = s).
Proof.
  induction s as [|c s (IH1 & IH2 & IH3)]; [repeat split|].
  cbn [replace_from]. unfold String.prefix; fold String.prefix.
  destruct (Ascii.ascii_dec "." c) as [<-|Hne].
  - replace (String.prefix "" s) with true by (destruct s; reflexivity).
    change ("p" +:+ replace_from "." "p" (String.length "." - 1) s)
      with (String "p" (replace_from "." "p" 0 s)).
    simpl. split; [exact IH1|]. split; [rewrite IH2; reflexivity|].
    discriminate.
  - cbn [String.length occurs]. 
    assert (Hcd : Ascii.eqb c "." = false).
    { apply Ascii.eqb_neq. congruence. }
    rewrite Hcd. split; [exact IH1|]. split; [rewrite IH2; reflexivity|].
    simpl. intros Ho. rewrite (IH3 Ho). reflexivity.
Qed.

(** A string comes back with every "." replaced by "p": the result has
    the same length and holds no "."; a string without "." and a value
    that is not a string come back unchanged, so the function is
    idempotent. *)
Theorem check_file_name_no_dot (file_name : FileName) :
  check_file_name (check_file_name file_name) = check_file_name file_name
  /\ (forall n, file_name = NameOther n -> check_file_name file_name = file_name)
  /\ (forall s, file_name = NameStr s ->
        exists s', check_file_name file_name = NameStr s'
                   /\ occurs "." s' = false
                   /\ String.length s' = String.length s
                   /\ (occurs "." s = false -> s' = s)).
Proof.
  split; [|split].
  - destruct file_name as [s|n]; [|reflexivity]. simpl. f_equal.
    unfold replace.
    destruct (replace_dot s) as (Hno & _ & _).
    destruct (replace_dot (replace_from "." "p" 0 s)) as (_ & _ & Hid).
    apply Hid. exact Hno.
  - intros n ->. reflexivity.
  - intros s ->. exists (replace s "." "p"). split; [reflexivity|].
    apply replace_dot.
Qed.

Lemma check_file_name_no_dot_witness :
  check_file_name (NameStr "dump.0.5.lammps") = NameStr "dumpp0p5plammps"
  /\ check_file_name (NameOther 7) = NameOther 7.
Proof.
  split.
  - destruct (proj2 (proj2 (check_file_name_no_dot
                              (NameStr "dump.0.5.lammps")))
                _ eq_refl) as (s' & Hs' & _).
    rewrite Hs'. vm_compute in Hs'. symmetry. exact Hs'.
  - apply (proj1 (proj2 (check_file_name_no_dot (NameOther 7))) 7 eq_refl).
Defined.

(** ** [atom_mapping] *)

Lemma column_ok (df : DataFrame Q) (name : string) :
  well_formed df = true -> In name (columns df) ->
  column df name = Ok (map (number_of (columns df) name) (values df)).
Proof.
  intros Hwf Hin. apply andb_true_iff in Hwf as [_ Hrows].
  rewrite forallb_forall in Hrows.
  destruct (position_In name (columns df) Hin) as (i & Hi & Hlt).
  unfold column. rewrite Hi. apply mapM_ok_map. intros row Hrow.
  unfold number_of, row_getitem. rewrite Hi.
  specialize (Hrows row Hrow). apply Nat.eqb_eq in Hrows.
  destruct (nth_error row i) eqn:E; [reflexivity|].
  apply nth_error_None in E. lia.
Qed.

Lemma column_missing {V} (df : DataFrame V) (name : string) :
  ~ In name (columns df) -> column df name = Raise KeyError.
Proof.
  intros Hnin. unfold column.
  destruct (position name (columns df)) as [i|] eqn:E; [|reflexivity].
  exfalso. apply Hnin. clear Hnin. revert i E.
  induction (columns df) as [|c cols IH]; intros i E; [discriminate|].
  simpl in E. destruct (String.eqb_spec c name) as [->|Hne].
  - left. reflexivity.
  - right. destruct (position name cols); [|discriminate]. eapply IH. reflexivity.
Qed.

Lemma iterrows_select_rows (cols : list string) (idx : list Z)
    (vals : list (list Q)) (f : list Q -> bool) :
  length idx = length vals ->
  iterrows (select_rows (mkDataFrame cols idx vals) (map f vals))
  = List.filter (fun p => f (snd p)) (combine idx vals).
Proof.
  unfold iterrows, select_rows. cbn [index values columns].
  revert vals. induction idx as [|i idx IH]; intros [|v vals] Hlen;
    try discriminate; [reflexivity|].
  simpl. destruct (f v); simpl; rewrite IH by (simpl in Hlen; lia);
    reflexivity.
Qed.

Lemma select_rows_well_formed (df : DataFrame Q) (mask : list bool) :
  well_formed df = true -> well_formed (select_rows df mask) = true.
Proof.
  intros Hwf. apply andb_true_iff in Hwf as [_ Hrows].
  rewrite forallb_forall in Hrows.
  unfold well_formed, select_rows. cbn [index values columns].
  rewrite !length_map, Nat.eqb_refl. simpl. apply forallb_forall.
  intros row Hrow. apply in_map_iff in Hrow as ([[i r] b] & <- & Hin).
  apply filter_In in Hin as [Hin _]. apply in_combine_l in Hin.
  apply in_combine_r in Hin. apply Hrows. exact Hin.
Qed.

Lemma filter_twice {A} (f g : A -> bool) (l : list A) :
  List.filter g (List.filter f l) = List.filter (fun x => f x && g x) l.
Proof.
  induction l as [|x l IH]; [reflexivity|]. simpl.
  destruct (f x); simpl; [destruct (g x)|]; rewrite IH; reflexivity.
Qed.

Lemma well_formed_eta (df : DataFrame Q) :
  df = mkDataFrame (columns df) (index df) (values df).
Proof. destruct df. reflexivity. Qed.

(** One masked selection on the numbers of the atoms. *)
Lemma select_by_number (df : DataFrame Q) (name : string) (f : Q -> bool) :
  well_formed df = true -> In name (columns df) ->
  exists numbers,
    column df name = Ok numbers
    /\ iterrows (select_rows df (map f numbers))
       = List.filter (fun p => f (number_of (columns df) name (snd p)))
                     (iterrows df).
Proof.
  intros Hwf Hin. eexists. split; [apply (column_ok df name Hwf Hin)|].
  rewrite map_map.
  rewrite (well_formed_eta df) at 1.
  rewrite (iterrows_select_rows (columns df) (index df) (values df)
             (fun row => f (number_of (columns df) name row))).
  - reflexivity.
  - apply andb_true_iff in Hwf as [Hlen _]. apply Nat.eqb_eq. exact Hlen.
Qed.

(** [atom_mapping] raises [ValueError] for a name that is neither a
    column nor an attribute of the table.  For a well-formed table with
    the number column it returns the table of the same columns that holds,
    in their order and under their labels, exactly the rows whose number
    is among [includes] (when given) and not among [excludes] (when
    given).  A name that is an attribute of the table but no column gets
    past the first test and is a [KeyError] as soon as a list is given. *)
Theorem atom_mapping_keeps (is_attribute : string -> bool) (df : DataFrame Q)
    (number_column : string) (includes excludes : option (list Q)) :
  (~ In number_column (columns df) -> is_attribute number_column = false ->
   atom_mapping is_attribute df number_column includes excludes
   = Raise ValueError)
  /\ (~ In number_column (columns df) -> is_attribute number_column = true ->
      includes <> None \/ excludes <> None ->
      atom_mapping is_attribute df number_column includes excludes
      = Raise KeyError)
  /\ (well_formed df = true -> In number_column (columns df) ->
      exists df',
        atom_mapping is_attribute df number_column includes excludes = Ok df'
        /\ columns df' = columns df
        /\ iterrows df'
           = List.filter
               (fun p => keeps includes excludes
                           (number_of (columns df) number_column (snd p)))
               (iterrows df)).
Proof.
  assert (Hex : ~ In number_column (columns df) ->
                existsb (String.eqb number_column) (columns df) = false).
  { intros Hnin. destruct (existsb _ _) eqn:E; [|reflexivity].
    apply existsb_eqb_In in E. contradiction. }
  split; [|split].
  - intros Hnin Hattr. unfold atom_mapping. rewrite (Hex Hnin), Hattr.
    reflexivity.
  - intros Hnin Hattr Hlists. unfold atom_mapping.
    rewrite (Hex Hnin), Hattr. simpl.
    destruct includes as [inc|].
    + rewrite (column_missing df number_column Hnin). reflexivity.
    + cbn [rbind]. destruct excludes as [exc|]; [|destruct Hlists; congruence].
      rewrite (column_missing df number_column Hnin). reflexivity.
  - intros Hwf Hin. unfold atom_mapping.
    rewrite (proj2 (existsb_eqb_In number_column (columns df)) Hin). simpl.
    destruct includes as [inc|]; destruct excludes as [exc|]; unfold keeps.
    + destruct (select_by_number df number_column
                  (fun v => existsb (Qeq_bool v) inc) Hwf Hin)
        as (n1 & Hc1 & Hrows1).
      rewrite Hc1. cbn [rbind]. unfold isin.
      set (df1 := select_rows df (map _ n1)) in *.
      destruct (select_by_number df1 number_column
                  (fun v => negb (existsb (Qeq_bool v) exc))
                  (select_rows_well_formed df _ Hwf) Hin)
        as (n2 & Hc2 & Hrows2).
      rewrite Hc2. cbn [rbind]. rewrite map_map.
      eexists. split; [reflexivity|]. split; [reflexivity|].
      rewrite Hrows2, Hrows1. apply filter_twice.
    + destruct (select_by_number df number_column
                  (fun v => existsb (Qeq_bool v) inc) Hwf Hin)
        as (n1 & Hc1 & Hrows1).
      rewrite Hc1. cbn [rbind]. unfold isin.
      eexists. split; [reflexivity|]. split; [reflexivity|].
      rewrite Hrows1. apply filter_ext. intros p. rewrite andb_true_r.
      reflexivity.
    + cbn [rbind].
      destruct (select_by_number df number_column
                  (fun v => negb (existsb (Qeq_bool v) exc)) Hwf Hin)
        as (n2 & Hc2 & Hrows2).
      rewrite Hc2. cbn [rbind]. unfold isin. rewrite map_map.
      eexists. split; [reflexivity|]. split; [reflexivity|].
      exact Hrows2.
    + cbn [rbind]. exists df. split; [reflexivity|]. split; [reflexivity|].
      simpl. symmetry. clear. induction (iterrows df) as [|p l IH];
        [reflexivity | simpl; f_equal; exact IH].
Qed.

(** ** [PackingOfSite]: the hull is built once *)

Section MorePacking.
Context `{Externals}.

(** After a call of [convex_hull] that returns, the hull is stored in the
    object, and every later call returns the stored hull and leaves the
    object as it is, whatever the hull construction would do then; the
    site, the radii and the lists of angles are not touched. *)
Theorem convex_hull_memoized (self self' : PackingOfSite) (h : Hull) :
  convex_hull self = Ok (h, self') ->
  convex_hull_ self' = Some h
  /\ convex_hull self' = Ok (h, self')
  /\ site self' = site self
  /\ radii self' = radii self
  /\ radius_type self' = radius_type self
  /\ triangular_angle_lists_ self' = triangular_angle_lists_ self
  /\ solid_angle_lists_ self' = solid_angle_lists_ self
  /\ neighbors_solid_angle_ self' = neighbors_solid_angle_ self.
Proof.
  unfold convex_hull. destruct (convex_hull_ self) as [h0|] eqn:E.
  - intros [= <- <-]. rewrite E. repeat split; reflexivity.
  - destruct (ConvexHull (nn_coords (site self))) as [h1|e]; [|discriminate].
    cbn [rbind]. intros [= <- <-]. simpl. repeat split; reflexivity.
Qed.

Lemma radius_of_raises (r : Radii) (rt : string) (t : Z) (e : PyErr) :
  radius_of r rt t = Raise e -> e = KeyError.
Proof.
  unfold radius_of, getitem. destruct (r !! pystr t) as [entry|].
  - cbn [rbind]. destruct (entry !! rt); [discriminate|].
    intros [= <-]. reflexivity.
  - intros [= <-]. reflexivity.
Qed.

(** [cluster_packed_volume] and [atomic_packing_efficiency] need the
    angles combined beforehand: on an object without the attribute
    [neighbors_solid_angle_] both raise, [AttributeError] when the type
    of the atom has a radius and [KeyError] when it has none. *)
Theorem packed_volume_needs_combined_angles (self : PackingOfSite) :
  neighbors_solid_angle_ self = None ->
  (has_radius self (type (site self)) ->
   cluster_packed_volume self = Raise AttributeError
   /\ atomic_packing_efficiency self = Raise AttributeError)
  /\ (~ has_radius self (type (site self)) ->
      cluster_packed_volume self = Raise KeyError
      /\ atomic_packing_efficiency self = Raise KeyError).
Proof.
  intros Hnone. unfold atomic_packing_efficiency, cluster_packed_volume.
  rewrite Hnone. split.
  - intros Hr. rewrite (has_radius_radius self _ Hr). split; reflexivity.
  - intros Hr. unfold has_radius in Hr.
    destruct (radius_of (radii self) (radius_type self) (type (site self)))
      as [r|e] eqn:E; [exfalso; apply Hr; reflexivity|].
    apply radius_of_raises in E. subst e. split; reflexivity.
Qed.

End MorePacking.

(** ** [combine_neighbor_solid_angles]: nothing is lost *)

Lemma Qsum_insert (acc : list Q) (idx : nat) (v a : Q) :
  acc !! idx = Some v ->
  (Qsum (<[idx := (v + a)%Q]> acc) == Qsum acc + a)%Q.
Proof.
  revert idx. induction acc as [|x acc IH]; intros [|idx] Hv;
    try discriminate; simpl in *.
  - injection Hv as ->. ring.
  - rewrite (IH idx Hv). ring.
Qed.

Lemma add_at_loop_sum (pairs : list (nat * Q)) (acc : list Q) :
  (forall p, In p pairs -> (fst p < length acc)%nat) ->
  exists acc',
    foldM (fun acc '(idx, a) => add_at acc idx a) acc pairs = Ok acc'
    /\ length acc' = length acc
    /\ (Qsum acc' == Qsum acc + Qsum (map snd pairs))%Q.
Proof.
  revert acc. induction pairs as [|[idx a] pairs IH]; intros acc Hin.
  - exists acc. split; [reflexivity|]. split; [reflexivity | simpl; ring].
  - assert (Hidx : (idx < length acc)%nat)
      by (apply (Hin (idx, a)); left; reflexivity).
    destruct (lookup_lt_is_Some_2 acc idx Hidx) as [v Hv].
    destruct (IH (<[idx := (v + a)%Q]> acc)) as (acc' & Hfold & Hlen & Hsum).
    { intros p Hp. rewrite length_insert. apply Hin. right. exact Hp. }
    exists acc'. split; [|split].
    + simpl. unfold add_at at 1. rewrite Hv. cbn [rbind]. exact Hfold.
    + rewrite Hlen. apply length_insert.
    + rewrite Hsum, (Qsum_insert acc idx v a Hv). simpl. ring.
Qed.

Lemma accumulate_loop_sum (facets : list (Simplex * list Q)) (acc : list Q) :
  (forall f l i, In (f, l) facets -> In i (items f) -> (i < length acc)%nat) ->
  exists acc',
    foldM (fun acc '(s, solid_angle_list) =>
             foldM (fun acc '(idx, a) => add_at acc idx a) acc
                   (combine (items s) solid_angle_list))
          acc facets = Ok acc'
    /\ length acc' = length acc
    /\ (Qsum acc'
        == Qsum acc
           + Qsum (map (fun '(f, l) => Qsum (map snd (combine (items f) l)))
                       facets))%Q.
Proof.
  revert acc. induction facets as [|[f l] facets IH]; intros acc Hin.
  - exists acc. split; [reflexivity|]. split; [reflexivity | simpl; ring].
  - destruct (add_at_loop_sum (combine (items f) l) acc)
      as (acc1 & H1 & Hl1 & Hs1).
    { intros [i a] Hp. apply in_combine_l in Hp.
      apply (Hin f l i); [left; reflexivity | exact Hp]. }
    destruct (IH acc1) as (acc' & Hfold & Hlen & Hsum).
    { intros f' l' i Hf Hi. rewrite Hl1.
      apply (Hin f' l' i); [right|]; assumption. }
    exists acc'. split; [|split].
    + simpl. rewrite H1. cbn [rbind]. exact Hfold.
    + rewrite Hlen. exact Hl1.
    + rewrite Hsum, Hs1. simpl. ring.
Qed.

Lemma Qsum_repeat_zero (n : nat) : (Qsum (repeat 0%Q n) == 0)%Q.
Proof. induction n as [|n IH]; simpl; [reflexivity | rewrite IH; ring]. Qed.

Section Combine.
Context `{Externals}.

(** For an object with its hull and its lists of solid angles, whose
    facets refer to neighbors of the atom, [combine_neighbor_solid_angles]
    returns one number per neighbor, and these numbers add up to the sum
    of all the solid angles paired with a vertex of a facet: no angle is
    lost or counted twice.  The list is stored, and a second call returns
    it again. *)
Theorem combined_angles_conserve (self : PackingOfSite) (h : Hull)
    (sal : list (list Q)) :
  neighbors_solid_angle_ self = None ->
  convex_hull_ self = Some h ->
  solid_angle_lists_ self = Some sal ->
  in_range (length (neighbors (site self))) h ->
  exists acc self',
    combine_neighbor_solid_angles self = Ok (acc, self')
    /\ length acc = length (neighbors (site self))
    /\ (Qsum acc
        == Qsum (map (fun '(f, l) => Qsum (map snd (combine (items f) l)))
                     (combine (simplices h) sal)))%Q
    /\ combine_neighbor_solid_angles self' = Ok (acc, self').
Proof.
  intros Hnone Hh Hsal Hin.
  destruct (accumulate_loop_sum (combine (simplices h) sal)
              (repeat 0%Q (length (neighbors (site self)))))
    as (acc & Hacc & Hlen & Hsum).
  { intros f l i Hf Hi. rewrite repeat_length.
    apply in_combine_l in Hf. exact (Hin f i Hf Hi). }
  exists acc, (set_neighbors_solid_angle_ self acc).
  split; [|split; [|split]].
  - unfold combine_neighbor_solid_angles, convex_hull.
    rewrite Hnone, Hh. cbn [rbind]. rewrite Hsal. cbn [getattr rbind].
    rewrite Hacc. reflexivity.
  - rewrite Hlen. apply repeat_length.
  - rewrite Hsum, Qsum_repeat_zero. ring.
  - reflexivity.
Qed.

(** ** [analyze_hull_tetra_interstice] *)

(** The volume analysis takes its coordinate array from the attribute
    [self.site.nn_coords] as the area analysis does: for an atom with a
    hull of at least one facet, whose solid angles have been calculated,
    it raises [IndexError]; without the calculated angles it raises
    [AttributeError]. *)
Theorem tetra_interstice_raises (self : PackingOfSite) (h : Hull) :
  convex_hull_ self = None ->
  ConvexHull (nn_coords (site self)) = Ok h ->
  (solid_angle_lists_ self = None ->
   analyze_hull_tetra_interstice self = Raise AttributeError)
  /\ (in_range (length (nn_coords (site self))) h ->
      simplices h <> [] ->
      exists sal p1,
        calculate_hull_tetra_angles self = Ok (sal, p1)
        /\ analyze_hull_tetra_interstice p1 = Raise IndexError).
Proof.
  intros Hnone Hh. split.
  - intros Hsal. unfold analyze_hull_tetra_interstice, convex_hull.
    rewrite Hnone, Hh. cbn [rbind]. simpl solid_angle_lists_.
    rewrite Hsal. reflexivity.
  - intros Hin Hne.
    eexists _, _. split; [apply (tetra_angles_ok self h Hnone Hh Hin)|].
    unfold analyze_hull_tetra_interstice, convex_hull.
    simpl convex_hull_. cbn [rbind]. simpl solid_angle_lists_.
    cbn [getattr rbind].
    destruct (simplices h) as [|f fs]; [contradiction|].
    reflexivity.
Qed.

End Combine.

(** ** The angle calculations: shape and bounds *)

Lemma mapM_raise {A B} (f : A -> result B) (l : list A) (e : PyErr) :
  (forall x, In x l -> is_ok (f x) = true \/ f x = Raise e) ->
  (exists x, In x l /\ f x = Raise e) ->
  mapM f l = Raise e.
Proof.
  induction l as [|x l IH]; intros Hall [y [Hy Hfy]]; [destruct Hy|].
  simpl. destruct (Hall x (or_introl eq_refl)) as [Hok|Hr].
  - destruct (f x) as [v|] eqn:E; [|discriminate]. cbn [rbind].
    destruct Hy as [->|Hy]; [congruence|].
    rewrite IH; [reflexivity | | eauto].
    intros z Hz. apply Hall. right. exact Hz.
  - rewrite Hr. reflexivity.
Qed.

Lemma list_getitem_out {A} (l : list A) (i : nat) :
  (length l <= i)%nat -> list_getitem l i = Raise IndexError.
Proof.
  intros Hi. unfold list_getitem.
  rewrite (proj2 (nth_error_None l i) Hi). reflexivity.
Qed.

(** A facet either has its three vertices among the points, or the inner
    loop stops at its first vertex with [IndexError]. *)
Lemma facet_vertex_loop_cases (f : Coord -> Coord -> Coord -> Q)
    (nn : list Coord) (s : Simplex) :
  (forall i, In i (items s) -> (i < length nn)%nat)
  \/ (facet_vertex_loop f nn s = Raise IndexError
      /\ exists i, In i (items s) /\ (length nn <= i)%nat).
Proof.
  destruct s as [[a b] c].
  destruct (Nat.lt_ge_cases a (length nn)) as [Ha|Ha];
    [destruct (Nat.lt_ge_cases b (length nn)) as [Hb|Hb];
     [destruct (Nat.lt_ge_cases c (length nn)) as [Hc|Hc]|]|].
  - left. simpl. intros i [<-|[<-|[<-|[]]]]; assumption.
  - right. split; [|exists c; simpl; auto].
    unfold facet_vertex_loop. simpl.
    rewrite (list_getitem_point nn a Ha), (list_getitem_point nn b Hb).
    cbn [rbind]. rewrite (list_getitem_out nn c Hc). reflexivity.
  - right. split; [|exists b; simpl; auto].
    unfold facet_vertex_loop. simpl.
    rewrite (list_getitem_point nn a Ha). cbn [rbind].
    rewrite (list_getitem_out nn b Hb). reflexivity.
  - right. split; [|exists a; simpl; auto].
    unfold facet_vertex_loop. simpl.
    rewrite (list_getitem_out nn a Ha). reflexivity.
Qed.

Section Angles.
Context `{Externals}.

(** On an object whose hull can be built, the two angle calculations
    return, and store, one list of three angles per facet when every
    facet refers to existing neighbor positions; when some facet refers
    to a position that does not exist, both raise [IndexError]. *)
Theorem hull_angles_shape (self : PackingOfSite) (h : Hull) :
  convex_hull_ self = None ->
  ConvexHull (nn_coords (site self)) = Ok h ->
  (in_range (length (nn_coords (site self))) h ->
   exists tal sal p1 p2,
     calculate_hull_facet_angles self = Ok (tal, p1)
     /\ calculate_hull_tetra_angles self = Ok (sal, p2)
     /\ triangular_angle_lists_ p1 = Some tal
     /\ solid_angle_lists_ p2 = Some sal
     /\ length tal = length (simplices h)
     /\ length sal = length (simplices h)
     /\ (forall l, In l tal \/ In l sal -> length l = 3%nat))
  /\ (~ in_range (length (nn_coords (site self))) h ->
      calculate_hull_facet_angles self = Raise IndexError
      /\ calculate_hull_tetra_angles self = Raise IndexError).
Proof.
  intros Hnone Hh. split.
  - intros Hin. eexists _, _, _, _.
    split; [apply (facet_angles_ok self h Hnone Hh Hin)|].
    split; [apply (tetra_angles_ok self h Hnone Hh Hin)|].
    split; [reflexivity|]. split; [reflexivity|].
    split; [apply length_map|]. split; [apply length_map|].
    intros l [Hl|Hl]; apply in_map_iff in Hl as ([[a b] c] & <- & _);
      reflexivity.
  - intros Hout.
    assert (Hbad : forall f,
               exists s, In s (simplices h)
                         /\ facet_vertex_loop f (nn_coords (site self)) s
                            = Raise IndexError).
    { intros f.
      assert (Hdec : (forall s, In s (simplices h) ->
                        forall i, In i (items s) ->
                                  (i < length (nn_coords (site self)))%nat)
                     \/ exists s, In s (simplices h)
                          /\ facet_vertex_loop f (nn_coords (site self)) s
                             = Raise IndexError).
      { induction (simplices h) as [|s ss IH]; [left; intros s []|].
        destruct (facet_vertex_loop_cases f (nn_coords (site self)) s)
          as [Hs|[Hs _]].
        - destruct IH as [IH|(s' & Hs' & Hr)].
          + left. intros s' [<-|Hs']; [exact Hs | apply IH; exact Hs'].
          + right. exists s'. split; [right; exact Hs' | exact Hr].
        - right. exists s. split; [left; reflexivity | exact Hs]. }
      destruct Hdec as [Hall|Hex]; [|exact Hex].
      exfalso. apply Hout. intros s i Hs Hi. exact (Hall s Hs i Hi). }
    assert (Hall : forall f s,
               is_ok (facet_vertex_loop f (nn_coords (site self)) s) = true
               \/ facet_vertex_loop f (nn_coords (site self)) s
                  = Raise IndexError).
    { intros f s.
      destruct (facet_vertex_loop_cases f (nn_coords (site self)) s)
        as [Hs|[Hs _]]; [|right; exact Hs].
      left. destruct s as [[a b] c].
      rewrite facet_vertex_loop_ok; [reflexivity | | |];
        apply Hs; simpl; auto. }
    unfold calculate_hull_facet_angles, calculate_hull_tetra_angles,
      convex_hull.
    rewrite Hnone, Hh. cbn [rbind]. simpl site. split.
    + rewrite (mapM_raise _ _ IndexError); [reflexivity | |].
      * intros s _. apply Hall.
      * destruct (Hbad triangular_angle) as (s & Hs & Hr). eauto.
    + rewrite (mapM_raise _ _ IndexError); [reflexivity | |].
      * intros s _. apply Hall.
      * destruct (Hbad (fun p q r => solid_angle p (coords (site self)) q r))
          as (s & Hs & Hr). eauto.
Qed.

End Angles.

(** ** [glass_packing_efficiency]: divisions and the order of the
    neighbors *)

Lemma Qsum_perm {A} (g : A -> Q) (l1 l2 : list A) :
  Permutation l1 l2 -> (Qsum (map g l1) == Qsum (map g l2))%Q.
Proof.
  induction 1 as [|x l1 l2 _ IH|x y l|l1 l2 l3 _ IH1 _ IH2]; simpl.
  - reflexivity.
  - rewrite IH. reflexivity.
  - ring.
  - rewrite IH1. exact IH2.
Qed.

(** The number that the loop over the type dictionary leaves in [r]. *)
Lemma radius_total (self : PackingOfSite) :
  (forall nb, In nb (neighbors (site self)) -> has_radius self (type nb)) ->
  exists r,
    foldM (fun r '(t, n) =>
             let* rt := radius_of (radii self) (radius_type self) t in
             Ok (r + rt * inject_Z n)%Q)
          0%Q (nn_type_dict (site self)) = Ok r
    /\ (r == Qsum (map (fun nb => radius self (type nb))
                       (neighbors (site self))))%Q.
Proof.
  intros Hrad.
  destruct (radius_loop self (nn_type_dict (site self)) 0%Q) as (r & Hr & Heq).
  { intros k Hk. destruct (type_dict_keys _ _ _ Hk) as [[]|Hin].
    apply in_map_iff in Hin as (nb & <- & Hnb). apply Hrad. exact Hnb. }
  exists r. split; [exact Hr|].
  rewrite Heq. unfold nn_type_dict. rewrite type_dict_sum. simpl. ring.
Qed.

(** [glass_packing_efficiency] raises [ZeroDivisionError] for an atom
    without neighbors, whatever the radius table, and for an atom whose
    neighbors all have a radius entry but a weighted neighbor radius of
    zero. *)
Theorem glass_packing_efficiency_divisions (self : PackingOfSite) :
  (neighbors (site self) = [] ->
   glass_packing_efficiency self = Raise ZeroDivisionError)
  /\ (neighbors (site self) <> [] ->
      (forall t, In t (type (site self) :: map type (neighbors (site self))) ->
                 has_radius self t) ->
      (weighted_neighbor_radius self == 0)%Q ->
      glass_packing_efficiency self = Raise ZeroDivisionError).
Proof.
  split.
  - intros Hnil. unfold glass_packing_efficiency, nn_type_dict, cn.
    rewrite Hnil. reflexivity.
  - intros Hne Hrad Hw.
    destruct (radius_total self) as (r & Hr & Heq).
    { intros nb Hnb. apply Hrad. right. apply in_map. exact Hnb. }
    unfold glass_packing_efficiency. rewrite Hr. cbn [rbind].
    rewrite pydiv_ok.
    2:{ unfold cn. intros H0. unfold Qeq in H0. simpl in H0.
        destruct (neighbors (site self)); [congruence | simpl in H0; lia]. }
    cbn [rbind].
    rewrite (has_radius_radius self (type (site self)))
      by (apply Hrad; left; reflexivity).
    cbn [rbind]. rewrite pydiv_zero; [reflexivity|].
    rewrite Heq, <- weighted_neighbor_radius_eq. exact Hw.
Qed.

Lemma pydiv_compat (a b c d : Q) :
  (a == c)%Q -> (b == d)%Q ->
  match pydiv a b, pydiv c d with
  | Ok u, Ok v => (u == v)%Q
  | Raise e1, Raise e2 => e1 = e2
  | _, _ => False
  end.
Proof.
  intros Hac Hbd. unfold pydiv.
  destruct (Qeq_bool b 0) eqn:Eb, (Qeq_bool d 0) eqn:Ed.
  - reflexivity.
  - apply Qeq_bool_iff in Eb. apply Qeq_bool_false_neq in Ed.
    apply Ed. rewrite <- Hbd. exact Eb.
  - apply Qeq_bool_iff in Ed. apply Qeq_bool_false_neq in Eb.
    apply Eb. rewrite Hbd. exact Ed.
  - rewrite Hac, Hbd. reflexivity.
Qed.

(** The result of [glass_packing_efficiency] does not depend on the order
    in which the neighbors of the atom are listed: two objects with the
    same radius table and the same atom, whose lists of neighbors (all
    with a radius entry) are permutations of one another, both return,
    with equal numbers, or both raise the same exception. *)
Theorem glass_packing_efficiency_order (self1 self2 : PackingOfSite) :
  radii self1 = radii self2 ->
  radius_type self1 = radius_type self2 ->
  type (site self1) = type (site self2) ->
  Permutation (neighbors (site self1)) (neighbors (site self2)) ->
  (forall nb, In nb (neighbors (site self1)) -> has_radius self1 (type nb)) ->
  match glass_packing_efficiency self1, glass_packing_efficiency self2 with
  | Ok v1, Ok v2 => (v1 == v2)%Q
  | Raise e1, Raise e2 => e1 = e2
  | _, _ => False
  end.
Proof.
  intros Hradii Hrt Hty Hperm Hrad.
  assert (Hradius : forall t, radius self1 t = radius self2 t).
  { intros t. unfold radius. rewrite Hradii, Hrt. reflexivity. }
  assert (Hrad2 : forall nb, In nb (neighbors (site self2)) ->
                             has_radius self2 (type nb)).
  { intros nb Hnb. unfold has_radius. rewrite <- Hradii, <- Hrt.
    apply Hrad. apply (Permutation_in _ (Permutation_sym Hperm) Hnb). }
  destruct (radius_total self1 Hrad) as (r1 & Hr1 & Heq1).
  destruct (radius_total self2 Hrad2) as (r2 & Hr2 & Heq2).
  assert (Hr12 : (r1 == r2)%Q).
  { rewrite Heq1, Heq2.
    rewrite (Qsum_perm (fun nb => radius self1 (type nb)) _ _ Hperm).
    apply Qsum_map_ext. intros nb _. rewrite Hradius. reflexivity. }
  assert (Hcn : cn (site self1) = cn (site self2)).
  { unfold cn. rewrite (Permutation_length Hperm). reflexivity. }
  unfold glass_packing_efficiency. rewrite Hr1, Hr2. cbn [rbind].
  rewrite <- Hcn, <- Hradii, <- Hrt, <- Hty.
  pose proof (pydiv_compat r1 (inject_Z (cn (site self1))) r2
                (inject_Z (cn (site self1))) Hr12 (Qeq_refl _)) as Hd.
  destruct (pydiv r1 _) as [q1|e1], (pydiv r2 _) as [q2|e2];
    try contradiction; cbn [rbind]; [|exact Hd].
  destruct (radius_of (radii self1) (radius_type self1) (type (site self1)))
    as [rc|e]; cbn [rbind]; [|reflexivity].
  pose proof (pydiv_compat rc q1 rc q2 (Qeq_refl _) Hd) as Hq.
  destruct (pydiv rc q1) as [u1|e1], (pydiv rc q2) as [u2|e2];
    try contradiction; cbn [rbind]; [|exact Hq].
  destruct (getitem ideal_ratio_ (cn (site self1))) as [ideal|e];
    cbn [rbind]; [|reflexivity].
  rewrite Hq. reflexivity.
Qed.

(** ** [VolumeAreaInterstice]: widths, the empty table, the sites *)

(** The number of feature names is 2 for the packing efficiencies (when
    requested) plus 20 for the volume statistics and 20 for the area
    statistics (each when requested): 42 at most, and none when nothing
    is requested. *)
Theorem feature_names_count (self : VolumeAreaInterstice.t) :
  length (VolumeAreaInterstice.get_feature_names self)
  = ((if VolumeAreaInterstice.calc_packing_efficiency self then 2 else 0)
     + (if VolumeAreaInterstice.volume_requested self then 20 else 0)
     + (if VolumeAreaInterstice.area_requested self then 20 else 0))%nat.
Proof.
  unfold VolumeAreaInterstice.get_feature_names.
  destruct (VolumeAreaInterstice.calc_packing_efficiency self),
    (VolumeAreaInterstice.volume_requested self),
    (VolumeAreaInterstice.area_requested self); reflexivity.
Qed.

Section MoreTransform.
Context `{Externals}.

(** For a site of four or more neighbors, on the object as the
    constructor leaves it (no combined angles), the statements of the
    loop body return only when neither the packing efficiencies nor the
    volume nor the area statistics are requested, and then they return
    the empty list, which is the declared width: no configuration yields
    a non-empty feature row for such a site. *)
Theorem row_features_many_neighbors (self : VolumeAreaInterstice.t)
    (pos_ : PackingOfSite) :
  (4 <= length (neighbors (site pos_)))%nat ->
  neighbors_solid_angle_ pos_ = None ->
  (forall l, VolumeAreaInterstice.row_features self pos_ = Ok l ->
             l = [] /\ VolumeAreaInterstice.get_feature_names self = [])
  /\ (VolumeAreaInterstice.calc_packing_efficiency self = false ->
      VolumeAreaInterstice.volume_requested self = false ->
      VolumeAreaInterstice.area_requested self = false ->
      VolumeAreaInterstice.row_features self pos_ = Ok []).
Proof.
  intros Hlen Hnone. apply Nat.ltb_ge in Hlen.
  unfold VolumeAreaInterstice.row_features. rewrite Hlen.
  unfold VolumeAreaInterstice.feature_list_of,
    VolumeAreaInterstice.get_feature_names.
  split.
  - intros l.
    destruct (VolumeAreaInterstice.calc_packing_efficiency self).
    + assert (Hape : is_ok (atomic_packing_efficiency pos_) = false).
      { unfold atomic_packing_efficiency, cluster_packed_volume.
        rewrite Hnone.
        destruct (radius_of _ _ _); reflexivity. }
      destruct (atomic_packing_efficiency pos_); [discriminate|].
      discriminate.
    + cbn [rbind].
      destruct (VolumeAreaInterstice.volume_requested self); [discriminate|].
      destruct (VolumeAreaInterstice.area_requested self); [discriminate|].
      cbn [rbind]. intros [= <-]. split; reflexivity.
  - intros -> -> ->. reflexivity.
Qed.


End MoreTransform.

Lemma site_dict_snoc (l : list (Z * Coord * Z)) (row : Z * Coord * Z)
    (d : gmap Z Site) :
  fold_left (fun d '(idx, c, ty) => <[idx := mkSite idx c ty []]> d)
            (l ++ [row]) d
  = (let '(idx, c, ty) := row in
     <[idx := mkSite idx c ty []]>
       (fold_left (fun d '(idx, c, ty) => <[idx := mkSite idx c ty []]> d)
                  l d)).
Proof. rewrite fold_left_app. destruct row as [[idx c] ty]. reflexivity. Qed.

(** The dictionary of sites holds exactly the row labels of [lmp_df]; the
    site under a label carries that label, no neighbors, and the
    coordinates and type of the last row of [lmp_df] with that label. *)
Theorem site_dict_lookup (self : VolumeAreaInterstice.t) (idx : Z) :
  (is_ok (getitem (VolumeAreaInterstice.make_site_dict self) idx) = true
   <-> In idx (map (fun r => fst (fst r)) (VolumeAreaInterstice.lmp_df self)))
  /\ (forall l1 l2 c ty,
        VolumeAreaInterstice.lmp_df self = (l1 ++ (idx, c, ty) :: l2)%list ->
        ~ In idx (map (fun r => fst (fst r)) l2) ->
        getitem (VolumeAreaInterstice.make_site_dict self) idx
        = Ok (mkSite idx c ty [])).
Proof.
  unfold VolumeAreaInterstice.make_site_dict, getitem.
  generalize (VolumeAreaInterstice.lmp_df self) as l. intros l. split.
  - induction l as [|[[i c] ty] l IH] using rev_ind.
    + simpl. rewrite lookup_empty. simpl. split; [discriminate | tauto].
    + rewrite site_dict_snoc, map_app, in_app_iff. simpl.
      destruct (decide (i = idx)) as [->|Hne].
      * rewrite lookup_insert_eq. simpl. tauto.
      * rewrite lookup_insert_ne by exact Hne. rewrite IH.
        split; [tauto|]. intros [Hin|[Heq|[]]]; [exact Hin | congruence].
  - intros l1 l2. revert l. induction l2 as [|[[i c'] ty'] l2 IH] using rev_ind;
      intros l c ty -> Hnin.
    + rewrite site_dict_snoc. rewrite lookup_insert_eq. reflexivity.
    + rewrite app_comm_cons, app_assoc, site_dict_snoc.
      rewrite map_app, in_app_iff in Hnin. simpl in Hnin.
      rewrite lookup_insert_ne by (intros ->; apply Hnin; right; left; reflexivity).
      apply (IH _ c ty eq_refl). intros Hin. apply Hnin. left. exact Hin.
Qed.

(** ** [CharacterMotif]: the targets and the extra column *)

Lemma DataFrame_new_wrong_width {V} (data : list (list V)) (idx : list Z)
    (cols : list string) :
  (exists row, In row data /\ length row <> length cols) ->
  DataFrame_new data idx cols = Raise ValueError.
Proof.
  intros (row & Hrow & Hw). unfold DataFrame_new.
  assert (forallb (fun row => Nat.eqb (length row) (length cols)) data = false)
    as ->; [|rewrite andb_false_r; reflexivity].
  destruct (forallb _ data) eqn:E; [|reflexivity].
  rewrite forallb_forall in E. specialize (E row Hrow).
  apply Nat.eqb_eq in E. contradiction.
Qed.

Section MoreMotif.
Context `{Engines}.

(** A [CharacterMotif] constructed with targets of its own has no
    attribute [target_voro_idx] (the constructor assigns it only for the
    argument [None]): [get_feature_names] raises [AttributeError], and so
    does [transform], at once on a table with the Voronoi index and after
    the call of the Voronoi-index engine on a table without. *)
Theorem explicit_targets_raise (n : nat) (b : bool)
    (atoms : option (DataFrame Q)) (e : Z) (targets : Matrix) (fk : nat)
    (X : DataFrame Q) :
  let self := CharacterMotif.init n b atoms e (Some targets) fk in
  CharacterMotif.get_feature_names self = Raise AttributeError
  /\ (In "Voronoi idx5 voro" (columns X) ->
      CharacterMotif.transform self X = ([], Raise AttributeError))
  /\ (~ In "Voronoi idx5 voro" (columns X) ->
      forall X',
        VoroIndex_fit_transform (CharacterMotif.voro_index self) X = Ok X' ->
        CharacterMotif.transform self X
        = ([CharacterMotif.VoroIndex_called X], Raise AttributeError)).
Proof.
  intros self. split; [reflexivity|]. split.
  - intros Hin. rewrite (transform_present self X Hin). reflexivity.
  - intros Hnin X' HX'. unfold CharacterMotif.transform.
    assert (existsb (String.eqb "Voronoi idx5 voro") (columns X) = false) as ->.
    { destruct (existsb _ _) eqn:E; [|reflexivity].
      apply existsb_eqb_In in E. contradiction. }
    simpl negb. cbv iota. rewrite HX'. reflexivity.
Qed.

(** With the default targets the table of [transform] has four labels,
    and the array has three columns plus [frank_kasper]: for a
    [frank_kasper] other than 1 the construction of the table raises
    [ValueError] on every well-formed table that holds the Voronoi index
    and at least one atom. *)
Theorem frank_kasper_must_be_one (self : CharacterMotif.t) (X : DataFrame Q) :
  CharacterMotif.target_voro_idx self
  = Some CharacterMotif.default_target_voro_idx ->
  CharacterMotif.frank_kasper self <> 1%nat ->
  well_formed X = true ->
  In "Voronoi idx5 voro" (columns X) ->
  values X <> [] ->
  snd (CharacterMotif.transform self X) = Raise ValueError.
Proof.
  intros Htargets Hfk Hwf Hin Hne.
  rewrite (transform_present self X Hin).
  destruct (select_ok X (List.filter (fun col => startswith col "Voronoi idx")
                                     (columns X)) Hwf)
    as (vals & Hvals & Hlen).
  { intros name Hname. apply filter_In in Hname. tauto. }
  unfold CharacterMotif.classify. rewrite Htargets, Hvals.
  cbn [getattr rbind snd].
  unfold CharacterMotif.character_motif.
  set (fk := CharacterMotif.frank_kasper self) in *.
  rewrite (map_combine_snd
             (fun v =>
                (map (fun target =>
                        CharacterMotif.indicator
                          (CharacterMotif.vec_eqb v target))
                     CharacterMotif.default_target_voro_idx
                 ++ repeat
                      (CharacterMotif.indicator
                         (existsb (CharacterMotif.vec_eqb v)
                                  CharacterMotif.default_target_voro_idx))
                      fk)%list))
    by (unfold zeros; rewrite repeat_length; symmetry; exact Hlen).
  rewrite mapM_map.
  rewrite (mapM_ok_map _
             (fun v => CharacterMotif.indicator
                         (CharacterMotif.vec_eqb v icosahedral
                          || CharacterMotif.vec_eqb v defect_motif)));
    [|intros v _; simpl;
      destruct (CharacterMotif.vec_eqb v _), (CharacterMotif.vec_eqb v _);
      reflexivity].
  cbn [rbind]. rewrite map_map.
  rewrite (append_axis1_map _ (fun v => [_])).
  cbn [rbind]. unfold CharacterMotif.get_feature_names.
  rewrite Htargets. cbn [getattr rbind].
  apply DataFrame_new_wrong_width.
  destruct vals as [|v vals].
  { destruct (values X); [congruence | discriminate]. }
  eexists. split; [left; reflexivity|].
  rewrite !length_app, repeat_length. simpl. lia.
Qed.

End MoreMotif.

(** ** The labels of [VoroIndex] and of [BOOP] *)

Lemma to_int_not_nil (z : Z) :
  Z.to_int z <> Decimal.Pos Decimal.Nil /\ Z.to_int z <> Decimal.Neg Decimal.Nil.
Proof.
  split; intros Hz;
    (assert (z = 0) by (rewrite <- (DecimalZ.of_to z), Hz; reflexivity));
    subst z; discriminate Hz.
Qed.

(** [str] tells integers apart. *)
Lemma pystr_inj (a b : Z) : pystr a = pystr b -> a = b.
Proof.
  intros Heq. unfold pystr in Heq.
  apply (f_equal NilZero.int_of_string) in Heq.
  destruct (to_int_not_nil a) as [Ha1 Ha2].
  destruct (to_int_not_nil b) as [Hb1 Hb2].
  rewrite !NilZero.isi in Heq by assumption.
  injection Heq as Heq. apply DecimalZ.to_int_inj. exact Heq.
Qed.

Lemma In_range (a b e : Z) : In e (range a b) <-> a <= e < b.
Proof.
  unfold range. rewrite in_map_iff. split.
  - intros (i & <- & Hi). apply in_seq in Hi. lia.
  - intros He. exists (Z.to_nat (e - a)). split; [lia|].
    apply in_seq. lia.
Qed.

Lemma NoDup_range (a b : Z) : List.NoDup (range a b).
Proof.
  unfold range. apply Injective_map_NoDup; [|apply seq_NoDup].
  intros i j Hij. lia.
Qed.

Lemma voro_label_inj (a b : Z) :
  ("Voronoi idx" ++ pystr a ++ " voro")%string
  = ("Voronoi idx" ++ pystr b ++ " voro")%string -> a = b.
Proof.
  intros Heq. simpl in Heq. injection Heq as Heq.
  change ((pystr a ++ " voro")%string = (pystr b ++ " voro")%string) in Heq.
  apply append_inv_tail in Heq. apply pystr_inj. exact Heq.
Qed.

(** [VoroIndex] declares one label for every edge count from [edge_min]
    to [edge_max], no label twice; the label "Voronoi idx5 voro", on
    which [CharacterMotif] depends, is among them exactly when
    [edge_min <= 5 <= edge_max], as it is for the featurizer that
    [CharacterMotif.transform] builds. *)
Theorem voro_index_labels (self : VoroIndex.t) :
  length (VoroIndex.get_feature_names self)
  = Z.to_nat (VoroIndex.edge_max self - VoroIndex.edge_min self + 1)
  /\ List.NoDup (VoroIndex.get_feature_names self)
  /\ (forall e, In ("Voronoi idx" ++ pystr e ++ " voro")%string
                   (VoroIndex.get_feature_names self)
                <-> VoroIndex.edge_min self <= e <= VoroIndex.edge_max self)
  /\ (In "Voronoi idx5 voro" (VoroIndex.get_feature_names self)
      <-> VoroIndex.edge_min self <= 5 <= VoroIndex.edge_max self)
  /\ (forall m : CharacterMotif.t,
        In "Voronoi idx5 voro"
           (VoroIndex.get_feature_names (CharacterMotif.voro_index m))).
Proof.
  unfold VoroIndex.get_feature_names.
  assert (Hlabel : forall e,
             In ("Voronoi idx" ++ pystr e ++ " voro")%string
                (map (fun edge => ("Voronoi idx" ++ pystr edge ++ " voro")%string)
                     (range (VoroIndex.edge_min self)
                            (VoroIndex.edge_max self + 1)))
             <-> VoroIndex.edge_min self <= e <= VoroIndex.edge_max self).
  { intros e. rewrite in_map_iff. split.
    - intros (e' & Heq & Hin). apply voro_label_inj in Heq. subst e'.
      apply In_range in Hin. lia.
    - intros He. exists e. split; [reflexivity|]. apply In_range. lia. }
  split; [|split; [|split; [|split]]].
  - rewrite length_map. unfold range. rewrite length_map, length_seq.
    f_equal. lia.
  - apply Injective_map_NoDup; [|apply NoDup_range].
    intros a b. apply voro_label_inj.
  - exact Hlabel.
  - apply (Hlabel 5).
  - intros m. vm_compute. tauto.
Qed.

Lemma boop_labels_eq (self : BOOP.t) :
  BOOP.get_feature_names self
  = map (fun q => (q ++ BOOP.dependency_name self)%string)
      ["q_4 "; "q_6 "; "q_8 "; "q_10 ";
       "w_4 "; "w_6 "; "w_8 "; "w_10 ";
       "Coarse-grained q_4 "; "Coarse-grained q_6 ";
       "Coarse-grained q_8 "; "Coarse-grained q_10 ";
       "Coarse-grained w_4 "; "Coarse-grained w_6 ";
       "Coarse-grained w_8 "; "Coarse-grained w_10 "].
Proof. reflexivity. Qed.

(** [BOOP] declares sixteen labels, all different, whatever the name of
    the dependency: a label names one column. *)
Theorem boop_labels_distinct (self : BOOP.t) :
  length (BOOP.get_feature_names self) = 16%nat
  /\ List.NoDup (BOOP.get_feature_names self).
Proof.
  split; [reflexivity|].
  rewrite boop_labels_eq. apply Injective_map_NoDup.
  - intros a b. apply append_inv_tail.
  - apply NoDup_ListNoDup. apply (bool_decide_unpack _). vm_compute. exact I.
Qed.

(** ** Missing columns *)

Lemma row_getitem_missing {V} (cols : list string) (row : list V)
    (name : string) :
  ~ In name cols -> row_getitem cols row name = Raise KeyError.
Proof.
  intros Hnin. unfold row_getitem.
  destruct (position name cols) as [i|] eqn:E; [|reflexivity].
  exfalso. apply Hnin. clear Hnin. revert i E.
  induction cols as [|c cols IH]; intros i E; [discriminate|].
  simpl in E. destruct (String.eqb_spec c name) as [->|Hne].
  - left. reflexivity.
  - right. destruct (position name cols); [|discriminate].
    eapply IH. reflexivity.
Qed.

Lemma select_cases {V} (X : DataFrame V) (names : list string) :
  is_ok (select X names) = true \/ select X names = Raise KeyError.
Proof.
  unfold select. apply mapM_cases. intros row.
  apply mapM_cases. intros name. apply row_getitem_cases.
Qed.

Lemma select_missing {V} (X : DataFrame V) (names : list string)
    (name : string) :
  values X <> [] -> In name names -> ~ In name (columns X) ->
  select X names = Raise KeyError.
Proof.
  intros Hne Hin Hnin. unfold select.
  destruct (values X) as [|row rows]; [congruence|].
  simpl. rewrite (mapM_raise _ names KeyError); [reflexivity | |].
  - intros n _. apply row_getitem_cases.
  - exists name. split; [exact Hin|]. apply row_getitem_missing. exact Hnin.
Qed.

Section MoreBoop.
Context `{Engines}.

(** On a table with at least one row that lacks the neighbor-count
    column or one of the neighbor-id columns of the dependency,
    [BOOP.transform] raises [KeyError]. *)
Theorem boop_missing_column (self : BOOP.t) (X : DataFrame Q)
    (name : string) :
  values X <> [] ->
  In name (BOOP.neighbor_col self ++ BOOP.id_cols self)%list ->
  ~ In name (columns X) ->
  BOOP.transform self X = Raise KeyError.
Proof.
  intros Hne Hin Hnin. unfold BOOP.transform, BOOP.boop_arrays.
  apply in_app_iff in Hin as [Hin|Hin].
  - rewrite (select_missing X _ name Hne Hin Hnin). reflexivity.
  - destruct (select_cases X (BOOP.neighbor_col self)) as [Hok|Hr].
    + destruct (select X (BOOP.neighbor_col self)); [|discriminate].
      cbn [rbind]. rewrite (select_missing X _ name Hne Hin Hnin).
      reflexivity.
    + rewrite Hr. reflexivity.
Qed.

End MoreBoop.

(** * The properties on the sample data *)

Section Samples.

#[local] Existing Instance sample_externals.
#[local] Existing Instance sample_engines.

Lemma transform_raises_on_first_row_witness :
  is_ok (VolumeAreaInterstice.transform (sample_featurizer tetrahedron_site)
           four_neighbors) = false
  /\ VolumeAreaInterstice.transform (sample_featurizer tetrahedron_site)
       four_neighbors = Raise TypeError.
Proof.
  pose proof (transform_raises_on_first_row
                (sample_featurizer tetrahedron_site) four_neighbors
                1 [4; 2; 3; 4; 5; 0]%Q [] eq_refl) as (_ & Hno & Hty & _).
  split; [exact Hno | apply Hty; vm_compute; reflexivity].
Defined.

(** C9, as stated, fails for a table whose first row names an atom that
    the snapshot does not hold: the lookup of the site of that atom
    raises [KeyError] before the constructor is called, so the exception
    of the run is not the [TypeError]. *)
Lemma transform_unknown_neighbor_raises :
  iterrows unknown_neighbor = [(1, [1; 9; 0; 0; 0; 0]%Q)]
  /\ VolumeAreaInterstice.transform (sample_featurizer tetrahedron_site)
       unknown_neighbor = Raise KeyError
  /\ VolumeAreaInterstice.transform (sample_featurizer tetrahedron_site)
       unknown_neighbor <> Raise TypeError.
Proof.
  split; [reflexivity|].
  assert (E : VolumeAreaInterstice.transform
                (sample_featurizer tetrahedron_site) unknown_neighbor
              = Raise KeyError) by (vm_compute; reflexivity).
  split; [exact E | rewrite E; discriminate].
Qed.

(** C1.  A row of three valid neighbors: the constructor call raises
    before the test on the number of neighbors, so no row of zeros is
    emitted, although the branch that the test selects for this site is
    the row of zeros of the width of [get_feature_names]. *)
Theorem transform_three_neighbors_raises :
  VolumeAreaInterstice.transform (sample_featurizer tetrahedron_site)
    three_neighbors = Raise TypeError
  /\ VolumeAreaInterstice.row_features (sample_featurizer tetrahedron_site)
       (PackingOfSite_init
          (VolumeAreaInterstice.set_neighbors tetrahedron_site
             (firstn 3 (neighbors tetrahedron_site)))
          (Some sample_radii) "miracle_radius")
     = Ok (repeat 0%Q
             (length (VolumeAreaInterstice.get_feature_names
                        (sample_featurizer tetrahedron_site)))).
Proof.
  split; [vm_compute; reflexivity|].
  apply row_features_few_neighbors. simpl. lia.
Qed.




Lemma glass_packing_efficiency_formula_witness :
  (exists v ideal,
     glass_packing_efficiency
       (PackingOfSite_init tetrahedron_site None "miracle_radius") = Ok v
     /\ ideal_ratio_ !! 4 = Some ideal
     /\ (v == 1.58 / ((1.26 * 3 / 4) + (1.58 * 1 / 4)) - ideal)%Q)
  /\ (exists e,
        glass_packing_efficiency
          (PackingOfSite_init
             (VolumeAreaInterstice.set_neighbors tetrahedron_site [])
             None "miracle_radius") = Raise e).
Proof.
  split.
  - destruct (proj1 (glass_packing_efficiency_formula
               (PackingOfSite_init tetrahedron_site None "miracle_radius")))
      as (v & ideal & Hv & Hi & Heq).
    + vm_compute. split; discriminate.
    + intros t Ht. simpl in Ht.
      repeat (destruct Ht as [<-|Ht]; [vm_compute; reflexivity|]).
      destruct Ht.
    + vm_compute. discriminate.
    + exists v, ideal. split; [exact Hv|]. split; [exact Hi|].
      rewrite Heq. vm_compute. reflexivity.
  - apply (proj2 (proj2 (glass_packing_efficiency_formula
             (PackingOfSite_init
                (VolumeAreaInterstice.set_neighbors tetrahedron_site [])
                None "miracle_radius")))).
    vm_compute. intros [Hle _]. apply Hle. reflexivity.
Defined.

(** C3, as stated, fails for an atom of four neighbors whose types all
    have a radius entry, the entries being zero: the weighted neighbor
    radius is zero and [glass_packing_efficiency] raises
    [ZeroDivisionError] where the claim names a value. *)
Lemma zero_radius_raises :
  cn tetrahedron_site = 4
  /\ has_radius
       (PackingOfSite_init tetrahedron_site (Some zero_radii)
          "miracle_radius") 40
  /\ has_radius
       (PackingOfSite_init tetrahedron_site (Some zero_radii)
          "miracle_radius") 29
  /\ map type (tetrahedron_site :: neighbors tetrahedron_site)
     = [40; 29; 29; 29; 40]
  /\ glass_packing_efficiency
       (PackingOfSite_init tetrahedron_site (Some zero_radii)
          "miracle_radius")
     = Raise ZeroDivisionError.
Proof.
  repeat split; vm_compute; reflexivity.
Qed.

Lemma atomic_packing_efficiency_formula_witness :
  exists e p,
    (let* (_, p1) := calculate_hull_tetra_angles
                       (PackingOfSite_init tetrahedron_site None
                          "miracle_radius") in
     let* (_, p2) := combine_neighbor_solid_angles p1 in
     atomic_packing_efficiency p2) = Ok (e, p)
    /\ (e == cluster_packed_volume_spec
               (PackingOfSite_init tetrahedron_site None "miracle_radius")
               (sample_hull (nn_coords tetrahedron_site))
             / volume (sample_hull (nn_coords tetrahedron_site)))%Q.
Proof.
  destruct (atomic_packing_efficiency_formula
              (PackingOfSite_init tetrahedron_site None "miracle_radius")
              (sample_hull (nn_coords tetrahedron_site)))
    as (sal & p1 & acc & p2 & v & e & p3 & H1 & H2 & _ & _ & _ & _ & H3 & H4).
  - reflexivity.
  - reflexivity.
  - vm_compute. reflexivity.
  - intros f i Hf Hi. vm_compute in Hf.
    repeat (destruct Hf as [<-|Hf];
            [vm_compute in Hi;
             repeat (destruct Hi as [<-|Hi]; [vm_compute; lia|]);
             destruct Hi|]).
    destruct Hf.
  - intros f i Hf Hi. vm_compute in Hf.
    repeat (destruct Hf as [<-|Hf];
            [vm_compute in Hi;
             repeat (destruct Hi as [<-|Hi]; [vm_compute; lia|]);
             destruct Hi|]).
    destruct Hf.
  - intros t Ht. simpl in Ht.
    repeat (destruct Ht as [<-|Ht]; [vm_compute; reflexivity|]).
    destruct Ht.
  - vm_compute. discriminate.
  - exists e, p3. split; [|exact H4].
    rewrite H1. cbn [rbind]. rewrite H2. cbn [rbind]. exact H3.
Defined.

Lemma facet_interstice_raises_witness :
  exists tal p1,
    calculate_hull_facet_angles
      (PackingOfSite_init tetrahedron_site None "miracle_radius")
    = Ok (tal, p1)
    /\ analyze_hull_facet_interstice p1 = Raise IndexError.
Proof.
  apply (facet_interstice_raises
           (PackingOfSite_init tetrahedron_site None "miracle_radius")
           (sample_hull (nn_coords tetrahedron_site))).
  - reflexivity.
  - vm_compute. reflexivity.
  - intros f i Hf Hi. vm_compute in Hf.
    repeat (destruct Hf as [<-|Hf];
            [vm_compute in Hi;
             repeat (destruct Hi as [<-|Hi]; [vm_compute; lia|]);
             destruct Hi|]).
    destruct Hf.
  - vm_compute. discriminate.
Defined.

Lemma voro_index_computed_once_if_absent_witness :
  CharacterMotif.VoroIndex_calls
    (fst (CharacterMotif.transform sample_motif indexed_table)) = O
  /\ CharacterMotif.VoroIndex_calls
       (fst (CharacterMotif.transform sample_motif bare_table)) = 1%nat.
Proof.
  split.
  - apply (proj1 (voro_index_computed_once_if_absent sample_motif
                    indexed_table)).
    simpl. tauto.
  - apply (proj1 (proj2 (voro_index_computed_once_if_absent sample_motif
                           bare_table))).
    simpl. intros [Heq|[]]. discriminate.
Defined.

Lemma motif_indicators_witness :
  exists df events,
    CharacterMotif.transform sample_motif indexed_table = (events, Ok df)
    /\ cell df 0 "is <0,0,12,0,0> voro" = Some 1
    /\ cell df 0 "is polytetrahedral voro" = Some 1
    /\ nth_error (values df) 1 = Some [0; 0; 0; 0].
Proof.
  destruct (motif_indicators sample_motif indexed_table)
    as (vals & df & events & Hvals & _ & Ht & Hrows).
  - reflexivity.
  - reflexivity.
  - reflexivity.
  - simpl. tauto.
  - exists df, events. split; [exact Ht|].
    vm_compute in Hvals. injection Hvals as <-.
    destruct (Hrows O [0; 0; 12; 0; 0]%Q eq_refl)
      as (_ & _ & H0 & _ & Hp & _ & _).
    destruct (Hrows 1%nat [0; 1; 10; 3; 0]%Q eq_refl)
      as (_ & _ & _ & _ & _ & _ & Hz).
    split; [exact H0|]. split; [exact Hp|].
    apply Hz; reflexivity.
Defined.

Lemma boop_columns_in_fixed_order_witness :
  exists df,
    BOOP.transform sample_boop boop_table = Ok df
    /\ nth_error (values df) 0
       = Some [0.4; 0.6; 0.8; 0.1; 1.4; 1.6; 1.8; 1.1;
               2.4; 2.6; 2.8; 2.1; 3.4; 3.6; 3.8; 3.1]%Q
    /\ cell df 0 "Coarse-grained q_8 voro" = Some 2.8%Q.
Proof.
  destruct (boop_columns_in_fixed_order sample_boop boop_table
              [[0.4; 0.6; 0.8; 0.1]; [0.4; 0.6; 0.8; 0.1]]%Q
              [[1.4; 1.6; 1.8; 1.1]; [1.4; 1.6; 1.8; 1.1]]%Q
              [[2.4; 2.6; 2.8; 2.1]; [2.4; 2.6; 2.8; 2.1]]%Q
              [[3.4; 3.6; 3.8; 3.1]; [3.4; 3.6; 3.8; 3.1]]%Q)
    as (df & Ht & _ & _ & Hrows); try reflexivity.
  exists df. split; [exact Ht|].
  destruct (Hrows O _ _ _ _ eq_refl eq_refl eq_refl eq_refl) as [Hrow Hcells].
  split; [exact Hrow|].
  destruct (Hcells 2%nat "8" eq_refl) as (_ & _ & Hcq & _).
  exact Hcq.
Defined.

(** ** The further properties on the sample data *)

Lemma check_list_equal_permutation_witness :
  check_list_equal (fun _ _ => false) [3; 1; 2; 1] [1; 2; 1; 3] = true
  /\ Permutation [3; 1; 2; 1] [1; 2; 1; 3].
Proof.
  split; [reflexivity|].
  apply (proj1 (check_list_equal_permutation (fun _ _ => false)
                  [3; 1; 2; 1] [1; 2; 1; 3] eq_refl eq_refl)).
  reflexivity.
Defined.

Lemma check_list_contain_spec_witness : In 2 [3; 2; 1].
Proof.
  apply (proj1 (check_list_contain_spec [3; 2; 1] [2; 2; 3])).
  - vm_compute. reflexivity.
  - simpl. tauto.
Defined.

Lemma check_dict_key_contain_spec_witness :
  is_ok (getitem sample_radii "40") = true.
Proof.
  apply (proj1 (check_dict_key_contain_spec sample_radii ["29"; "40"])).
  - vm_compute. reflexivity.
  - simpl. tauto.
Defined.

Lemma atom_mapping_keeps_witness :
  exists df',
    atom_mapping (fun _ => false) atoms_table "number"
      (Some [29; 40]%Q) (Some [40]%Q) = Ok df'
    /\ iterrows df' = [(10, [29; 0.5]%Q); (12, [29; 2.5]%Q)].
Proof.
  destruct (proj2 (proj2 (atom_mapping_keeps (fun _ => false) atoms_table
                            "number" (Some [29; 40]%Q) (Some [40]%Q))))
    as (df' & Hdf & _ & Hrows).
  - reflexivity.
  - simpl. tauto.
  - exists df'. split; [exact Hdf|]. rewrite Hrows. vm_compute. reflexivity.
Defined.

Lemma convex_hull_memoized_witness :
  exists h p,
    convex_hull (PackingOfSite_init tetrahedron_site None "miracle_radius")
    = Ok (h, p)
    /\ convex_hull p = Ok (h, p).
Proof.
  destruct (convex_hull
              (PackingOfSite_init tetrahedron_site None "miracle_radius"))
    as [[h p]|] eqn:E; [|vm_compute in E; discriminate].
  exists h, p. split; [reflexivity|].
  apply (proj1 (proj2 (convex_hull_memoized _ _ _ E))).
Defined.

Lemma packed_volume_needs_combined_angles_witness :
  atomic_packing_efficiency
    (PackingOfSite_init tetrahedron_site None "miracle_radius")
  = Raise AttributeError.
Proof.
  apply (proj1 (packed_volume_needs_combined_angles
                  (PackingOfSite_init tetrahedron_site None "miracle_radius")
                  eq_refl)).
  vm_compute. reflexivity.
Defined.

Lemma combined_angles_conserve_witness :
  exists acc p,
    combine_neighbor_solid_angles
      (set_solid_angle_lists_
         (set_convex_hull_
            (PackingOfSite_init tetrahedron_site None "miracle_radius")
            (sample_hull (nn_coords tetrahedron_site)))
         (map (facet_solid_angles tetrahedron_site)
              (simplices (sample_hull (nn_coords tetrahedron_site)))))
    = Ok (acc, p)
    /\ length acc = 4%nat.
Proof.
  destruct (combined_angles_conserve
              (set_solid_angle_lists_
                 (set_convex_hull_
                    (PackingOfSite_init tetrahedron_site None "miracle_radius")
                    (sample_hull (nn_coords tetrahedron_site)))
                 (map (facet_solid_angles tetrahedron_site)
                      (simplices (sample_hull (nn_coords tetrahedron_site)))))
              (sample_hull (nn_coords tetrahedron_site))
              (map (facet_solid_angles tetrahedron_site)
                   (simplices (sample_hull (nn_coords tetrahedron_site)))))
    as (acc & p & Hc & Hlen & _ & _).
  - reflexivity.
  - reflexivity.
  - reflexivity.
  - intros f i Hf Hi. vm_compute in Hf.
    repeat (destruct Hf as [<-|Hf];
            [vm_compute in Hi;
             repeat (destruct Hi as [<-|Hi]; [vm_compute; lia|]);
             destruct Hi|]).
    destruct Hf.
  - exists acc, p. split; [exact Hc | exact Hlen].
Defined.

Lemma sample_hull_in_range :
  in_range (length (nn_coords tetrahedron_site))
           (sample_hull (nn_coords tetrahedron_site)).
Proof.
  intros f i Hf Hi. vm_compute in Hf.
  repeat (destruct Hf as [<-|Hf];
          [vm_compute in Hi;
           repeat (destruct Hi as [<-|Hi]; [vm_compute; lia|]);
           destruct Hi|]).
  destruct Hf.
Qed.

Lemma sample_hull_built :
  ConvexHull (nn_coords tetrahedron_site)
  = Ok (sample_hull (nn_coords tetrahedron_site)).
Proof. vm_compute. reflexivity. Qed.

Lemma tetra_interstice_raises_witness :
  exists sal p1,
    calculate_hull_tetra_angles
      (PackingOfSite_init tetrahedron_site None "miracle_radius")
    = Ok (sal, p1)
    /\ analyze_hull_tetra_interstice p1 = Raise IndexError.
Proof.
  apply (proj2 (tetra_interstice_raises
                  (PackingOfSite_init tetrahedron_site None "miracle_radius")
                  (sample_hull (nn_coords tetrahedron_site))
                  eq_refl sample_hull_built)).
  - exact sample_hull_in_range.
  - vm_compute. discriminate.
Defined.

Lemma hull_angles_shape_witness :
  exists tal p1,
    calculate_hull_facet_angles
      (PackingOfSite_init tetrahedron_site None "miracle_radius")
    = Ok (tal, p1)
    /\ length tal = 4%nat.
Proof.
  destruct (proj1 (hull_angles_shape
                     (PackingOfSite_init tetrahedron_site None
                        "miracle_radius")
                     (sample_hull (nn_coords tetrahedron_site))
                     eq_refl sample_hull_built)
              sample_hull_in_range)
    as (tal & sal & p1 & p2 & Ht & _ & _ & _ & Hlen & _).
  exists tal, p1. split; [exact Ht|]. rewrite Hlen. vm_compute. reflexivity.
Defined.

Lemma glass_packing_efficiency_divisions_witness :
  glass_packing_efficiency
    (PackingOfSite_init
       (VolumeAreaInterstice.set_neighbors tetrahedron_site [])
       None "miracle_radius")
  = Raise ZeroDivisionError.
Proof.
  apply (proj1 (glass_packing_efficiency_divisions
                  (PackingOfSite_init
                     (VolumeAreaInterstice.set_neighbors tetrahedron_site [])
                     None "miracle_radius"))).
  reflexivity.
Defined.

Lemma glass_packing_efficiency_order_witness :
  match
    glass_packing_efficiency
      (PackingOfSite_init tetrahedron_site None "miracle_radius"),
    glass_packing_efficiency
      (PackingOfSite_init
         (VolumeAreaInterstice.set_neighbors tetrahedron_site
            (rev (neighbors tetrahedron_site)))
         None "miracle_radius")
  with
  | Ok v1, Ok v2 => (v1 == v2)%Q
  | Raise e1, Raise e2 => e1 = e2
  | _, _ => False
  end.
Proof.
  apply (glass_packing_efficiency_order
           (PackingOfSite_init tetrahedron_site None "miracle_radius")
           (PackingOfSite_init
              (VolumeAreaInterstice.set_neighbors tetrahedron_site
                 (rev (neighbors tetrahedron_site)))
              None "miracle_radius")).
  - reflexivity.
  - reflexivity.
  - reflexivity.
  - apply Permutation_rev.
  - intros nb Hnb. simpl in Hnb.
    repeat (destruct Hnb as [<-|Hnb]; [vm_compute; reflexivity|]).
    destruct Hnb.
Defined.

Lemma row_features_many_neighbors_witness :
  VolumeAreaInterstice.row_features
    (VolumeAreaInterstice.mk (sample_lmp_df tetrahedron_site) 5 "voro"
       (Some sample_radii) "miracle_radius" false "none")
    (PackingOfSite_init tetrahedron_site None "miracle_radius")
  = Ok [].
Proof.
  apply (proj2 (row_features_many_neighbors
                  (VolumeAreaInterstice.mk (sample_lmp_df tetrahedron_site)
                     5 "voro" (Some sample_radii) "miracle_radius" false
                     "none")
                  (PackingOfSite_init tetrahedron_site None "miracle_radius")
                  ltac:(simpl; lia) eq_refl));
    reflexivity.
Defined.


Lemma site_dict_lookup_witness :
  getitem (VolumeAreaInterstice.make_site_dict
             (sample_featurizer tetrahedron_site)) 3
  = Ok (mkSite 3 (1, -1, -1)%Q 29 []).
Proof.
  apply (proj2 (site_dict_lookup (sample_featurizer tetrahedron_site) 3)
           [(1, (0, 0, 0)%Q, 40); (2, (1, 1, 1)%Q, 29)]
           [(4, (-1, 1, -1)%Q, 29); (5, (-1, -1, 1)%Q, 40)]).
  - reflexivity.
  - simpl. intros [H|[H|[]]]; discriminate.
Defined.

Lemma explicit_targets_raise_witness :
  CharacterMotif.transform
    (CharacterMotif.init 80 true None 3 (Some [[0; 0; 12; 0; 0]%Q]) 1)
    indexed_table
  = ([], Raise AttributeError).
Proof.
  apply (proj1 (proj2 (explicit_targets_raise 80 true None 3
                         [[0; 0; 12; 0; 0]%Q] 1 indexed_table))).
  simpl. tauto.
Defined.

Lemma frank_kasper_must_be_one_witness :
  snd (CharacterMotif.transform (CharacterMotif.init 80 true None 3 None 0)
         indexed_table) = Raise ValueError.
Proof.
  apply (frank_kasper_must_be_one
           (CharacterMotif.init 80 true None 3 None 0) indexed_table).
  - reflexivity.
  - simpl. lia.
  - reflexivity.
  - simpl. tauto.
  - discriminate.
Defined.

Lemma voro_index_labels_witness :
  In "Voronoi idx5 voro"
     (VoroIndex.get_feature_names (VoroIndex.mk 80 true 3 7))
  /\ ~ In "Voronoi idx5 voro"
       (VoroIndex.get_feature_names (VoroIndex.mk 80 true 6 9)).
Proof.
  split.
  - apply (proj2 (proj1 (proj2 (proj2 (proj2
             (voro_index_labels (VoroIndex.mk 80 true 3 7))))))).
    simpl. lia.
  - intros Hin.
    apply (proj1 (proj1 (proj2 (proj2 (proj2
             (voro_index_labels (VoroIndex.mk 80 true 6 9))))))) in Hin.
    simpl in Hin. lia.
Defined.

Lemma boop_missing_column_witness :
  BOOP.transform sample_boop bare_table = Raise KeyError.
Proof.
  apply (boop_missing_column sample_boop bare_table "neighbor_id_0_voro").
  - discriminate.
  - simpl. tauto.
  - simpl. intros [H|[]]. discriminate.
Defined.

End Samples.
